(** * Execution tracking core: status machine, execution entities,
      repository with optimistic locking, unit of work.

    A shallow embedding of the Python sources

      - [project/domain/enums.py]                       (module [Enums])
      - [project/domain/events.py], [exceptions/domain.py]
      - [project/domain/base.py]                        (module [DomainEntity])
      - [project/domain/entities/execution.py]          (modules [Run], [ItemExecution])
      - [project/infrastructure/database/repositories/base.py]
      - [project/infrastructure/uow/unit_of_work.py]

    Conventions.  A [UUID] is a natural number, a [datetime] an integer
    count of microseconds.  [datetime.now(timezone.utc)] is an input of
    the method that reads it: a method with several calls of it takes
    [now : nat -> datetime], indexed by call site in textual order.
    A Python method that mutates [self] and may raise becomes a function
    to [result]: the object as the call leaves it, and the exception if
    one was raised. *)

From stdpp Require Import base decidable option list strings gmap fin_maps pretty.
From Stdlib Require Import ZArith Lia.

Local Open Scope Z_scope.
Local Open Scope string_scope.

Abbreviation UUID := N.
Abbreviation datetime := Z.

(** ** Outcomes of a mutating method *)

Inductive result (E S : Type) : Type :=
| Return (s : S)
| Raise (e : E) (s : S).
Arguments Return {E S} s.
Arguments Raise {E S} e s.

Definition state_of {E S} (r : result E S) : S :=
  match r with Return s => s | Raise _ s => s end.

Definition raised {E S} (r : result E S) : option E :=
  match r with Return _ => None | Raise e _ => Some e end.

(** ** [enums.py]: ExecutionStatus *)

Module Enums.

Inductive ExecutionStatus : Type :=
| PENDING | PROCESSING | COMPLETED | FAILED | CANCELLED | SKIPPED | RETRYING.

#[global] Instance ExecutionStatus_eq_dec : EqDecision ExecutionStatus.
Proof. solve_decision. Defined.

(** [self.value] *)
Definition value (s : ExecutionStatus) : string :=
  match s with
  | PENDING => "PENDING" | PROCESSING => "PROCESSING" | COMPLETED => "COMPLETED"
  | FAILED => "FAILED" | CANCELLED => "CANCELLED" | SKIPPED => "SKIPPED"
  | RETRYING => "RETRYING"
  end.

Definition is_finished (s : ExecutionStatus) : bool :=
  bool_decide (s ∈ [COMPLETED; FAILED; CANCELLED; SKIPPED]).

Definition is_active (s : ExecutionStatus) : bool :=
  bool_decide (s ∈ [PENDING; PROCESSING; RETRYING]).

Definition is_running (s : ExecutionStatus) : bool :=
  bool_decide (s ∈ [PROCESSING; RETRYING]).

(** The dictionary [valid_transitions] of [can_transition_to]; every
    member of the enumeration is a key, so [.get(self, set())] never
    takes its default. *)
Definition valid_transitions (s : ExecutionStatus) : list ExecutionStatus :=
  match s with
  | PENDING => [PROCESSING; CANCELLED; SKIPPED]
  | PROCESSING => [COMPLETED; FAILED; RETRYING; CANCELLED]
  | RETRYING => [PROCESSING; FAILED; CANCELLED]
  | COMPLETED => []
  | FAILED => [PENDING; RETRYING]
  | CANCELLED => []
  | SKIPPED => []
  end.

Definition can_transition_to (self new_status : ExecutionStatus) : bool :=
  bool_decide (new_status ∈ valid_transitions self).

(** The transition table as the specification prints it (section 4.1),
    one pair per legal move. *)
Definition spec_transition_table : list (ExecutionStatus * ExecutionStatus) :=
  [ (PENDING, PROCESSING); (PENDING, CANCELLED); (PENDING, SKIPPED);
    (PROCESSING, COMPLETED); (PROCESSING, FAILED); (PROCESSING, RETRYING);
    (PROCESSING, CANCELLED);
    (RETRYING, PROCESSING); (RETRYING, FAILED); (RETRYING, CANCELLED);
    (FAILED, PENDING); (FAILED, RETRYING) ].

Definition terminal_states : list ExecutionStatus := [COMPLETED; CANCELLED; SKIPPED].

End Enums.
Export Enums.

(** ** [events.py]: domain events (each a [@dataclass]) *)

Inductive DomainEvent : Type :=
| ItemExecutionFailed (item_execution_id run_id item_id : UUID)
    (error_message : string) (attempt_count : Z) (timestamp : datetime)
| RunCompleted (run_id automation_id : UUID) (finished_at timestamp : datetime)
| RunFailed (run_id automation_id : UUID) (error_summary : string)
    (finished_at timestamp : datetime)
| RunCancelled (run_id automation_id : UUID) (cancellation_reason : string)
    (finished_at timestamp : datetime)
| BatchExecutionFailed (batch_execution_id run_id batch_id : UUID)
    (finished_at timestamp : datetime).

#[global] Instance DomainEvent_eq_dec : EqDecision DomainEvent.
Proof. solve_decision. Defined.

(** ** [exceptions/domain.py] *)

Inductive DomainError : Type :=
| ValidationError (entity_name field reason : string)
| InvalidStateError (entity_name : string) (entity_id : UUID)
    (current_state operation : string).

#[global] Instance DomainError_eq_dec : EqDecision DomainError.
Proof. solve_decision. Defined.

(** ** [base.py]: DomainEntity *)

Module DomainEntity.

(** The dataclass fields of [DomainEntity], in declaration order. *)
Record t : Type := mk {
  id : UUID;
  created_at : option datetime;
  updated_at : option datetime;
  created_by : option string;
  updated_by : option string;
  version : Z;
  is_active : bool;
  _events : list DomainEvent
}.

#[global] Instance t_eq_dec : EqDecision t.
Proof. solve_decision. Defined.

(** Field defaults; [uuid4()] is the argument. *)
Definition init (fresh_id : UUID) : t :=
  {| id := fresh_id; created_at := None; updated_at := None;
     created_by := None; updated_by := None; version := 1;
     is_active := true; _events := [] |}.

(** [DomainEntity.__eq__] as written in [base.py]: both operands are
    domain entities, so only the identifiers are compared. *)
Definition __eq__ (self other : t) : bool := bool_decide (id self = id other).

Definition register_event (event : DomainEvent) (self : t) : t :=
  {| id := id self; created_at := created_at self; updated_at := updated_at self;
     created_by := created_by self; updated_by := updated_by self;
     version := version self; is_active := is_active self;
     _events := _events self ++ [event] |}.

(** [pop_events]: the copy that is returned, and the entity with its
    buffer cleared. *)
Definition pop_events (self : t) : list DomainEvent * t :=
  (_events self,
   {| id := id self; created_at := created_at self; updated_at := updated_at self;
      created_by := created_by self; updated_by := updated_by self;
      version := version self; is_active := is_active self;
      _events := [] |}).

Definition _bump_version (now : datetime) (self : t) : t :=
  {| id := id self; created_at := created_at self; updated_at := Some now;
     created_by := created_by self; updated_by := updated_by self;
     version := version self + 1; is_active := is_active self;
     _events := _events self |}.

(** [if user:] holds for a non-empty string only. *)
Definition truthy_str (user : option string) : bool :=
  match user with Some u => negb (bool_decide (u = "")) | None => false end.

Definition touch (now : datetime) (user : option string) (self : t) : t :=
  {| id := id self; created_at := created_at self; updated_at := Some now;
     created_by := created_by self;
     updated_by := if truthy_str user then user else updated_by self;
     version := version self; is_active := is_active self;
     _events := _events self |}.

Definition deactivate (now : datetime) (self : t) : t :=
  _bump_version now
    {| id := id self; created_at := created_at self; updated_at := updated_at self;
       created_by := created_by self; updated_by := updated_by self;
       version := version self; is_active := false; _events := _events self |}.

Definition activate (now : datetime) (self : t) : t :=
  _bump_version now
    {| id := id self; created_at := created_at self; updated_at := updated_at self;
       created_by := created_by self; updated_by := updated_by self;
       version := version self; is_active := true; _events := _events self |}.

End DomainEntity.

(** ** [entities/execution.py]: Run *)

Module Run.

(** [Run] extends [DomainEntity]: the inherited fields ([base]) come
    first, then the fields the class declares. *)
Record t : Type := mk {
  base : DomainEntity.t;
  automation_id : UUID;
  correlation_id : option string;
  cancellation_reason : option string;
  error_summary : option string;
  status : ExecutionStatus;
  started_at : option datetime;
  finished_at : option datetime
}.

#[global] Instance t_eq_dec : EqDecision t.
Proof. solve_decision. Defined.

Definition id (self : t) : UUID := DomainEntity.id (base self).
Definition version (self : t) : Z := DomainEntity.version (base self).
Definition _events (self : t) : list DomainEvent := DomainEntity._events (base self).

(** [Run(automation_id=..., correlation_id=...)] with the field defaults. *)
Definition init (fresh_id automation_id : UUID) (correlation_id : option string) : t :=
  {| base := DomainEntity.init fresh_id; automation_id := automation_id;
     correlation_id := correlation_id; cancellation_reason := None;
     error_summary := None; status := PENDING; started_at := None;
     finished_at := None |}.

(** The [__eq__] that [@dataclass] (with its default [eq=True]) adds to
    [Run]: the class body defines no [__eq__] of its own, so the
    decorator installs one that compares, for two operands of the same
    class, every field in declaration order -- inherited fields first.
    It shadows [DomainEntity.__eq__] for every [Run]. *)
Definition __eq__ (self other : t) : bool :=
  bool_decide (DomainEntity.id (base self) = DomainEntity.id (base other))
  && bool_decide (DomainEntity.created_at (base self) = DomainEntity.created_at (base other))
  && bool_decide (DomainEntity.updated_at (base self) = DomainEntity.updated_at (base other))
  && bool_decide (DomainEntity.created_by (base self) = DomainEntity.created_by (base other))
  && bool_decide (DomainEntity.updated_by (base self) = DomainEntity.updated_by (base other))
  && bool_decide (DomainEntity.version (base self) = DomainEntity.version (base other))
  && bool_decide (DomainEntity.is_active (base self) = DomainEntity.is_active (base other))
  && bool_decide (DomainEntity._events (base self) = DomainEntity._events (base other))
  && bool_decide (automation_id self = automation_id other)
  && bool_decide (correlation_id self = correlation_id other)
  && bool_decide (cancellation_reason self = cancellation_reason other)
  && bool_decide (error_summary self = error_summary other)
  && bool_decide (status self = status other)
  && bool_decide (started_at self = started_at other)
  && bool_decide (finished_at self = finished_at other).

Definition start (now : nat -> datetime) (self : t) : result DomainError t :=
  if negb (can_transition_to (status self) PROCESSING) then
    Raise (InvalidStateError "Run" (id self) (Enums.value (status self)) "start") self
  else
    Return
      {| base := DomainEntity._bump_version (now 1%nat) (base self);
         automation_id := automation_id self;
         correlation_id := correlation_id self;
         cancellation_reason := cancellation_reason self;
         error_summary := error_summary self;
         status := PROCESSING;
         started_at := Some (now 0%nat);
         finished_at := finished_at self |}.

(** Clock readings: [finished_at], then [_bump_version], then the
    event's [timestamp] default. *)
Definition complete (now : nat -> datetime) (self : t) : result DomainError t :=
  if negb (can_transition_to (status self) COMPLETED) then
    Raise (InvalidStateError "Run" (id self) (Enums.value (status self)) "complete") self
  else
    Return
      {| base :=
           DomainEntity.register_event
             (RunCompleted (id self) (automation_id self) (now 0%nat) (now 2%nat))
             (DomainEntity._bump_version (now 1%nat) (base self));
         automation_id := automation_id self;
         correlation_id := correlation_id self;
         cancellation_reason := cancellation_reason self;
         error_summary := error_summary self;
         status := COMPLETED;
         started_at := started_at self;
         finished_at := Some (now 0%nat) |}.

Definition fail (error_summary' : string) (now : nat -> datetime) (self : t)
  : result DomainError t :=
  if negb (can_transition_to (status self) FAILED) then
    Raise (InvalidStateError "Run" (id self) (Enums.value (status self)) "fail") self
  else
    Return
      {| base :=
           DomainEntity.register_event
             (RunFailed (id self) (automation_id self) error_summary'
                (now 0%nat) (now 2%nat))
             (DomainEntity._bump_version (now 1%nat) (base self));
         automation_id := automation_id self;
         correlation_id := correlation_id self;
         cancellation_reason := cancellation_reason self;
         error_summary := Some error_summary';
         status := FAILED;
         started_at := started_at self;
         finished_at := Some (now 0%nat) |}.

Definition cancel (reason : string) (now : nat -> datetime) (self : t)
  : result DomainError t :=
  if negb (can_transition_to (status self) CANCELLED) then
    Raise (InvalidStateError "Run" (id self) (Enums.value (status self)) "cancel") self
  else
    Return
      {| base :=
           DomainEntity.register_event
             (RunCancelled (id self) (automation_id self) reason
                (now 0%nat) (now 2%nat))
             (DomainEntity._bump_version (now 1%nat) (base self));
         automation_id := automation_id self;
         correlation_id := correlation_id self;
         cancellation_reason := Some reason;
         error_summary := error_summary self;
         status := CANCELLED;
         started_at := started_at self;
         finished_at := Some (now 0%nat) |}.

End Run.

(** ** [entities/execution.py]: ItemExecution *)

Module ItemExecution.

Record t : Type := mk {
  base : DomainEntity.t;
  run_id : UUID;
  batch_execution_id : UUID;
  item_id : UUID;
  result_payload : option (list (string * string));
  error_message : option string;
  status : ExecutionStatus;
  started_at : option datetime;
  finished_at : option datetime;
  attempt_count : Z;
  max_attempts : option Z
}.

#[global] Instance t_eq_dec : EqDecision t.
Proof. solve_decision. Defined.

Definition id (self : t) : UUID := DomainEntity.id (base self).
Definition version (self : t) : Z := DomainEntity.version (base self).
Definition _events (self : t) : list DomainEvent := DomainEntity._events (base self).

(** [self.max_attempts is not None and self.attempt_count >= self.max_attempts] *)
Definition attempts_exhausted (self : t) : bool :=
  match max_attempts self with
  | Some m => bool_decide (m <= attempt_count self)
  | None => false
  end.

(** [self.max_attempts is not None and self.attempt_count < self.max_attempts] *)
Definition can_retry (self : t) : bool :=
  match max_attempts self with
  | Some m => bool_decide (attempt_count self < m)
  | None => false
  end.

Definition start (now : nat -> datetime) (self : t) : result DomainError t :=
  if attempts_exhausted self then
    Raise (InvalidStateError "ItemExecution" (id self) (Enums.value (status self))
             ("start (max attempts "
                ++ from_option pretty "None" (max_attempts self) ++ " already reached)"))
          self
  else if negb (can_transition_to (status self) PROCESSING) then
    Raise (InvalidStateError "ItemExecution" (id self) (Enums.value (status self)) "start")
          self
  else
    Return
      {| base := DomainEntity._bump_version (now 1%nat) (base self);
         run_id := run_id self; batch_execution_id := batch_execution_id self;
         item_id := item_id self; result_payload := result_payload self;
         error_message := error_message self;
         status := PROCESSING;
         started_at := Some (now 0%nat);
         finished_at := finished_at self;
         attempt_count := attempt_count self + 1;
         max_attempts := max_attempts self |}.

Definition complete (payload : option (list (string * string)))
    (now : nat -> datetime) (self : t) : result DomainError t :=
  if negb (can_transition_to (status self) COMPLETED) then
    Raise (InvalidStateError "ItemExecution" (id self) (Enums.value (status self)) "complete")
          self
  else
    Return
      {| base := DomainEntity._bump_version (now 1%nat) (base self);
         run_id := run_id self; batch_execution_id := batch_execution_id self;
         item_id := item_id self; result_payload := payload;
         error_message := error_message self;
         status := COMPLETED;
         started_at := started_at self;
         finished_at := Some (now 0%nat);
         attempt_count := attempt_count self;
         max_attempts := max_attempts self |}.

(** The first statement of [fail]: [self.error_message = error_message]. *)
Definition set_error_message (msg : string) (self : t) : t :=
  {| base := base self;
     run_id := run_id self; batch_execution_id := batch_execution_id self;
     item_id := item_id self; result_payload := result_payload self;
     error_message := Some msg;
     status := status self; started_at := started_at self;
     finished_at := finished_at self; attempt_count := attempt_count self;
     max_attempts := max_attempts self |}.

(** [target_status] as [fail] computes it. *)
Definition target_status (self : t) : ExecutionStatus :=
  if can_retry self then RETRYING else FAILED.

(** Clock readings: [finished_at] (only on the FAILED branch), then
    [_bump_version], then the event's [timestamp] default. *)
Definition fail (msg : string) (now : nat -> datetime) (self : t)
  : result DomainError t :=
  let self1 := set_error_message msg self in
  let target := target_status self1 in
  if negb (can_transition_to (status self1) target) then
    Raise (InvalidStateError "ItemExecution" (id self1) (Enums.value (status self1))
             ("transition to " ++ Enums.value target))
          self1
  else
    Return
      {| base :=
           DomainEntity.register_event
             (ItemExecutionFailed (id self1) (run_id self1) (item_id self1) msg
                (attempt_count self1) (now 2%nat))
             (DomainEntity._bump_version (now 1%nat) (base self1));
         run_id := run_id self1; batch_execution_id := batch_execution_id self1;
         item_id := item_id self1; result_payload := result_payload self1;
         error_message := error_message self1;
         status := target;
         started_at := started_at self1;
         finished_at :=
           if bool_decide (target = FAILED) then Some (now 0%nat) else finished_at self1;
         attempt_count := attempt_count self1;
         max_attempts := max_attempts self1 |}.

(** [__post_init__]: the three identifiers are [UUID] objects, which are
    always true in a condition, so only the check of [max_attempts] can
    fire. *)
Definition __post_init__ (self : t) : option DomainError :=
  match max_attempts self with
  | Some m =>
      if bool_decide (m < 0)
      then Some (ValidationError "ItemExecution" "max_attempts" "must be >= 0")
      else None
  | None => None
  end.

End ItemExecution.

(** ** [entities/execution.py]: BatchExecution *)

Module BatchExecution.

Record t : Type := mk {
  base : DomainEntity.t;
  run_id : UUID;
  batch_id : UUID;
  status : ExecutionStatus;
  started_at : option datetime;
  finished_at : option datetime
}.

#[global] Instance t_eq_dec : EqDecision t.
Proof. solve_decision. Defined.

Definition id (self : t) : UUID := DomainEntity.id (base self).
Definition version (self : t) : Z := DomainEntity.version (base self).
Definition _events (self : t) : list DomainEvent := DomainEntity._events (base self).

Definition start (now : nat -> datetime) (self : t) : result DomainError t :=
  if negb (can_transition_to (status self) PROCESSING) then
    Raise (InvalidStateError "BatchExecution" (id self) (Enums.value (status self)) "start")
          self
  else
    Return
      {| base := DomainEntity._bump_version (now 1%nat) (base self);
         run_id := run_id self; batch_id := batch_id self;
         status := PROCESSING;
         started_at := Some (now 0%nat);
         finished_at := finished_at self |}.

Definition complete (now : nat -> datetime) (self : t) : result DomainError t :=
  if negb (can_transition_to (status self) COMPLETED) then
    Raise (InvalidStateError "BatchExecution" (id self) (Enums.value (status self))
             "complete") self
  else
    Return
      {| base := DomainEntity._bump_version (now 1%nat) (base self);
         run_id := run_id self; batch_id := batch_id self;
         status := COMPLETED;
         started_at := started_at self;
         finished_at := Some (now 0%nat) |}.

(** Clock readings: [finished_at], then [_bump_version], then the
    event's [timestamp] default. *)
Definition fail (now : nat -> datetime) (self : t) : result DomainError t :=
  if negb (can_transition_to (status self) FAILED) then
    Raise (InvalidStateError "BatchExecution" (id self) (Enums.value (status self)) "fail")
          self
  else
    Return
      {| base :=
           DomainEntity.register_event
             (BatchExecutionFailed (id self) (run_id self) (batch_id self)
                (now 0%nat) (now 2%nat))
             (DomainEntity._bump_version (now 1%nat) (base self));
         run_id := run_id self; batch_id := batch_id self;
         status := FAILED;
         started_at := started_at self;
         finished_at := Some (now 0%nat) |}.

End BatchExecution.

(** ** [entities/orchestration.py]: OrchestrationInstance *)

Module OrchestrationInstance.

Record t : Type := mk {
  base : DomainEntity.t;
  engine_id : UUID;
  external_id : string;
  duration_seconds : option Z;
  instance_metadata : option (list (string * string));
  status : ExecutionStatus;
  started_at : option datetime;
  finished_at : option datetime
}.

Definition id (self : t) : UUID := DomainEntity.id (base self).
Definition version (self : t) : Z := DomainEntity.version (base self).

Section Methods.

(** [int((finished_at - started_at).total_seconds())], computed in
    floating point by the [datetime] library: taken as given. *)
Variable whole_seconds : datetime -> datetime -> Z.

(** The three methods compare [self.status] with one status; they do
    not consult [can_transition_to]. *)
Definition start (now : nat -> datetime) (self : t) : result DomainError t :=
  if negb (bool_decide (status self = PENDING)) then
    Raise (InvalidStateError "OrchestrationInstance" (id self) (Enums.value (status self))
             "start") self
  else
    Return
      {| base := DomainEntity._bump_version (now 1%nat) (base self);
         engine_id := engine_id self; external_id := external_id self;
         duration_seconds := duration_seconds self;
         instance_metadata := instance_metadata self;
         status := PROCESSING;
         started_at := Some (now 0%nat);
         finished_at := finished_at self |}.

Definition complete (now : nat -> datetime) (self : t) : result DomainError t :=
  if negb (bool_decide (status self = PROCESSING)) then
    Raise (InvalidStateError "OrchestrationInstance" (id self) (Enums.value (status self))
             "complete") self
  else
    Return
      {| base := DomainEntity._bump_version (now 1%nat) (base self);
         engine_id := engine_id self; external_id := external_id self;
         duration_seconds :=
           match started_at self with
           | Some started => Some (whole_seconds (now 0%nat) started)
           | None => duration_seconds self
           end;
         instance_metadata := instance_metadata self;
         status := COMPLETED;
         started_at := started_at self;
         finished_at := Some (now 0%nat) |}.

Definition fail (now : nat -> datetime) (self : t) : result DomainError t :=
  if negb (bool_decide (status self = PROCESSING)) then
    Raise (InvalidStateError "OrchestrationInstance" (id self) (Enums.value (status self))
             "fail") self
  else
    Return
      {| base := DomainEntity._bump_version (now 1%nat) (base self);
         engine_id := engine_id self; external_id := external_id self;
         duration_seconds := duration_seconds self;
         instance_metadata := instance_metadata self;
         status := FAILED;
         started_at := started_at self;
         finished_at := Some (now 0%nat) |}.

End Methods.

End OrchestrationInstance.

(** * Persistence layer

    [BaseRepository] works by reflection ([hasattr], [getattr],
    [setattr] over column names), so entity instances and model rows
    are modelled the way Python holds them: as dictionaries from
    attribute names to values. *)

(** ** Python values held by attributes and columns *)

Inductive value : Type :=
| VNone
| VBool (b : bool)
| VInt (n : Z)
| VStr (s : string)
| VUuid (u : UUID)
| VTime (t : datetime)
| VStatus (s : ExecutionStatus).

#[global] Instance value_eq_dec : EqDecision value.
Proof. solve_decision. Defined.

(** Truth value of an object in a condition ([if x:], [x or y]). *)
Definition truthy (v : value) : bool :=
  match v with
  | VNone => false
  | VBool b => b
  | VInt n => negb (bool_decide (n = 0))
  | VStr s => negb (bool_decide (s = ""))
  | VUuid _ | VTime _ | VStatus _ => true
  end.

(** [d.get(k)]: [None] when the key is missing. *)
Definition dict_get {K} `{Countable K} (d : gmap K value) (k : K) : value :=
  default VNone (d !! k).

(** An insertion-ordered [dict]: assigning to a key that is present
    keeps its position, a new key goes last. *)
Fixpoint odict_set {K V} `{EqDecision K} (k : K) (v : V) (d : list (K * V))
  : list (K * V) :=
  match d with
  | [] => [(k, v)]
  | (k', v') :: d' =>
      if decide (k = k') then (k, v) :: d' else (k', v') :: odict_set k v d'
  end.

(** [d.pop(k, None)] on an insertion-ordered [dict]. *)
Definition odict_pop {K V} `{EqDecision K} (k : K) (d : list (K * V)) : list (K * V) :=
  filter (λ kv, kv.1 ≠ k) d.

(** An entity instance: its class, its attributes, its event buffer
    ([_events], kept apart from the other attributes because it holds
    events, not column values). *)
Record object : Type := mkObject {
  class_of : string;
  __dict__ : gmap string value;
  _events : list DomainEvent
}.

Definition hasattr (o : object) (a : string) : bool :=
  bool_decide (is_Some (__dict__ o !! a)).

(** [getattr(o, a, None)] *)
Definition getattr (o : object) (a : string) : value := dict_get (__dict__ o) a.

Definition setattr (a : string) (v : value) (o : object) : object :=
  {| class_of := class_of o; __dict__ := <[a := v]> (__dict__ o); _events := _events o |}.

(** Every entity class of the domain derives [DomainEntity] (and so
    has [touch] and [pop_events]) except [ItemStateHistory]. *)
Definition is_domain_entity (o : object) : bool :=
  negb (bool_decide (class_of o = "ItemStateHistory")).

(** [DomainEntity.touch] on an instance. *)
Definition touch (now : datetime) (user : option string) (o : object) : object :=
  let o1 := setattr "updated_at" (VTime now) o in
  match user with
  | Some u => if truthy (VStr u) then setattr "updated_by" (VStr u) o1 else o1
  | None => o1
  end.

(** [DomainEntity.pop_events] on an instance. *)
Definition pop_events (o : object) : list DomainEvent * object :=
  (_events o, {| class_of := class_of o; __dict__ := __dict__ o; _events := [] |}).

(** A model instance: one row, its primary key [id] and its other
    columns. *)
Record Model : Type := mkModel {
  pk : UUID;
  cols : gmap string value
}.

(** [getattr(model, c)]: a mapped column that holds nothing reads [None]. *)
Definition model_attr (m : Model) (c : string) : value :=
  if bool_decide (c = "id") then VUuid (pk m) else dict_get (cols m) c.

(** ** Exceptions of the persistence layer ([exceptions/repository.py])
    and the built-in ones that reach it *)

Inductive Exn : Type :=
| EntityNotFoundError (entity_name : string) (entity_id : UUID)
| DuplicateEntityError (entity_name constraint_info : string)
| ConcurrencyError (entity_name : string) (entity_id : UUID)
    (expected_version actual_version : value) (extra : option string)
| RepositoryError (message : string)
| RuntimeError (message : string)
| AttributeError (name : string)
| DatabaseError (message : string)
| HandlerError.                       (* what a handler of the event bus raised *)

#[global] Instance Exn_eq_dec : EqDecision Exn.
Proof. solve_decision. Defined.

(** ** What a repository subclass fixes *)

Record RepositoryClass : Type := mkRepositoryClass {
  model_name : string;                      (* [self.model_class.__name__] *)
  entity_name : string;                     (* [self.entity_class] *)
  columns : list string;                    (* [model_class.__table__.columns] *)
  updatable_fields : option (list string);  (* class attribute, if any *)
  use_versioning : bool;
  _to_entity : Model -> gmap string value   (* attributes of the new entity *)
}.

(** [hasattr(self.model_class, a)] for a column name [a]. *)
Definition model_has (cls : RepositoryClass) (a : string) : bool :=
  bool_decide (a ∈ columns cls).

(** [_copy_common_attrs(source, target, fields)], for a source model
    whose class has the columns [source_columns]. *)
Definition _copy_common_attrs (source_columns : list string) (source : Model)
    (target : gmap string value) (fields : list string) : gmap string value :=
  foldl (λ t f, if bool_decide (f ∈ source_columns)
                then <[f := model_attr source f]> t else t)
        target fields.

Definition common_attrs : list string :=
  ["id"; "created_at"; "updated_at"; "created_by"; "updated_by"; "version"; "is_active"].

(** ** The identity map of a unit of work

    [uow._identity_map] is a dictionary of dictionaries: per entity
    class, the instances by identifier.  The three operations the code
    performs on it are written once, as what [m !! (cls, id)],
    [<[(cls, id) := r]> m] and [delete (cls, id) m] mean on it. *)

(** [m.get(cls, {}).get(id)] *)
Definition identity_get (k : string * UUID) (m : gmap string (gmap UUID nat))
  : option nat :=
  default ∅ (m !! k.1) !! k.2.

(** [if cls not in m: m[cls] = {}], then [m[cls][id] = r] *)
Definition identity_set (k : string * UUID) (r : nat) (m : gmap string (gmap UUID nat))
  : gmap string (gmap UUID nat) :=
  <[k.1 := <[k.2 := r]> (default ∅ (m !! k.1))]> m.

(** [if cls in m: m[cls].pop(id, None)]: the inner dictionary stays,
    even when it is left empty. *)
Definition identity_pop (k : string * UUID) (m : gmap string (gmap UUID nat))
  : gmap string (gmap UUID nat) :=
  match m !! k.1 with
  | Some d => <[k.1 := delete k.2 d]> m
  | None => m
  end.

#[global] Instance identity_lookup
  : Lookup (string * UUID) nat (gmap string (gmap UUID nat)) := identity_get.
#[global] Instance identity_insert
  : Insert (string * UUID) nat (gmap string (gmap UUID nat)) := identity_set.
#[global] Instance identity_delete
  : Delete (string * UUID) (gmap string (gmap UUID nat)) := identity_pop.

(** ** The state one unit of work and one of its repositories act on

    The session is modelled by the table it reads and writes: [rows] is
    the table as the session's statements see it, [committed] what
    [session.rollback()] restores.  [Session.get] and queries read
    [rows]; the session's own cache of loaded rows is not modelled. *)

Record State : Type := mkState {
  rows : gmap UUID (gmap string value);
  committed : gmap UUID (gmap string value);
  heap : gmap nat object;                        (* entity instances by reference *)
  next_ref : nat;
  _identity_map : gmap string (gmap UUID nat);   (* [uow._identity_map[cls][id]] *)
  _tracked_entities : list ((string * UUID) * nat);
  _original_versions : gmap UUID value;          (* of the repository *)
  session : bool;                                (* [uow.session is not None] *)
  repositories : bool;                           (* the repository handles are set *)
  dispatched : list (list DomainEvent)           (* calls of [event_bus.dispatch] *)
}.

Definition set_rows (f : gmap UUID (gmap string value) -> gmap UUID (gmap string value))
    (s : State) : State :=
  mkState (f (rows s)) (committed s) (heap s) (next_ref s) (_identity_map s)
    (_tracked_entities s) (_original_versions s) (session s) (repositories s) (dispatched s).

Definition set_committed (t : gmap UUID (gmap string value)) (s : State) : State :=
  mkState (rows s) t (heap s) (next_ref s) (_identity_map s)
    (_tracked_entities s) (_original_versions s) (session s) (repositories s) (dispatched s).

Definition set_heap (f : gmap nat object -> gmap nat object) (s : State) : State :=
  mkState (rows s) (committed s) (f (heap s)) (next_ref s) (_identity_map s)
    (_tracked_entities s) (_original_versions s) (session s) (repositories s) (dispatched s).

Definition set_next_ref (n : nat) (s : State) : State :=
  mkState (rows s) (committed s) (heap s) n (_identity_map s)
    (_tracked_entities s) (_original_versions s) (session s) (repositories s) (dispatched s).

Definition set_identity_map
    (f : gmap string (gmap UUID nat) -> gmap string (gmap UUID nat)) (s : State) : State :=
  mkState (rows s) (committed s) (heap s) (next_ref s) (f (_identity_map s))
    (_tracked_entities s) (_original_versions s) (session s) (repositories s) (dispatched s).

Definition set_tracked_entities
    (f : list ((string * UUID) * nat) -> list ((string * UUID) * nat)) (s : State) : State :=
  mkState (rows s) (committed s) (heap s) (next_ref s) (_identity_map s)
    (f (_tracked_entities s)) (_original_versions s) (session s) (repositories s)
    (dispatched s).

Definition set_original_versions (f : gmap UUID value -> gmap UUID value) (s : State)
  : State :=
  mkState (rows s) (committed s) (heap s) (next_ref s) (_identity_map s)
    (_tracked_entities s) (f (_original_versions s)) (session s) (repositories s)
    (dispatched s).

Definition set_session (b : bool) (s : State) : State :=
  mkState (rows s) (committed s) (heap s) (next_ref s) (_identity_map s)
    (_tracked_entities s) (_original_versions s) b (repositories s) (dispatched s).

Definition set_repositories (b : bool) (s : State) : State :=
  mkState (rows s) (committed s) (heap s) (next_ref s) (_identity_map s)
    (_tracked_entities s) (_original_versions s) (session s) b (dispatched s).

Definition set_dispatched (f : list (list DomainEvent) -> list (list DomainEvent))
    (s : State) : State :=
  mkState (rows s) (committed s) (heap s) (next_ref s) (_identity_map s)
    (_tracked_entities s) (_original_versions s) (session s) (repositories s)
    (f (dispatched s)).

(** ** A state-and-exception monad for the methods *)

Inductive outcome (A : Type) : Type :=
| Ok (a : A)
| Err (e : Exn).
Arguments Ok {A} a.
Arguments Err {A} e.

Definition M (A : Type) : Type := State -> outcome A * State.

Definition ret {A} (a : A) : M A := λ s, (Ok a, s).
Definition bind {A B} (m : M A) (k : A -> M B) : M B :=
  λ s, match m s with
       | (Ok a, s') => k a s'
       | (Err e, s') => (Err e, s')
       end.
Definition raise {A} (e : Exn) : M A := λ s, (Err e, s).
Definition gets {A} (f : State -> A) : M A := λ s, (Ok (f s), s).
Definition modify (f : State -> State) : M unit := λ s, (Ok tt, f s).

#[global] Instance M_ret : MRet M := @ret.
#[global] Instance M_bind : MBind M := λ A B k m, bind m k.

(** [try: body except Exception: handler(e)], where the exceptions in
    [pass_through] are re-raised as they are. *)
Definition try_except {A} (body : M A) (pass_through : Exn -> bool)
    (handler : Exn -> M A) : M A :=
  λ s, match body s with
       | (Ok a, s') => (Ok a, s')
       | (Err e, s') => if pass_through e then (Err e, s') else handler e s'
       end.

(** [try: body finally: final] *)
Definition try_finally {A} (body : M A) (final : State -> State) : M A :=
  λ s, let '(r, s') := body s in (r, final s').

(** Unfolds the monad's operations in a goal and its hypotheses. *)
Ltac unfold_M :=
  unfold mbind, M_bind, bind, mret, M_ret, ret, gets, modify, raise,
         try_finally, try_except in *.

(** The instance a reference points to; references held by a unit of
    work always point into the heap. *)
Definition deref (r : nat) : M object :=
  λ s, match heap s !! r with
       | Some o => (Ok o, s)
       | None => (Err (RuntimeError "dangling reference"), s)
       end.

Definition store (r : nat) (o : object) : M unit :=
  modify (set_heap <[r := o]>).

(** A new instance of [class_name] with the given attributes and an
    empty event buffer. *)
Definition alloc (class_name : string) (d : gmap string value) : M nat :=
  r ← gets next_ref;
  modify (λ s, set_next_ref (S r) (set_heap <[r := mkObject class_name d []]> s));;
  mret r.

(** [str(e)] of an exception, as the handlers format it. *)
Definition str_exn (e : Exn) : string :=
  match e with
  | EntityNotFoundError n _ => n ++ " not found"
  | DuplicateEntityError n c => "Duplicate " ++ n ++ ": " ++ c
  | ConcurrencyError n _ _ _ _ => "Concurrency conflict on " ++ n
  | RepositoryError m => m
  | RuntimeError m => m
  | AttributeError a => a
  | DatabaseError m => m
  | HandlerError => "handler error"
  end.

(** ** [unit_of_work.py]: EventBus *)

Module EventBus.

(** [type(event)], by the name of the event class. *)
Definition event_type (e : DomainEvent) : string :=
  match e with
  | ItemExecutionFailed _ _ _ _ _ _ => "ItemExecutionFailed"
  | RunCompleted _ _ _ _ => "RunCompleted"
  | RunFailed _ _ _ _ _ => "RunFailed"
  | RunCancelled _ _ _ _ _ => "RunCancelled"
  | BatchExecutionFailed _ _ _ _ _ => "BatchExecutionFailed"
  end.

(** A bus: its handlers (each named by a number) per event type, its
    mode, its executor (an attribute only a bus created in asynchronous
    mode has; [Some true] while it accepts calls, [Some false] once it
    is shut down), the futures of the submitted calls, and, to observe
    it, the handler calls made so far in synchronous mode. *)
Record t : Type := mk {
  handlers : gmap string (list nat);
  use_async : bool;
  executor : option bool;
  _futures : list (nat * DomainEvent);
  called : list (nat * DomainEvent)
}.

(** What leaves [dispatch]: the exception of a handler call, the
    [RuntimeError] of [executor.submit] on an executor that is shut
    down, or the [AttributeError] of a bus that has no executor. *)
Inductive Error : Type :=
| HandlerRaised (handler : nat) (event : DomainEvent)
| SubmitAfterShutdown
| NoExecutor.

Definition init (use_async : bool) : t :=
  mk ∅ use_async (if use_async then Some true else None) [] [].

(** [self.handlers.setdefault(event_type, []).append(handler)] *)
Definition register (event_type : string) (handler : nat) (self : t) : t :=
  mk (<[event_type := (default [] (handlers self !! event_type) ++ [handler])%list]>
        (handlers self))
     (use_async self) (executor self) (_futures self) (called self).

(** [self.handlers.get(type(event), [])] *)
Definition handlers_for (self : t) (event : DomainEvent) : list nat :=
  default [] (handlers self !! event_type event).

(** [shutdown(wait)]: a bus that has an executor shuts it down and
    forgets its futures (cancelled first when [wait] is false); a
    synchronous bus has none and nothing happens. *)
Definition shutdown (wait : bool) (self : t) : t :=
  match executor self with
  | Some _ => mk (handlers self) (use_async self) (Some false) [] (called self)
  | None => self
  end.

Section Dispatch.

(** What a handler does is its own business; whether its call raises
    is all that matters to the bus. *)
Variable handler_raises : nat -> DomainEvent -> bool.

(** The inner loop in synchronous mode: the handlers are called in
    turn, an exception leaves the loop. *)
Fixpoint call_handlers (hs : list nat) (event : DomainEvent) (self : t)
  : result Error t :=
  match hs with
  | [] => Return self
  | h :: hs' =>
      let self' := mk (handlers self) (use_async self) (executor self) (_futures self)
                      (called self ++ [(h, event)])%list in
      if handler_raises h event then Raise (HandlerRaised h event) self'
      else call_handlers hs' event self'
  end.

Fixpoint dispatch_sync (events : list DomainEvent) (self : t)
  : result Error t :=
  match events with
  | [] => Return self
  | event :: events' =>
      match call_handlers (handlers_for self event) event self with
      | Return self' => dispatch_sync events' self'
      | Raise e self' => Raise e self'
      end
  end.

(** In asynchronous mode every call is submitted to the executor and
    its future kept; the first [submit] raises when the executor is
    shut down (or missing), and there is no [submit] when no handler is
    registered for any of the events. *)
Definition dispatch (events : list DomainEvent) (self : t)
  : result Error t :=
  if negb (use_async self) then dispatch_sync events self
  else
    let calls :=
      flat_map (λ event, (λ h, (h, event)) <$> handlers_for self event) events in
    match calls with
    | [] => Return self
    | _ :: _ =>
        match executor self with
        | Some true =>
            Return
              (mk (handlers self) (use_async self) (executor self)
                  (_futures self ++ calls)%list (called self))
        | Some false => Raise SubmitAfterShutdown self
        | None => Raise NoExecutor self
        end
    end.

End Dispatch.

End EventBus.

(** ** [unit_of_work.py]: UnitOfWork *)

Module UnitOfWork.

Definition has_entity (entity_class : string) (entity_id : UUID) (s : State) : bool :=
  bool_decide (is_Some (_identity_map s !! (entity_class, entity_id))).

Definition get_entity (entity_class : string) (entity_id : UUID) (s : State)
  : option nat :=
  _identity_map s !! (entity_class, entity_id).

(** [register_entity(entity, entity_id=None)]; identifiers are UUIDs. *)
Definition register_entity (entity : nat) (entity_id : option UUID) : M unit :=
  o ← deref entity;
  i ← match entity_id with
      | Some i => mret i
      | None => match __dict__ o !! "id" with
                | Some (VUuid u) => mret u
                | _ => raise (AttributeError "id")
                end
      end;
  modify (λ s, set_tracked_entities (odict_set (class_of o, i) entity)
                 (set_identity_map <[(class_of o, i) := entity]> s)).

Definition unregister_entity (entity_class : string) (entity_id : UUID) : M unit :=
  modify (λ s, set_tracked_entities (odict_pop (entity_class, entity_id))
                 (set_identity_map (delete (entity_class, entity_id)) s)).

Definition clear_identity_map (s : State) : State :=
  set_tracked_entities (λ _, []) (set_identity_map (λ _, ∅) s).

(** The loop of [_collect_events] over [self._tracked_entities.values()]:
    each instance that has [pop_events] gives up its buffer, which is
    cleared in place. *)
Fixpoint collect (refs : list nat) (h : gmap nat object)
  : list DomainEvent * gmap nat object :=
  match refs with
  | [] => ([], h)
  | r :: refs' =>
      match h !! r with
      | Some o =>
          if is_domain_entity o then
            let '(evs, o') := pop_events o in
            let '(rest, h') := collect refs' (<[r := o']> h) in
            ((evs ++ rest)%list, h')
          else collect refs' h
      | None => collect refs' h
      end
  end.

Definition _collect_events : M (list DomainEvent) :=
  λ s, let '(events, h) := collect (_tracked_entities s).*2 (heap s) in
       (Ok events, set_tracked_entities (λ _, []) (set_heap (λ _, h) s)).

(** [rollback()]: the session is rolled back when there is one, the
    identity map and the tracked entities are cleared, the repository
    handles are reset. *)
Definition rollback : M unit :=
  modify (λ s,
    let s1 := if session s then set_rows (λ _, committed s) s else s in
    set_repositories false (set_tracked_entities (λ _, []) (clear_identity_map s1))).

(** [commit()].  Whether [self.session.commit()] raises is decided by
    the database: [commit_ok] is its answer.  A list is true in
    [if events:] when it is not empty.  Whether
    [self.event_bus.dispatch(events)] returns is decided by the bus and
    its handlers (a synchronous handler may raise): [dispatch_ok] is
    that outcome.  The call itself is recorded in [dispatched] either
    way, and what it raises leaves [commit] through the [finally]
    clause, after the transaction has been committed. *)
Definition commit (commit_ok dispatch_ok : bool) : M unit :=
  sess ← gets session;
  if negb sess then raise (RuntimeError "Session not initialized")
  else
    try_finally
      (if commit_ok then
         modify (λ s, set_committed (rows s) s);;
         events ← _collect_events;
         match events with
         | [] => mret tt
         | _ :: _ =>
             modify (set_dispatched (λ log, (log ++ [events])%list));;
             if dispatch_ok then mret tt else raise HandlerError
         end
       else
         rollback;; raise (DatabaseError "commit failed"))
      clear_identity_map.

Definition close : M unit := modify (set_session false).

(** The body of [transaction()] after the [yield]: commit, and on any
    exception roll back and re-raise. *)
Definition transaction_exit (commit_ok dispatch_ok : bool) : M unit :=
  try_except (commit commit_ok dispatch_ok) (λ _, false) (λ e, rollback;; raise e).

(** [__exit__]: [raised] tells whether the block left with an
    exception.  The method returns [None], so that exception, or the
    one [commit] raises, goes on to the caller. *)
Definition __exit__ (raised : bool) (commit_ok dispatch_ok : bool) : M unit :=
  try_finally (if raised then rollback else commit commit_ok dispatch_ok)
    (set_session false).

Definition is_active (s : State) : bool := session s.

End UnitOfWork.

(** ** The statements a repository sends to the database *)

(** A right-hand side of [SET]: a Python value, or the column
    expression [model_class.version + 1]. *)
Inductive set_expr : Type :=
| Lit (v : value)
| VersionPlusOne.

Definition sql_eval (c : gmap string value) (e : set_expr) : value :=
  match e with
  | Lit v => v
  | VersionPlusOne =>
      match dict_get c "version" with VInt n => VInt (n + 1) | _ => VNone end
  end.

(** [WHERE id = :id [AND version = :guard]] on one row. *)
Definition where_matches (guard : option value) (c : gmap string value) : bool :=
  match guard with
  | Some v => bool_decide (dict_get c "version" = v) && negb (bool_decide (v = VNone))
  | None => true
  end.

(** [self.db.get(self.model_class, id)] *)
Definition db_get (id : UUID) : M (option Model) :=
  gets (λ s, mkModel id <$> rows s !! id).

(** The statement [update(model).where(...)] with its [values] and
    [returning(model)], followed by [scalar_one_or_none()].  [updated_at] has [onupdate=func.now()]
    ([mixins.py]): when the statement does not set it, the database
    clock [db_now] does. *)
Definition db_execute_update (cls : RepositoryClass) (id : UUID) (guard : option value)
    (values : gmap string set_expr) (db_now : datetime) : M (option Model) :=
  λ s, match rows s !! id with
       | Some c =>
           if where_matches guard c then
             let c1 := (sql_eval c <$> values) ∪ c in
             let c2 :=
               if model_has cls "updated_at"
                  && negb (bool_decide (is_Some (values !! "updated_at")))
               then <["updated_at" := VTime db_now]> c1 else c1 in
             (Ok (Some (mkModel id c2)), set_rows <[id := c2]> s)
           else (Ok None, s)
       | None => (Ok None, s)
       end.

(** [delete(model).where(...)]; the result is [rowcount]. *)
Definition db_execute_delete (id : UUID) (guard : option value) : M nat :=
  λ s, match rows s !! id with
       | Some c =>
           if where_matches guard c then (Ok 1%nat, set_rows (delete id) s)
           else (Ok 0%nat, s)
       | None => (Ok 0%nat, s)
       end.

(** [self.db.rollback()] *)
Definition db_rollback : M unit := modify (λ s, set_rows (λ _, committed s) s).

(** ** [repositories/base.py]: BaseRepository *)

Module BaseRepository.

Section Methods.

Variable cls : RepositoryClass.

(** The soft-delete filter of [get], [exists], [count] and
    [_apply_soft_delete_filter]: [is_active == True] unless soft-deleted
    rows are asked for or the model has no such column. *)
Definition active_filter (include_soft_deleted : bool) (c : gmap string value) : bool :=
  if negb include_soft_deleted && model_has cls "is_active"
  then bool_decide (dict_get c "is_active" = VBool true)
  else true.

Definition record_version (id : UUID) (v : value) : M unit :=
  modify (set_original_versions <[id := v]>).

Definition get (id : UUID) (include_soft_deleted : bool) : M (option nat) :=
  s ← gets (λ s, s);
  cached ←
    match UnitOfWork.get_entity (entity_name cls) id s with
    | Some r =>
        entity ← deref r;
        if include_soft_deleted
           || (hasattr entity "is_active" && truthy (getattr entity "is_active"))
        then
          (if use_versioning cls && hasattr entity "version"
           then record_version id (getattr entity "version") else mret tt);;
          mret (Some r)
        else mret None
    | None => mret None
    end;
  match cached with
  | Some r => mret (Some r)
  | None =>
      try_except
        (match rows s !! id with
         | Some c =>
             if active_filter include_soft_deleted c then
               let model := mkModel id c in
               let d := _to_entity cls model in
               r ← alloc (entity_name cls) d;
               UnitOfWork.register_entity r (Some (pk model));;
               (if use_versioning cls && bool_decide (is_Some (d !! "version"))
                then record_version id (model_attr model "version") else mret tt);;
               mret (Some r)
             else mret None
         | None => mret None
         end)
        (λ _, false)
        (λ e, raise (RepositoryError ("Failed to retrieve entity: " ++ str_exn e)))
  end.

Definition get_or_raise (id : UUID) (include_soft_deleted : bool) : M nat :=
  entity ← get id include_soft_deleted;
  match entity with
  | Some r => mret r
  | None => raise (EntityNotFoundError (model_name cls) id)
  end.

(** [_update_entity_from_model]: every column but [id] and [created_at]
    that the entity has as an attribute is overwritten from the model. *)
Definition _update_entity_from_model (entity : object) (model : Model) : object :=
  foldl (λ o key,
           if bool_decide (key ∈ ["id"; "created_at"]) then o
           else if hasattr o key then setattr key (model_attr model key) o else o)
        entity (columns cls).

Definition exclude_fields (preserve_created : bool) : gset string :=
  if preserve_created then {["id"]} ∪ {["created_at"; "created_by"]} else {["id"]}.

Definition allowed_fields (preserve_created : bool) : gset string :=
  let exclude := exclude_fields preserve_created in
  let allowed0 : gset string :=
    match updatable_fields cls with
    | Some fields => list_to_set fields
    | None => list_to_set (columns cls) ∖ exclude
    end in
  let allowed1 :=
    if model_has cls "updated_at" && negb (bool_decide ("updated_at" ∈ exclude))
    then allowed0 ∪ {["updated_at"]} else allowed0 in
  if model_has cls "updated_by" && negb (bool_decide ("updated_by" ∈ exclude))
  then allowed1 ∪ {["updated_by"]} else allowed1.

Definition model_dict (preserve_created : bool) (existing_model : Model)
  : gmap string value :=
  foldl (λ d key,
           if bool_decide (key ∈ allowed_fields preserve_created)
              || bool_decide (key ∈ exclude_fields preserve_created)
           then <[key := model_attr existing_model key]> d else d)
        ∅ (columns cls).

(** [_get_changed_data]: the allowed fields whose value on the entity
    differs from the stored one.  (The second loop of the method only
    writes to the log.) *)
Definition _get_changed_data (entity : object) (existing_model : Model)
    (preserve_created : bool) : gmap string value :=
  let md := model_dict preserve_created existing_model in
  set_fold (λ field data,
              let new_val := getattr entity field in
              let old_val := dict_get md field in
              if bool_decide (new_val ≠ old_val) then <[field := new_val]> data else data)
           ∅ (allowed_fields preserve_created).

(** The [except] clauses of [update]: [EntityNotFoundError] and
    [ConcurrencyError] pass, anything else rolls the session back and
    becomes a [RepositoryError]. *)
Definition passes (e : Exn) : bool :=
  match e with
  | EntityNotFoundError _ _ | ConcurrencyError _ _ _ _ _ => true
  | _ => false
  end.

Definition update (now db_now : datetime) (id : UUID) (entity : nat)
    (user : option string) : M nat :=
  expected_version ← gets (λ s, dict_get (_original_versions s) id);
  if use_versioning cls && bool_decide (expected_version = VNone) then
    e ← deref entity;
    raise (ConcurrencyError (model_name cls) id (VInt (-1))
             (default (VInt (-1)) (__dict__ e !! "version"))
             (Some "Entity not tracked; retrieve it via get() first"))
  else
    try_except
      (existing ← db_get id;
       match existing with
       | None => raise (EntityNotFoundError (model_name cls) id)
       | Some existing_model =>
         if use_versioning cls && negb (bool_decide (expected_version = VNone))
            && bool_decide (model_attr existing_model "version" ≠ expected_version)
         then
           raise (ConcurrencyError (model_name cls) id expected_version
                    (model_attr existing_model "version") None)
         else
           e0 ← deref entity;
           (if is_domain_entity e0 then store entity (touch now user e0) else mret tt);;
           e ← deref entity;
           let update_data := _get_changed_data e existing_model true in
           no_changes ←
             (if bool_decide (update_data = ∅) then
                if negb (use_versioning cls) then mret true
                else match __dict__ e !! "version" with
                     | Some v => mret (bool_decide (v = expected_version))
                     | None => raise (AttributeError "version")
                     end
              else mret false);
           if (no_changes : bool) then mret entity
           else
             let values :=
               if use_versioning cls
               then <["version" := VersionPlusOne]> (Lit <$> update_data)
               else Lit <$> update_data in
             let guard :=
               if use_versioning cls && negb (bool_decide (expected_version = VNone))
               then Some expected_version else None in
             updated ← db_execute_update cls id guard values db_now;
             match updated with
             | None =>
                 current ← db_get id;
                 match current with
                 | None => raise (EntityNotFoundError (model_name cls) id)
                 | Some current_model =>
                     if use_versioning cls then
                       raise (ConcurrencyError (model_name cls) id
                                (if truthy expected_version then expected_version
                                 else VInt (-1))
                                (model_attr current_model "version") None)
                     else
                       raise (RepositoryError
                                ("Unexpected error updating " ++ model_name cls))
                 end
             | Some updated_model =>
                 tracked ← gets (UnitOfWork.get_entity (entity_name cls) id);
                 updated_entity ←
                   match tracked with
                   | Some r =>
                       t ← deref r;
                       store r (_update_entity_from_model t updated_model);;
                       mret r
                   | None =>
                       r ← alloc (entity_name cls) (_to_entity cls updated_model);
                       UnitOfWork.register_entity r None;;
                       mret r
                   end;
                 u ← deref updated_entity;
                 (if use_versioning cls && hasattr u "version"
                  then record_version id (getattr u "version") else mret tt);;
                 mret updated_entity
             end
       end)
      passes
      (λ e, db_rollback;;
            raise (RepositoryError ("Failed to update entity: " ++ str_exn e))).

(** The [except] clauses of [delete]: only [ConcurrencyError] passes. *)
Definition passes_delete (e : Exn) : bool :=
  match e with ConcurrencyError _ _ _ _ _ => true | _ => false end.

(** The [SET] clause of a soft delete. *)
Definition soft_delete_values (now : datetime) (user : option string)
  : gmap string set_expr :=
  let v0 : gmap string set_expr :=
    <["updated_at" := Lit (VTime now)]> {["is_active" := Lit (VBool false)]} in
  let v1 :=
    match user with
    | Some u => if truthy (VStr u) && model_has cls "updated_by"
                then <["updated_by" := Lit (VStr u)]> v0 else v0
    | None => v0
    end in
  if use_versioning cls && model_has cls "version"
  then <["version" := VersionPlusOne]> v1 else v1.

(** [delete(id, soft, user, expected_version)]; [expected_version] is
    [VNone] when the caller gives none. *)
Definition delete (now db_now : datetime) (id : UUID) (soft : bool)
    (user : option string) (expected_version : value) : M bool :=
  try_except
    (recorded ← gets (λ s, dict_get (_original_versions s) id);
     let expected_version :=
       if bool_decide (expected_version = VNone) && use_versioning cls
       then recorded else expected_version in
     let guard :=
       if use_versioning cls && negb (bool_decide (expected_version = VNone))
       then Some expected_version else None in
     if soft then
       if negb (model_has cls "is_active") then
         raise (RepositoryError
                  ("Model " ++ model_name cls ++ " does not support soft delete"))
       else
         updated ← db_execute_update cls id guard (soft_delete_values now user) db_now;
         match updated with
         | None =>
             existing ← db_get id;
             match existing with
             | None => mret false
             | Some existing_model =>
                 if use_versioning cls && negb (bool_decide (expected_version = VNone))
                 then raise (ConcurrencyError (model_name cls) id expected_version
                               (model_attr existing_model "version") None)
                 else mret false
             end
         | Some updated_model =>
             tracked ← gets (UnitOfWork.get_entity (entity_name cls) id);
             match tracked with
             | Some r =>
                 t ← deref r;
                 let t' := _update_entity_from_model t updated_model in
                 store r t';;
                 (if use_versioning cls && hasattr t' "version"
                  then record_version id (getattr t' "version") else mret tt)
             | None => modify (set_original_versions (delete id))
             end;;
             mret true
         end
     else
       rowcount ← db_execute_delete id guard;
       if bool_decide (rowcount = 0%nat) then
         existing ← db_get id;
         match existing with
         | None => mret false
         | Some existing_model =>
             if use_versioning cls && negb (bool_decide (expected_version = VNone))
             then raise (ConcurrencyError (model_name cls) id expected_version
                           (model_attr existing_model "version") None)
             else mret false
         end
       else
         has ← gets (UnitOfWork.has_entity (entity_name cls) id);
         (if (has : bool) then UnitOfWork.unregister_entity (entity_name cls) id
          else mret tt);;
         modify (set_original_versions (delete id));;
         mret true)
    passes_delete
    (λ e, db_rollback;;
          raise (RepositoryError ("Failed to delete entity: " ++ str_exn e))).

Definition exists_ (id : UUID) (include_soft_deleted : bool) : M bool :=
  gets (λ s, match rows s !! id with
             | Some c => active_filter include_soft_deleted c
             | None => false
             end).

(** One keyword filter of [count]: ignored unless the model has the
    attribute and the value is not [None]. *)
Definition filter_matches (m : Model) (f : string * value) : bool :=
  if model_has cls f.1 && negb (bool_decide (f.2 = VNone))
  then bool_decide (model_attr m f.1 = f.2) else true.

(** The rows the query of [count] selects. *)
Definition count_query (include_soft_deleted : bool) (filters : list (string * value))
    (t : gmap UUID (gmap string value)) : gmap UUID (gmap string value) :=
  filter (λ kc, active_filter include_soft_deleted kc.2
                && forallb (filter_matches (mkModel kc.1 kc.2)) filters = true) t.

Definition count (include_soft_deleted : bool) (filters : list (string * value))
  : M nat :=
  gets (λ s, size (count_query include_soft_deleted filters (rows s))).

Definition _to_entity_or_update (model : Model) : M nat :=
  existing ← gets (UnitOfWork.get_entity (entity_name cls) (pk model));
  match existing with
  | Some r => mret r
  | None =>
      let d := _to_entity cls model in
      r ← alloc (entity_name cls) d;
      UnitOfWork.register_entity r (Some (pk model));;
      (if use_versioning cls && bool_decide (is_Some (d !! "version"))
       then record_version (pk model) (model_attr model "version") else mret tt);;
      mret r
  end.

(** The loop of [list] over its keyword filters: the first name that is
    not a column raises. *)
Fixpoint check_filters (filters : list (string * value)) : M unit :=
  match filters with
  | [] => mret tt
  | (field, _) :: filters' =>
      if negb (bool_decide (field ∈ columns cls)) then
        raise (RepositoryError
                 ("Invalid filter field: '" ++ field ++ "' for model " ++ model_name cls))
      else check_filters filters'
  end.

(** One keyword filter of [list]: a [None] value filters nothing. *)
Definition list_filter_matches (m : Model) (f : string * value) : bool :=
  if negb (bool_decide (f.2 = VNone)) then bool_decide (model_attr m f.1 = f.2) else true.

(** The rows the query of [list] selects. *)
Definition list_query (include_soft_deleted : bool) (filters : list (string * value))
    (t : gmap UUID (gmap string value)) : gmap UUID (gmap string value) :=
  filter (λ kc, active_filter include_soft_deleted kc.2
                && forallb (list_filter_matches (mkModel kc.1 kc.2)) filters = true) t.

(** [[self._to_entity_or_update(m) for m in models]] *)
Fixpoint to_entities (models : list Model) : M (list nat) :=
  match models with
  | [] => mret []
  | m :: models' =>
      r ← _to_entity_or_update m;
      rs ← to_entities models';
      mret (r :: rs)
  end.

(** [list(include_soft_deleted, **filters)].  The query has no
    [ORDER BY]: the database returns the selected rows in an order of
    its choosing, here that of their identifiers. *)
Definition list_ (include_soft_deleted : bool) (filters : list (string * value))
  : M (list nat) :=
  try_except
    (check_filters filters;;
     t ← gets rows;
     to_entities
       ((λ kc, mkModel kc.1 kc.2)
          <$> map_to_list (list_query include_soft_deleted filters t)))
    (λ _, false)
    (λ e, raise (RepositoryError ("Failed to list entities: " ++ str_exn e))).

(** [entity.id] *)
Definition id_of (o : object) : M UUID :=
  match __dict__ o !! "id" with
  | Some (VUuid u) => mret u
  | _ => raise (AttributeError "id")
  end.

Definition _get_model_instance (entity : nat) : M Model :=
  o ← deref entity;
  i ← id_of o;
  model ← db_get i;
  match model with
  | Some m => mret m
  | None => raise (EntityNotFoundError (model_name cls) i)
  end.

(** The text of a UUID in a formatted message, [str(uuid)]: taken as
    given. *)
Variable str_uuid : UUID -> string.

(** [refresh(entity)].  [self.db.refresh(model)] reads the row again,
    which [db_get] has just done. *)
Definition refresh (entity : nat) : M nat :=
  o ← deref entity;
  i ← id_of o;
  has ← gets (UnitOfWork.has_entity (entity_name cls) i);
  if negb (has : bool) then
    raise (RepositoryError
             ("Cannot refresh untracked " ++ entity_name cls ++ " with id " ++ str_uuid i
                ++ ". Load the entity via get() or list() first."))
  else
    model ← _get_model_instance entity;
    o1 ← deref entity;
    store entity (_update_entity_from_model o1 model);;
    o2 ← deref entity;
    (if use_versioning cls && hasattr o2 "version"
     then i2 ← id_of o2; record_version i2 (getattr o2 "version")
     else mret tt);;
    mret entity.

End Methods.

End BaseRepository.

(** ** [repositories/execution.py]: RunRepository *)

Module RunRepository.

(** Columns of [RunModel]: [Base], the mixins, then its own. *)
Definition RunModel_columns : list string :=
  ["id"; "created_at"; "updated_at"; "created_by"; "updated_by"; "version";
   "status"; "started_at"; "finished_at";
   "automation_id"; "correlation_id"; "cancellation_reason"; "error_summary";
   "is_active"].

Definition Run_updatable_fields : list string :=
  ["correlation_id"; "cancellation_reason"; "error_summary";
   "status"; "started_at"; "finished_at"; "is_active"].

(** The attributes of the [Run] built in [_to_entity] before the common
    attributes are copied: constructor arguments, field defaults, then
    the three assignments.  (The [id] default, a fresh [uuid4()], is
    overwritten by the copy and left out.) *)
Definition Run_of_model (model : Model) : gmap string value :=
  list_to_map
    [ ("created_at", VNone); ("updated_at", VNone); ("created_by", VNone);
      ("updated_by", VNone); ("version", VInt 1); ("is_active", VBool true);
      ("automation_id", model_attr model "automation_id");
      ("correlation_id", model_attr model "correlation_id");
      ("cancellation_reason", model_attr model "cancellation_reason");
      ("error_summary", model_attr model "error_summary");
      ("status", model_attr model "status");
      ("started_at", model_attr model "started_at");
      ("finished_at", model_attr model "finished_at") ].

Definition Run_to_entity (model : Model) : gmap string value :=
  _copy_common_attrs RunModel_columns model (Run_of_model model) common_attrs.

Definition class : RepositoryClass :=
  {| model_name := "RunModel"; entity_name := "Run";
     columns := RunModel_columns; updatable_fields := Some Run_updatable_fields;
     use_versioning := true; _to_entity := Run_to_entity |}.

End RunRepository.

(** * Notions used to state the properties *)

(** The events an instance in heap [h] would give up to
    [_collect_events]. *)
Definition buffer (h : gmap nat object) (r : nat) : list DomainEvent :=
  match h !! r with
  | Some o => if is_domain_entity o then _events o else []
  | None => []
  end.

(** A list of references without its repetitions: each reference stays
    where it first occurs. *)
Fixpoint first_occurrences (l : list nat) : list nat :=
  match l with
  | [] => []
  | r :: l' => r :: filter (λ x, x ≠ r) (first_occurrences l')
  end.





(** What the loop of [_collect_events] over [refs] leaves of an
    instance: its buffer is emptied when it is one of [refs] and has
    [pop_events]. *)
Definition drained (refs : list nat) (r : nat) (o : object) : object :=
  if bool_decide (r ∈ refs) && is_domain_entity o then (pop_events o).2 else o.

(** The calls a client can make on a run, each with the clock it
    reads. *)
Inductive Run_call : Type :=
| Run_start (now : nat -> datetime)
| Run_complete (now : nat -> datetime)
| Run_fail (error_summary : string) (now : nat -> datetime)
| Run_cancel (reason : string) (now : nat -> datetime).

Definition Run_apply (c : Run_call) (self : Run.t) : result DomainError Run.t :=
  match c with
  | Run_start now => Run.start now self
  | Run_complete now => Run.complete now self
  | Run_fail msg now => Run.fail msg now self
  | Run_cancel reason now => Run.cancel reason now self
  end.

(** A sequence of calls on one run: the caller catches what a call
    raises and goes on with the run as the raise left it. *)
Definition Run_calls (cs : list Run_call) (self : Run.t) : Run.t :=
  foldl (λ r c, state_of (Run_apply c r)) self cs.

(** The calls that return, among those of a sequence. *)
Fixpoint Run_returned (cs : list Run_call) (self : Run.t) : list Run_call :=
  match cs with
  | [] => []
  | c :: cs' =>
      match Run_apply c self with
      | Return self' => c :: Run_returned cs' self'
      | Raise _ self' => Run_returned cs' self'
      end
  end.

(** The same for a batch execution, an orchestration instance and an
    item execution. *)
Inductive BatchExecution_call : Type :=
| Batch_start (now : nat -> datetime)
| Batch_complete (now : nat -> datetime)
| Batch_fail (now : nat -> datetime).

Definition BatchExecution_apply (c : BatchExecution_call) (self : BatchExecution.t)
  : result DomainError BatchExecution.t :=
  match c with
  | Batch_start now => BatchExecution.start now self
  | Batch_complete now => BatchExecution.complete now self
  | Batch_fail now => BatchExecution.fail now self
  end.

Inductive Orchestration_call : Type :=
| Orchestration_start (now : nat -> datetime)
| Orchestration_complete (now : nat -> datetime)
| Orchestration_fail (now : nat -> datetime).

Definition Orchestration_apply (whole_seconds : datetime -> datetime -> Z)
    (c : Orchestration_call) (self : OrchestrationInstance.t)
  : result DomainError OrchestrationInstance.t :=
  match c with
  | Orchestration_start now => OrchestrationInstance.start now self
  | Orchestration_complete now => OrchestrationInstance.complete whole_seconds now self
  | Orchestration_fail now => OrchestrationInstance.fail now self
  end.

Inductive Item_call : Type :=
| Item_start (now : nat -> datetime)
| Item_complete (payload : option (list (string * string))) (now : nat -> datetime)
| Item_fail (msg : string) (now : nat -> datetime).

Definition Item_apply (c : Item_call) (self : ItemExecution.t)
  : result DomainError ItemExecution.t :=
  match c with
  | Item_start now => ItemExecution.start now self
  | Item_complete payload now => ItemExecution.complete payload now self
  | Item_fail msg now => ItemExecution.fail msg now self
  end.

Definition Item_calls (cs : list Item_call) (self : ItemExecution.t) : ItemExecution.t :=
  foldl (λ r c, state_of (Item_apply c r)) self cs.

(** One attempt that fails: [start()], then [fail(msg)]. *)
Definition failed_attempt (msg : string) (now : nat -> datetime) : list Item_call :=
  [Item_start now; Item_fail msg now].

(** [n] failed attempts in a row. *)
Definition failed_attempts (n : nat) (msg : string) (now : nat -> datetime)
  : list Item_call :=
  concat (replicate n (failed_attempt msg now)).

(** [register_event] called with each event in turn. *)
Definition register_events (events : list DomainEvent) (self : DomainEntity.t)
  : DomainEntity.t :=
  foldl (λ e ev, DomainEntity.register_event ev e) self events.



(** The handler calls a dispatch of [events] asks for: for each event
    in turn, each handler registered for its type, in registration
    order. *)
Definition dispatch_calls (bus : EventBus.t) (events : list DomainEvent)
  : list (nat * DomainEvent) :=
  flat_map (λ event, (λ h, (h, event)) <$> EventBus.handlers_for bus event) events.

(** The first of a list of calls that raises, and the calls made up to
    and including it (all of them when none raises). *)
Definition first_raise (handler_raises : nat -> DomainEvent -> bool)
    (calls : list (nat * DomainEvent)) : option (nat * DomainEvent) :=
  List.find (λ c, handler_raises c.1 c.2) calls.

(** The exception the first raising call leaves [dispatch] with. *)
Definition first_error (handler_raises : nat -> DomainEvent -> bool)
    (calls : list (nat * DomainEvent)) : option EventBus.Error :=
  (λ c, EventBus.HandlerRaised c.1 c.2) <$> first_raise handler_raises calls.

Fixpoint until_raise (handler_raises : nat -> DomainEvent -> bool)
    (calls : list (nat * DomainEvent)) : list (nat * DomainEvent) :=
  match calls with
  | [] => []
  | c :: calls' =>
      if handler_raises c.1 c.2 then [c] else c :: until_raise handler_raises calls'
  end.

(** A bus after it has made the calls [l]. *)
Definition with_called (bus : EventBus.t) (l : list (nat * DomainEvent)) : EventBus.t :=
  EventBus.mk (EventBus.handlers bus) (EventBus.use_async bus) (EventBus.executor bus)
    (EventBus._futures bus) (EventBus.called bus ++ l)%list.

(** * Concrete instances used by the examples *)

(** An item with every field at its default except those given. *)
Definition example_item (st : ExecutionStatus) (attempts : Z) (max : option Z)
  : ItemExecution.t :=
  {| ItemExecution.base := DomainEntity.init 5;
     ItemExecution.run_id := 1; ItemExecution.batch_execution_id := 2;
     ItemExecution.item_id := 3; ItemExecution.result_payload := None;
     ItemExecution.error_message := None; ItemExecution.status := st;
     ItemExecution.started_at := None; ItemExecution.finished_at := None;
     ItemExecution.attempt_count := attempts; ItemExecution.max_attempts := max |}.

(** A pending run, and the same run (same [id]) after [start()]. *)
Definition example_run : Run.t := Run.init 1 2 None.

Definition example_run_started : Run.t :=
  state_of (Run.start (λ k, Z.of_nat k) example_run).

(** A scope with two runs in memory (references 0 and 1, identifiers 7
    and 8), nothing registered yet. *)
Definition example_scope : State :=
  mkState ∅ ∅
    (<[0%nat := mkObject "Run" {["id" := VUuid 7]} []]>
       (<[1%nat := mkObject "Run" {["id" := VUuid 8]} []]> ∅))
    2 ∅ [] ∅ true true [].

(** The same two runs once each has raised an event. *)
Definition example_heap_with_events : gmap nat object :=
  <[0%nat := mkObject "Run" {["id" := VUuid 7]} [RunCompleted 7 3 10 11]]>
    (<[1%nat := mkObject "Run" {["id" := VUuid 8]} [RunFailed 8 3 "x" 12 13]]> ∅).

(** A [run] table with one row (identifier 7, version 1) seen by a
    scope that has loaded nothing yet. *)
Definition example_row : gmap string value :=
  list_to_map
    [("created_at", VTime 100); ("updated_at", VTime 100); ("created_by", VNone);
     ("updated_by", VNone); ("version", VInt 1); ("status", VStatus PENDING);
     ("started_at", VNone); ("finished_at", VNone); ("automation_id", VUuid 3);
     ("correlation_id", VNone); ("cancellation_reason", VNone);
     ("error_summary", VNone); ("is_active", VBool true)].

Definition example_table_scope : State :=
  mkState {[ 7%N := example_row ]} {[ 7%N := example_row ]} ∅ 0 ∅ [] ∅ true true [].

(** The scope after [get(7)]. *)
Definition example_loaded : State :=
  (BaseRepository.get RunRepository.class 7 false example_table_scope).2.

(** The caller assigns [correlation_id] on the loaded run. *)
Definition example_heap_renamed (tag : string) : gmap nat object :=
  alter (setattr "correlation_id" (VStr tag)) 0%nat (heap example_loaded).

(** A first scope updates the row at time 200. *)
Definition example_updated : State :=
  (BaseRepository.update RunRepository.class 200 201 7 0%nat None
     (set_heap (λ _, example_heap_renamed "first") example_loaded)).2.

(** A second scope that loaded the row before that update and now
    sees the table after it. *)
Definition example_stale : State :=
  set_heap (λ _, example_heap_renamed "second")
    (set_rows (λ _, rows example_updated) example_loaded).

(** The scope of [example_loaded] after [delete(7, soft=True, user="bob")]
    at time 300. *)
Definition example_soft_deleted : State :=
  (BaseRepository.delete RunRepository.class 300 301 7 true (Some "bob") VNone
     example_loaded).2.

(** The scope of [example_loaded] after [update(7, run)] on the run just
    loaded, no field assigned, at time 200. *)
Definition example_update_unchanged : outcome nat * State :=
  BaseRepository.update RunRepository.class 200 201 7 0%nat None example_loaded.

(** The run instance [get(7)] builds from [example_row]. *)
Definition example_loaded_run : object :=
  mkObject "Run" (RunRepository.Run_to_entity (mkModel 7 example_row)) [].

(** The row of identifier 7 once the first scope has updated it. *)
Definition example_row_updated : gmap string value :=
  <["updated_at" := VTime 200]>
    (<["version" := VInt 2]> (<["correlation_id" := VStr "first"]> example_row)).

(** The scope of [example_loaded] after the caller has assigned
    [automation_id], a column that is not updatable, on the loaded run. *)
Definition example_reassigned : State :=
  set_heap (alter (setattr "automation_id" (VUuid 99)) 0%nat) example_loaded.

(** The same scope after the caller has assigned [created_at] instead. *)
Definition example_backdated : State :=
  set_heap (alter (setattr "created_at" (VTime 999)) 0%nat) example_loaded.

(** The scope of [example_scope] when its two runs hold an event each. *)
Definition example_scope_with_events : State :=
  set_heap (λ _, example_heap_with_events) example_scope.

(** * Properties *)

Local Open Scope list_scope.

(** ** The status machine *)

(** C1: for every ordered pair of the seven statuses, [can_transition_to]
    answers true exactly when the pair is in the specification's
    transition table, and false for every pair whose source is
    COMPLETED, CANCELLED or SKIPPED. *)
Theorem can_transition_to_matches_table :
  (∀ from to : ExecutionStatus,
     can_transition_to from to = bool_decide ((from, to) ∈ spec_transition_table))
  ∧ (∀ to : ExecutionStatus,
       can_transition_to COMPLETED to = false
       ∧ can_transition_to CANCELLED to = false
       ∧ can_transition_to SKIPPED to = false).
Proof.
  split.
  - intros from to. destruct from, to; vm_compute; reflexivity.
  - intros to. destruct to; vm_compute; auto.
Qed.

Lemma can_transition_to_COMPLETED (s : ExecutionStatus) :
  can_transition_to s COMPLETED = true ↔ s = PROCESSING.
Proof. destruct s; vm_compute; split; congruence. Qed.

Lemma can_transition_to_PROCESSING (s : ExecutionStatus) :
  can_transition_to s PROCESSING = true ↔ s = PENDING ∨ s = RETRYING.
Proof.
  destruct s; vm_compute; split; try congruence; auto;
    intros [?|?]; congruence.
Qed.

(** ** Run *)

(** C7: [complete()] on a run that is not in PROCESSING raises
    [InvalidStateError] and leaves the run as it was; on a run in
    PROCESSING it sets COMPLETED, sets [finished_at], adds exactly one
    to the version and appends exactly one [RunCompleted] event that
    carries the run's own [id] and [automation_id]. *)
Theorem Run_complete_spec (now : nat → datetime) (self : Run.t) :
  (Run.status self ≠ PROCESSING →
     Run.complete now self
     = Raise (InvalidStateError "Run" (Run.id self) (Enums.value (Run.status self))
                "complete") self)
  ∧ (Run.status self = PROCESSING →
     ∃ self' : Run.t,
       Run.complete now self = Return self'
       ∧ Run.status self' = COMPLETED
       ∧ Run.finished_at self' = Some (now 0%nat)
       ∧ Run.version self' = Run.version self + 1
       ∧ Run._events self'
         = (Run._events self
              ++ [RunCompleted (Run.id self) (Run.automation_id self)
                    (now 0%nat) (now 2%nat)])%list
       ∧ Run.id self' = Run.id self
       ∧ Run.automation_id self' = Run.automation_id self).
Proof.
  split.
  - intros Hst. unfold Run.complete.
    destruct (can_transition_to (Run.status self) COMPLETED) eqn:E; [|reflexivity].
    apply can_transition_to_COMPLETED in E. contradiction.
  - intros Hst. unfold Run.complete. rewrite Hst. simpl.
    eexists. split; [reflexivity|]. simpl. repeat split; reflexivity.
Qed.

(** The two cases at a pending run and at the same run once started. *)
Lemma Run_complete_spec_witness :
  Run.complete (λ k, 10 + Z.of_nat k) (Run.init 1 2 None)
  = Raise (InvalidStateError "Run" 1%N "PENDING" "complete") (Run.init 1 2 None)
  ∧ ∃ self' : Run.t,
      Run.complete (λ k, 10 + Z.of_nat k)
        (state_of (Run.start (λ k, Z.of_nat k) (Run.init 1 2 None)))
      = Return self'
      ∧ Run.status self' = COMPLETED
      ∧ Run.version self' = 3.
Proof.
  split.
  - apply (proj1 (Run_complete_spec (λ k, 10 + Z.of_nat k) (Run.init 1 2 None))).
    simpl. discriminate.
  - destruct (proj2 (Run_complete_spec (λ k, 10 + Z.of_nat k)
                       (state_of (Run.start (λ k, Z.of_nat k) (Run.init 1 2 None))))
                eq_refl) as (self' & H1 & H2 & _ & H4 & _).
    exists self'. split; [exact H1|]. split; [exact H2|]. exact H4.
Defined.

(** ** ItemExecution *)

Lemma can_retry_iff (self : ItemExecution.t) :
  ItemExecution.can_retry self = true
  ↔ ∃ m, ItemExecution.max_attempts self = Some m ∧ ItemExecution.attempt_count self < m.
Proof.
  unfold ItemExecution.can_retry.
  destruct (ItemExecution.max_attempts self) as [m|].
  - rewrite bool_decide_eq_true. split.
    + intros H. exists m. auto.
    + intros (m' & [= <-] & H). exact H.
  - split; [discriminate|]. intros (m & H & _). discriminate.
Qed.

Lemma target_status_set_error_message (msg : string) (self : ItemExecution.t) :
  ItemExecution.target_status (ItemExecution.set_error_message msg self)
  = ItemExecution.target_status self.
Proof. reflexivity. Qed.

(** [fail] returns exactly when the move to its target status is legal. *)
Lemma ItemExecution_fail_returns_iff (msg : string) (now : nat → datetime)
    (self : ItemExecution.t) :
  raised (ItemExecution.fail msg now self) = None
  ↔ can_transition_to (ItemExecution.status self) (ItemExecution.target_status self) = true.
Proof.
  unfold ItemExecution.fail. rewrite target_status_set_error_message. simpl.
  destruct (can_transition_to _ _); simpl; split; congruence.
Qed.

(** C5: when failing is legal from the current status, [fail(message)]
    ends in RETRYING exactly when [max_attempts] is set and
    [attempt_count < max_attempts], and in FAILED otherwise;
    [finished_at] is assigned only on the FAILED outcome and keeps its
    value (unset stays unset) on the RETRYING outcome. *)
Theorem ItemExecution_fail_target (msg : string) (now : nat → datetime)
    (self : ItemExecution.t) :
  can_transition_to (ItemExecution.status self) (ItemExecution.target_status self) = true →
  ∃ self' : ItemExecution.t,
    ItemExecution.fail msg now self = Return self'
    ∧ (ItemExecution.status self' = RETRYING
       ↔ ∃ m, ItemExecution.max_attempts self = Some m
              ∧ ItemExecution.attempt_count self < m)
    ∧ (ItemExecution.status self' = FAILED
       ↔ ¬ ∃ m, ItemExecution.max_attempts self = Some m
                ∧ ItemExecution.attempt_count self < m)
    ∧ (ItemExecution.status self' = FAILED
       → ItemExecution.finished_at self' = Some (now 0%nat))
    ∧ (ItemExecution.status self' = RETRYING
       → ItemExecution.finished_at self' = ItemExecution.finished_at self).
Proof.
  intros Hlegal. unfold ItemExecution.fail.
  rewrite target_status_set_error_message. simpl. rewrite Hlegal. simpl.
  eexists. split; [reflexivity|]. simpl.
  rewrite <- can_retry_iff. unfold ItemExecution.target_status.
  destruct (ItemExecution.can_retry self); simpl.
  - repeat split; intros; congruence.
  - repeat split; intros; congruence.
Qed.

(** The specification's two examples: attempts 1 of 3, and 1 of 1. *)
Lemma ItemExecution_fail_target_witness :
  (∃ self', ItemExecution.fail "boom" (λ k, Z.of_nat k) (example_item PROCESSING 1 (Some 3))
            = Return self'
            ∧ ItemExecution.status self' = RETRYING
            ∧ ItemExecution.finished_at self' = None)
  ∧ (∃ self', ItemExecution.fail "boom" (λ k, Z.of_nat k) (example_item PROCESSING 1 (Some 1))
              = Return self'
              ∧ ItemExecution.status self' = FAILED
              ∧ ItemExecution.finished_at self' = Some 0).
Proof.
  split.
  - destruct (ItemExecution_fail_target "boom" (λ k, Z.of_nat k)
                (example_item PROCESSING 1 (Some 3)) eq_refl)
      as (self' & H1 & H2 & _ & _ & H5).
    exists self'. split; [exact H1|].
    assert (Hs : ItemExecution.status self' = RETRYING).
    { apply H2. exists 3. split; [reflexivity|]. simpl. lia. }
    split; [exact Hs|]. exact (H5 Hs).
  - destruct (ItemExecution_fail_target "boom" (λ k, Z.of_nat k)
                (example_item PROCESSING 1 (Some 1)) eq_refl)
      as (self' & H1 & _ & H3 & H4 & _).
    exists self'. split; [exact H1|].
    assert (Hs : ItemExecution.status self' = FAILED).
    { apply H3. intros (m & Hm & Hlt). simpl in Hm, Hlt. injection Hm as <-. lia. }
    split; [exact Hs|]. exact (H4 Hs).
Defined.

(** C6: a [start()] that returns has added exactly one to
    [attempt_count] (and it does return whenever attempts remain and
    the status allows PROCESSING); once [attempt_count] has reached a
    set [max_attempts], [start()] raises [InvalidStateError] and the
    item, so its [attempt_count] and status, is left as it was. *)
Theorem ItemExecution_start_attempts (now : nat → datetime) (self : ItemExecution.t) :
  (∀ self', ItemExecution.start now self = Return self'
            → ItemExecution.attempt_count self' = ItemExecution.attempt_count self + 1)
  ∧ (ItemExecution.attempts_exhausted self = false
     → can_transition_to (ItemExecution.status self) PROCESSING = true
     → ∃ self', ItemExecution.start now self = Return self'
                ∧ ItemExecution.attempt_count self'
                  = ItemExecution.attempt_count self + 1)
  ∧ (∀ m, ItemExecution.max_attempts self = Some m
          → (m ≤ ItemExecution.attempt_count self)%Z
          → ∃ operation,
              ItemExecution.start now self
              = Raise (InvalidStateError "ItemExecution" (ItemExecution.id self)
                         (Enums.value (ItemExecution.status self)) operation) self).
Proof.
  unfold ItemExecution.start. repeat split.
  - intros self'.
    destruct (ItemExecution.attempts_exhausted self); [discriminate|].
    destruct (can_transition_to _ _); simpl; [|discriminate].
    intros [= <-]. reflexivity.
  - intros -> ->. simpl. eexists. split; reflexivity.
  - intros m Hm Hle. unfold ItemExecution.attempts_exhausted. rewrite Hm.
    rewrite bool_decide_eq_true_2 by exact Hle. eexists. reflexivity.
Qed.

Lemma ItemExecution_start_attempts_witness :
  (∃ self', ItemExecution.start (λ k, Z.of_nat k) (example_item PENDING 0 (Some 1))
            = Return self'
            ∧ ItemExecution.attempt_count self' = 1)
  ∧ (∃ operation,
       ItemExecution.start (λ k, Z.of_nat k) (example_item RETRYING 1 (Some 1))
       = Raise (InvalidStateError "ItemExecution" 5%N "RETRYING" operation)
               (example_item RETRYING 1 (Some 1))).
Proof.
  split.
  - exact (proj1 (proj2 (ItemExecution_start_attempts (λ k, Z.of_nat k)
                           (example_item PENDING 0 (Some 1)))) eq_refl eq_refl).
  - apply (proj2 (proj2 (ItemExecution_start_attempts (λ k, Z.of_nat k)
                           (example_item RETRYING 1 (Some 1)))) 1 eq_refl).
    simpl. lia.
Defined.

(** C10: from a status that allows neither FAILED nor RETRYING,
    [fail(message)] raises [InvalidStateError]; status, attempt count,
    [finished_at] and version are as before, yet [error_message] now
    holds the message: it is assigned before the legality check. *)
Theorem ItemExecution_fail_rejected_keeps_message (msg : string)
    (now : nat → datetime) (self : ItemExecution.t) :
  can_transition_to (ItemExecution.status self) FAILED = false →
  can_transition_to (ItemExecution.status self) RETRYING = false →
  let after := state_of (ItemExecution.fail msg now self) in
  (∃ operation,
     raised (ItemExecution.fail msg now self)
     = Some (InvalidStateError "ItemExecution" (ItemExecution.id self)
               (Enums.value (ItemExecution.status self)) operation))
  ∧ ItemExecution.status after = ItemExecution.status self
  ∧ ItemExecution.attempt_count after = ItemExecution.attempt_count self
  ∧ ItemExecution.finished_at after = ItemExecution.finished_at self
  ∧ ItemExecution.version after = ItemExecution.version self
  ∧ ItemExecution._events after = ItemExecution._events self
  ∧ ItemExecution.error_message after = Some msg.
Proof.
  intros HF HR after. subst after. unfold ItemExecution.fail.
  rewrite target_status_set_error_message. simpl.
  assert (Hno : can_transition_to (ItemExecution.status self)
                  (ItemExecution.target_status self) = false).
  { unfold ItemExecution.target_status.
    destruct (ItemExecution.can_retry self); assumption. }
  rewrite Hno. simpl. split; [eexists; reflexivity|]. repeat split.
Qed.

Lemma ItemExecution_fail_rejected_keeps_message_witness :
  ItemExecution.error_message
    (state_of (ItemExecution.fail "late" (λ k, Z.of_nat k) (example_item PENDING 0 (Some 3))))
  = Some "late"
  ∧ ItemExecution.status
      (state_of (ItemExecution.fail "late" (λ k, Z.of_nat k)
                   (example_item PENDING 0 (Some 3))))
    = PENDING.
Proof.
  destruct (ItemExecution_fail_rejected_keeps_message "late" (λ k, Z.of_nat k)
              (example_item PENDING 0 (Some 3)) eq_refl eq_refl)
    as (_ & Hs & _ & _ & _ & _ & Hm).
  split; [exact Hm | exact Hs].
Defined.

(** ** Equality of entities *)

(** The generated [__eq__] of [Run] is equality of all fields. *)
Lemma Run_eq_iff (a b : Run.t) : Run.__eq__ a b = true ↔ a = b.
Proof.
  unfold Run.__eq__. split.
  - intros H. repeat (apply andb_prop in H; destruct H as [H ?]).
    repeat match goal with
           | X : bool_decide _ = true |- _ => apply bool_decide_eq_true in X
           end.
    destruct a as [[] ? ? ? ? ? ? ?], b as [[] ? ? ? ? ? ? ?]. simpl in *. congruence.
  - intros <-. repeat (apply andb_true_intro; split);
      apply bool_decide_eq_true; reflexivity.
Qed.

(** Runs with different identifiers are never equal. *)
Lemma Run_eq_different_id (a b : Run.t) :
  Run.id a ≠ Run.id b → Run.__eq__ a b = false.
Proof.
  intros Hne. destruct (Run.__eq__ a b) eqn:E; [|reflexivity].
  apply Run_eq_iff in E. subst b. contradiction.
Qed.

(** C9: equality by identifier alone is what [DomainEntity.__eq__]
    computes, but not what [==] does on a [Run]: a pending run and the
    same run after [start()] have the same identifier, are equal for
    [DomainEntity.__eq__], and are unequal for the [__eq__] that
    [@dataclass] gives [Run]. *)
Theorem Run_eq_same_id_not_equal :
  Run.id example_run_started = Run.id example_run
  ∧ DomainEntity.__eq__ (Run.base example_run) (Run.base example_run_started) = true
  ∧ Run.__eq__ example_run example_run_started = false.
Proof. vm_compute. repeat split. Qed.

(** ** Unit of work: events are dispatched on commit only *)

Lemma flat_map_filter_empty {A B} (f : A → list B) (P : A → Prop)
    `{∀ x, Decision (P x)} (l : list A) :
  (∀ x, ¬ P x → f x = []) → flat_map f (filter P l) = flat_map f l.
Proof.
  intros Hf. induction l as [|x l IH]; [reflexivity|].
  rewrite filter_cons. destruct (decide (P x)); simpl.
  - by rewrite IH.
  - rewrite (Hf x) by assumption. exact IH.
Qed.

Lemma buffer_insert_empty (h : gmap nat object) (r : nat) (o : object) (l : list nat) :
  _events o = [] →
  flat_map (buffer (<[r := o]> h)) l = flat_map (buffer h) (filter (λ x, x ≠ r) l).
Proof.
  intros Ho. induction l as [|x l IH]; [reflexivity|].
  rewrite filter_cons. destruct (decide (x ≠ r)) as [Hne|Heq]; simpl.
  - rewrite IH. f_equal. unfold buffer. by rewrite lookup_insert_ne.
  - apply dec_stable in Heq. subst x. rewrite IH.
    unfold buffer at 1. rewrite lookup_insert_eq, Ho. by destruct (is_domain_entity o).
Qed.

Lemma collect_events (refs : list nat) :
  ∀ h, (UnitOfWork.collect refs h).1 = flat_map (buffer h) (first_occurrences refs).
Proof.
  induction refs as [|r refs IH]; intros h; [reflexivity|].
  simpl. unfold buffer at 1.
  destruct (h !! r) as [o|] eqn:E.
  - destruct (is_domain_entity o) eqn:D.
    + specialize (IH (<[r := {| class_of := class_of o; __dict__ := __dict__ o; _events := [] |}]> h)).
      destruct (UnitOfWork.collect refs _) as [rest h'] eqn:C. simpl in *.
      rewrite IH. f_equal. by apply buffer_insert_empty.
    + rewrite IH. simpl. symmetry. apply flat_map_filter_empty.
      intros x Hx. apply dec_stable in Hx. subst x. unfold buffer. by rewrite E, D.
  - rewrite IH. simpl. symmetry. apply flat_map_filter_empty.
    intros x Hx. apply dec_stable in Hx. subst x. unfold buffer. by rewrite E.
Qed.

Lemma drained_cons_ne (refs : list nat) (r r0 : nat) (o : object) :
  r ≠ r0 → drained (r0 :: refs) r o = drained refs r o.
Proof.
  intros Hne. unfold drained.
  rewrite (bool_decide_ext (r ∈ r0 :: refs) (r ∈ refs)); [done|].
  rewrite elem_of_cons. split; [intros [?|?]; [contradiction|assumption] | by right].
Qed.

Lemma collect_heap (refs : list nat) :
  ∀ h r, (UnitOfWork.collect refs h).2 !! r = drained refs r <$> h !! r.
Proof.
  induction refs as [|r0 refs IH]; intros h r.
  - simpl. unfold drained. simpl. by destruct (h !! r).
  - simpl. destruct (h !! r0) as [o0|] eqn:E.
    + destruct (is_domain_entity o0) eqn:D.
      * specialize (IH (<[r0 := {| class_of := class_of o0; __dict__ := __dict__ o0; _events := [] |}]> h) r).
        destruct (UnitOfWork.collect refs _) as [rest h'] eqn:C. simpl in *.
        rewrite IH. destruct (decide (r = r0)) as [->|Hne].
        -- rewrite lookup_insert_eq, E. simpl. f_equal. unfold drained.
           rewrite (bool_decide_eq_true_2 (r0 ∈ r0 :: refs)) by left.
           unfold is_domain_entity in *. simpl. rewrite D. simpl.
           by destruct (bool_decide (r0 ∈ refs)).
        -- rewrite lookup_insert_ne by done. destruct (h !! r); [|done]. simpl. f_equal.
           by rewrite drained_cons_ne.
      * rewrite IH. destruct (decide (r = r0)) as [->|Hne].
        -- rewrite E. simpl. f_equal. unfold drained. rewrite D. by rewrite !andb_false_r.
        -- destruct (h !! r); [|done]. simpl. f_equal.
           by rewrite drained_cons_ne.
    + rewrite IH. destruct (decide (r = r0)) as [->|Hne].
      * by rewrite E.
      * destruct (h !! r); [|done]. simpl. f_equal.
        by rewrite drained_cons_ne.
Qed.


Lemma commit_succeeds (s : State) (dispatch_ok : bool) :
  session s = true →
  ∃ s1, UnitOfWork.commit true dispatch_ok s
        = (match (UnitOfWork.collect (_tracked_entities s).*2 (heap s)).1 with
           | [] => Ok tt
           | _ :: _ => if dispatch_ok then Ok tt else Err HandlerError
           end, s1)
    ∧ dispatched s1
      = dispatched s
        ++ match (UnitOfWork.collect (_tracked_entities s).*2 (heap s)).1 with
           | [] => []
           | e :: es => [e :: es]
           end
    ∧ heap s1 = (UnitOfWork.collect (_tracked_entities s).*2 (heap s)).2
    ∧ _tracked_entities s1 = []
    ∧ committed s1 = rows s.
Proof.
  intros Hs. unfold UnitOfWork.commit, UnitOfWork._collect_events. unfold_M.
  rewrite Hs. simpl.
  destruct (UnitOfWork.collect _ _) as [[|e es] h'] eqn:C; simpl;
    [|destruct dispatch_ok; simpl];
    eexists; (split; [reflexivity|]); simpl; rewrite ?app_nil_r; repeat split.
Qed.





Lemma collect_keeps (refs : list nat) (h : gmap nat object) (r : nat) :
  r ∉ refs → buffer (UnitOfWork.collect refs h).2 r = buffer h r.
Proof.
  intros Hr. unfold buffer. rewrite collect_heap.
  destruct (h !! r) as [o|]; [|done]. simpl. unfold drained.
  by rewrite bool_decide_eq_false_2.
Qed.

Lemma odict_set_fresh {K V} `{EqDecision K} (k : K) (v : V) (d : list (K * V)) :
  k ∉ d.*1 → odict_set k v d = d ++ [(k, v)].
Proof.
  induction d as [|[k' v'] d IH]; intros Hk; [reflexivity|].
  simpl in *. apply not_elem_of_cons in Hk as [Hne Hk].
  destruct (decide (k = k')); [done|]. by rewrite IH.
Qed.





(** ** Repository: optimistic locking *)

Lemma model_attr_not_id (m : Model) (c : string) :
  c ≠ "id" → model_attr m c = dict_get (cols m) c.
Proof. intros H. unfold model_attr. by rewrite bool_decide_eq_false_2. Qed.

Lemma get_loads (cls : RepositoryClass) (id : UUID) (include : bool) (s : State)
    (c : gmap string value) :
  _identity_map s !! (entity_name cls, id) = None →
  rows s !! id = Some c →
  BaseRepository.active_filter cls include c = true →
  ∃ s', BaseRepository.get cls id include s = (Ok (Some (next_ref s)), s')
    ∧ rows s' = rows s
    ∧ heap s' = <[next_ref s := mkObject (entity_name cls) (_to_entity cls (mkModel id c)) []]> (heap s)
    ∧ _identity_map s' = <[(entity_name cls, id) := next_ref s]> (_identity_map s)
    ∧ _original_versions s'
      = if use_versioning cls && bool_decide (is_Some (_to_entity cls (mkModel id c) !! "version"))
        then <[id := dict_get c "version"]> (_original_versions s)
        else _original_versions s.
Proof.
  intros Hmap Hrow Hact.
  unfold BaseRepository.get, UnitOfWork.get_entity, alloc, UnitOfWork.register_entity, deref,
    BaseRepository.record_version.
  unfold_M. simpl. rewrite Hmap, Hrow, Hact. simpl.
  rewrite lookup_insert_eq. simpl.
  destruct (use_versioning cls && bool_decide (is_Some (_to_entity cls (mkModel id c) !! "version")));
    simpl; eexists; (split; [reflexivity|]); simpl; repeat split.
Qed.

(** C2: an entity stored at version 1 is loaded by two scopes; the
    first scope's update succeeds and leaves the stored version at 2;
    the update of the second scope, whose recorded baseline is still 1,
    raises [ConcurrencyError] with expected version 1 and actual
    version 2 and changes nothing: neither the stored row nor anything
    else of the scope's state. *)
Theorem stale_update_raises_ConcurrencyError
    (cls : RepositoryClass) (id : UUID) (c : gmap string value)
    (scope1 scope2 : State) (heap1 heap2 : gmap nat object)
    (now1 db_now1 now2 db_now2 : datetime) (entity1 entity2 : nat)
    (user1 user2 : option string) :
  use_versioning cls = true →
  rows scope1 !! id = Some c →
  rows scope2 = rows scope1 →
  dict_get c "version" = VInt 1 →
  BaseRepository.active_filter cls false c = true →
  is_Some (_to_entity cls (mkModel id c) !! "version") →
  _identity_map scope1 !! (entity_name cls, id) = None →
  _identity_map scope2 !! (entity_name cls, id) = None →
  let loaded1 := (BaseRepository.get cls id false scope1).2 in
  let loaded2 := (BaseRepository.get cls id false scope2).2 in
  ∀ (updated1 : State) (r : nat) (c' : gmap string value),
    BaseRepository.update cls now1 db_now1 id entity1 user1 (set_heap (λ _, heap1) loaded1)
    = (Ok r, updated1) →
    rows updated1 !! id = Some c' →
    dict_get c' "version" = VInt 2 →
    let stale2 := set_heap (λ _, heap2) (set_rows (λ _, rows updated1) loaded2) in
    BaseRepository.update cls now2 db_now2 id entity2 user2 stale2
    = (Err (ConcurrencyError (model_name cls) id (VInt 1) (VInt 2) None), stale2).
Proof.
  intros Hver Hrow Hsame Hv1 Hact Hattr Hmap1 Hmap2 loaded1 loaded2
         updated1 r c' _ Hrow' Hv2 stale2.
  rewrite <- Hsame in Hrow.
  destruct (get_loads cls id false scope2 c Hmap2 Hrow Hact) as (s' & Hget & _ & _ & _ & Hov).
  rewrite Hver in Hov. rewrite bool_decide_eq_true_2 in Hov by exact Hattr.
  simpl in Hov. rewrite Hv1 in Hov.
  assert (Hexp : dict_get (_original_versions s') id = VInt 1).
  { rewrite Hov. unfold dict_get. by rewrite lookup_insert_eq. }
  subst stale2 loaded2. rewrite Hget. cbn [snd].
  unfold BaseRepository.update, db_get. unfold_M. cbv beta.
  cbn [_original_versions set_rows set_heap]. rewrite Hexp, Hver. simpl.
  rewrite Hrow'. simpl.
  rewrite model_attr_not_id by discriminate. cbn [cols]. rewrite Hv2.
  reflexivity.
Qed.

(** The scenario on the one-row [run] table. *)
Lemma stale_update_raises_ConcurrencyError_witness :
  BaseRepository.update RunRepository.class 300 301 7 0%nat None example_stale
  = (Err (ConcurrencyError "RunModel" 7 (VInt 1) (VInt 2) None), example_stale).
Proof.
  refine (stale_update_raises_ConcurrencyError RunRepository.class 7 example_row
            example_table_scope example_table_scope
            (example_heap_renamed "first") (example_heap_renamed "second")
            200 201 300 301 0%nat 0%nat None None
            eq_refl eq_refl eq_refl eq_refl eq_refl _ eq_refl eq_refl
            example_updated 0%nat
            (<["updated_at" := VTime 200]>
               (<["version" := VInt 2]>
                  (<["correlation_id" := VStr "first"]> example_row)))
            _ _ eq_refl).
  - vm_compute. eexists. reflexivity.
  - vm_compute. reflexivity.
  - vm_compute. reflexivity.
Defined.

(** ** Repository: soft delete *)

Lemma update_entity_from_model_fold (cls_columns : list string) (m : Model) (key : string) :
  key ≠ "id" → key ≠ "created_at" →
  ∀ o : object,
    is_Some (__dict__ o !! key) →
    let res :=
      foldl (λ o k,
               if bool_decide (k ∈ ["id"; "created_at"]) then o
               else if hasattr o k then setattr k (model_attr m k) o else o)
            o cls_columns in
    class_of res = class_of o
    ∧ _events res = _events o
    ∧ is_Some (__dict__ res !! key)
    ∧ (key ∈ cls_columns ∨ __dict__ o !! key = Some (model_attr m key)
       → __dict__ res !! key = Some (model_attr m key)).
Proof.
  intros Hid Hca. induction cls_columns as [|k l IH]; intros o Hhas res.
  - subst res. simpl. repeat split; [done|].
    intros [H|H]; [by apply elem_of_nil in H|done].
  - subst res. simpl.
    set (o1 := if bool_decide (k ∈ ["id"; "created_at"]) then o
               else if hasattr o k then setattr k (model_attr m k) o else o).
    assert (Hc1 : class_of o1 = class_of o).
    { subst o1. destruct (bool_decide _); [done|]. by destruct (hasattr o k). }
    assert (He1 : _events o1 = _events o).
    { subst o1. destruct (bool_decide _); [done|]. by destruct (hasattr o k). }
    assert (Hk1 : is_Some (__dict__ o1 !! key)
                  ∧ (k = key ∨ __dict__ o !! key = Some (model_attr m key)
                     → __dict__ o1 !! key = Some (model_attr m key))).
    { subst o1. destruct (decide (k = key)) as [->|Hne].
      - rewrite bool_decide_eq_false_2.
        2:{ intros H. apply elem_of_cons in H as [?|H]; [done|].
            apply elem_of_cons in H as [?|H]; [done|]. by apply elem_of_nil in H. }
        unfold hasattr. rewrite bool_decide_eq_true_2 by done. simpl.
        rewrite lookup_insert_eq. split; [eauto|done].
      - destruct (bool_decide _); [split; [done|intros [?|?]; done]|].
        destruct (hasattr o k); [|split; [done|intros [?|?]; done]].
        simpl. rewrite lookup_insert_ne by done. split; [done|intros [?|?]; done]. }
    destruct Hk1 as [Hs1 Hv1].
    destruct (IH o1 Hs1) as (Hc & He & Hs & Hv).
    split; [congruence|]. split; [congruence|]. split; [exact Hs|].
    intros [Hin|Heq]; apply Hv.
    + apply elem_of_cons in Hin as [->|Hin]; [right; apply Hv1; by left|by left].
    + right. apply Hv1. by right.
Qed.

Lemma update_entity_from_model_attr (cls : RepositoryClass) (o : object) (m : Model)
    (key : string) :
  key ≠ "id" → key ≠ "created_at" → key ∈ columns cls →
  is_Some (__dict__ o !! key) →
  __dict__ (BaseRepository._update_entity_from_model cls o m) !! key
  = Some (model_attr m key).
Proof.
  intros Hid Hca Hin Hhas.
  destruct (update_entity_from_model_fold (columns cls) m key Hid Hca o Hhas)
    as (_ & _ & _ & Hv).
  apply Hv. by left.
Qed.

Lemma soft_delete_values_lookup (cls : RepositoryClass) (now : datetime)
    (user : option string) :
  let values := BaseRepository.soft_delete_values cls now user in
  values !! "is_active" = Some (Lit (VBool false))
  ∧ values !! "updated_at" = Some (Lit (VTime now))
  ∧ (use_versioning cls && model_has cls "version" = true
     → values !! "version" = Some VersionPlusOne).
Proof.
  unfold BaseRepository.soft_delete_values.
  destruct user as [u|]; [destruct (truthy (VStr u) && model_has cls "updated_by")|];
    destruct (use_versioning cls && model_has cls "version");
    repeat split; intros; try discriminate; by simplify_map_eq.
Qed.

Lemma soft_update_row (cls : RepositoryClass) (now db_now : datetime)
    (user : option string) (c : gmap string value) :
  use_versioning cls = true → model_has cls "version" = true →
  let values := BaseRepository.soft_delete_values cls now user in
  let c1 := (sql_eval c <$> values) ∪ c in
  let c2 := if model_has cls "updated_at"
               && negb (bool_decide (is_Some (values !! "updated_at")))
            then <["updated_at" := VTime db_now]> c1 else c1 in
  dict_get c2 "is_active" = VBool false
  ∧ dict_get c2 "version" = sql_eval c VersionPlusOne.
Proof.
  intros Hver Hcol values c1 c2.
  destruct (soft_delete_values_lookup cls now user) as (Ha & Hu & Hv).
  fold values in Ha, Hu, Hv.
  assert (Hc2 : c2 = c1).
  { subst c2. rewrite Hu. rewrite bool_decide_eq_true_2 by eauto.
    by rewrite andb_false_r. }
  rewrite Hc2. subst c1. unfold dict_get.
  rewrite !lookup_union, !lookup_fmap, Ha, Hv by (by rewrite Hver, Hcol).
  simpl. split; by rewrite union_Some_l.
Qed.

Lemma delete_soft_success (cls : RepositoryClass) (now db_now : datetime) (id : UUID)
    (user : option string) (expected_version : value) (s s' : State)
    (c : gmap string value) :
  use_versioning cls = true → model_has cls "version" = true →
  rows s !! id = Some c →
  BaseRepository.delete cls now db_now id true user expected_version s = (Ok true, s') →
  ∃ c2, rows s' = <[id := c2]> (rows s)
    ∧ dict_get c2 "is_active" = VBool false
    ∧ dict_get c2 "version" = sql_eval c VersionPlusOne
    ∧ model_has cls "is_active" = true
    ∧ _identity_map s' = _identity_map s
    ∧ next_ref s' = next_ref s
    ∧ match _identity_map s !! (entity_name cls, id) with
      | Some r =>
          ∃ o, heap s !! r = Some o
               ∧ heap s' = <[r := BaseRepository._update_entity_from_model cls o (mkModel id c2)]> (heap s)
      | None => heap s' = heap s
      end.
Proof.
  intros Hver Hcol Hrow Hdel.
  unfold BaseRepository.delete, db_execute_update, db_get, deref, store,
    BaseRepository.record_version, UnitOfWork.get_entity, db_rollback in Hdel.
  unfold_M. cbv beta in Hdel. simpl in Hdel. rewrite Hver in Hdel. simpl in Hdel.
  destruct (model_has cls "is_active") eqn:Hact; simpl in Hdel; [|discriminate].
  rewrite Hrow in Hdel.
  destruct (soft_update_row cls now db_now user c Hver Hcol) as [Hc2a Hc2v].
  cbv zeta in Hc2a, Hc2v.
  set (c2 := if model_has cls "updated_at"
                && negb (bool_decide (is_Some (BaseRepository.soft_delete_values cls now user
                                               !! "updated_at")))
             then <["updated_at" := VTime db_now]>
                    ((sql_eval c <$> BaseRepository.soft_delete_values cls now user) ∪ c)
             else (sql_eval c <$> BaseRepository.soft_delete_values cls now user) ∪ c) in *.
  destruct (where_matches _ c) eqn:Hw; simpl in Hdel.
  - destruct (_identity_map s !! (entity_name cls, id)) as [r|] eqn:Hmap; simpl in Hdel.
    + destruct (heap s !! r) as [o|] eqn:Hheap; simpl in Hdel; [|discriminate].
      destruct (hasattr _ "version"); simpl in Hdel; injection Hdel as <-;
        exists c2; simpl; repeat split; try assumption; exists o; done.
    + injection Hdel as <-. exists c2. simpl. repeat split; assumption.
  - rewrite Hrow in Hdel. simpl in Hdel.
    match type of Hdel with context [negb ?b] => destruct b end;
      simpl in Hdel; discriminate.
Qed.

Lemma active_filter_include (cls : RepositoryClass) (c : gmap string value) :
  BaseRepository.active_filter cls true c = true.
Proof. reflexivity. Qed.

Lemma active_filter_inactive (cls : RepositoryClass) (c : gmap string value) :
  model_has cls "is_active" = true → dict_get c "is_active" = VBool false →
  BaseRepository.active_filter cls false c = false.
Proof.
  intros Hcol Hc. unfold BaseRepository.active_filter. rewrite Hcol, Hc. reflexivity.
Qed.


Lemma get_hidden (cls : RepositoryClass) (id : UUID) (s : State) (c : gmap string value) :
  rows s !! id = Some c →
  BaseRepository.active_filter cls false c = false →
  (∀ r, _identity_map s !! (entity_name cls, id) = Some r →
        ∃ o, heap s !! r = Some o ∧ getattr o "is_active" = VBool false) →
  BaseRepository.get cls id false s = (Ok None, s).
Proof.
  intros Hrow Hact Hobj.
  unfold BaseRepository.get, UnitOfWork.get_entity, deref. unfold_M. simpl.
  destruct (_identity_map s !! (entity_name cls, id)) as [r|] eqn:Hmap.
  - destruct (Hobj r eq_refl) as (o & Ho & Hia). rewrite Ho, Hia. simpl.
    rewrite andb_false_r. simpl. by rewrite Hrow, Hact.
  - simpl. by rewrite Hrow, Hact.
Qed.

Lemma get_cached_include (cls : RepositoryClass) (id : UUID) (s : State) (r : nat)
    (o : object) :
  _identity_map s !! (entity_name cls, id) = Some r →
  heap s !! r = Some o →
  ∃ s', BaseRepository.get cls id true s = (Ok (Some r), s')
    ∧ heap s' = heap s ∧ rows s' = rows s.
Proof.
  intros Hmap Ho.
  unfold BaseRepository.get, UnitOfWork.get_entity, deref, BaseRepository.record_version.
  unfold_M. simpl. rewrite Hmap, Ho. simpl.
  destruct (use_versioning cls && hasattr o "version"); simpl;
    eexists; (split; [reflexivity|]); done.
Qed.

Lemma count_query_all (cls : RepositoryClass) (t : gmap UUID (gmap string value)) :
  BaseRepository.count_query cls true [] t = t.
Proof. unfold BaseRepository.count_query. apply map_filter_id. intros i x _. reflexivity. Qed.

Lemma count_query_excludes (cls : RepositoryClass) (filters : list (string * value))
    (t : gmap UUID (gmap string value)) (id : UUID) (c2 : gmap string value) :
  BaseRepository.active_filter cls false c2 = false →
  BaseRepository.count_query cls false filters (<[id := c2]> t) !! id = None.
Proof.
  intros Hact. unfold BaseRepository.count_query. apply map_lookup_filter_None. right.
  intros x Hx. rewrite lookup_insert_eq in Hx. injection Hx as <-. simpl.
  rewrite Hact. simpl. discriminate.
Qed.

Lemma count_query_size_after_hiding (cls : RepositoryClass)
    (t : gmap UUID (gmap string value)) (id : UUID) (c c2 : gmap string value) :
  t !! id = Some c →
  BaseRepository.active_filter cls false c2 = false →
  size (BaseRepository.count_query cls false [] t)
  = (size (BaseRepository.count_query cls false [] (<[id := c2]> t))
     + if BaseRepository.active_filter cls false c then 1 else 0)%nat.
Proof.
  intros Ht Hact. unfold BaseRepository.count_query.
  rewrite (map_filter_insert_False _ t id c2).
  2:{ simpl. rewrite Hact. simpl. discriminate. }
  rewrite <- (insert_id t id c Ht) at 1. rewrite <- insert_delete_eq.
  rewrite map_filter_insert. simpl. rewrite andb_true_r.
  destruct (BaseRepository.active_filter cls false c) eqn:Hc.
  - rewrite decide_True by done. rewrite map_size_insert_None; [lia|].
    apply map_lookup_filter_None. left. apply lookup_delete_eq.
  - rewrite decide_False by (simpl; discriminate).
    rewrite delete_delete_eq. lia.
Qed.

(** C8: after [delete(id, soft=True)] has returned [True] for a stored
    entity, [get(id)] finds nothing, [get(id, include_soft_deleted=True)]
    returns the entity with [is_active] false and the version one above
    the stored version before the delete, [count()] leaves the entity
    out (one less than before if it was active) and
    [count(include_soft_deleted=True)] still counts it. *)
Theorem soft_delete_hides_entity
    (cls : RepositoryClass) (id : UUID) (c : gmap string value) (v : Z)
    (now db_now : datetime) (user : option string) (expected_version : value)
    (s s' : State) (filters : list (string * value)) :
  use_versioning cls = true →
  "version" ∈ columns cls →
  rows s !! id = Some c →
  dict_get c "version" = VInt v →
  (∀ r o, _identity_map s !! (entity_name cls, id) = Some r → heap s !! r = Some o →
          is_Some (__dict__ o !! "is_active") ∧ is_Some (__dict__ o !! "version")) →
  (∀ m, _to_entity cls m !! "is_active" = Some (model_attr m "is_active")
        ∧ _to_entity cls m !! "version" = Some (model_attr m "version")) →
  BaseRepository.delete cls now db_now id true user expected_version s = (Ok true, s') →
  BaseRepository.get cls id false s' = (Ok None, s')
  ∧ (∃ (r : nat) (s'' : State) (o : object),
       BaseRepository.get cls id true s' = (Ok (Some r), s'')
       ∧ heap s'' !! r = Some o
       ∧ getattr o "is_active" = VBool false
       ∧ getattr o "version" = VInt (v + 1))
  ∧ BaseRepository.count_query cls false filters (rows s') !! id = None
  ∧ is_Some (BaseRepository.count_query cls true [] (rows s') !! id)
  ∧ (∃ n_active n_all : nat,
       BaseRepository.count cls false [] s' = (Ok n_active, s')
       ∧ BaseRepository.count cls true [] s' = (Ok n_all, s')
       ∧ BaseRepository.count cls true [] s = (Ok n_all, s)
       ∧ BaseRepository.count cls false [] s
         = (Ok (n_active + if BaseRepository.active_filter cls false c then 1 else 0)%nat, s)).
Proof.
  intros Hver Hcol Hrow Hv Hobj Hent Hdel.
  assert (Hcol' : model_has cls "version" = true).
  { unfold model_has. by apply bool_decide_eq_true. }
  destruct (delete_soft_success cls now db_now id user expected_version s s' c
              Hver Hcol' Hrow Hdel)
    as (c2 & Hrows & Hia & Hv2 & Hact & Hmap & Hnext & Hheap).
  simpl in Hv2. rewrite Hv in Hv2.
  assert (Hrow2 : rows s' !! id = Some c2) by (rewrite Hrows; apply lookup_insert_eq).
  assert (Hhidden : BaseRepository.active_filter cls false c2 = false)
    by (by apply active_filter_inactive).
  assert (Hcolact : "is_active" ∈ columns cls).
  { unfold model_has in Hact. by apply bool_decide_eq_true in Hact. }
  assert (Htracked : ∀ r, _identity_map s' !! (entity_name cls, id) = Some r →
            ∃ o, heap s' !! r = Some o
                 ∧ getattr o "is_active" = VBool false
                 ∧ getattr o "version" = VInt (v + 1)).
  { intros r Hr. rewrite Hmap in Hr. rewrite Hr in Hheap.
    destruct Hheap as (o & Ho & Hh). destruct (Hobj r o Hr Ho) as [Ha Hvv].
    eexists. split; [rewrite Hh; apply lookup_insert_eq|].
    unfold getattr, dict_get.
    rewrite !update_entity_from_model_attr by (done || discriminate).
    rewrite !model_attr_not_id by discriminate. simpl. by rewrite Hia, Hv2. }
  split; [|split; [|split; [|split]]].
  - apply (get_hidden cls id s' c2 Hrow2 Hhidden).
    intros r Hr. destruct (Htracked r Hr) as (o & Ho & Ha & _). eauto.
  - destruct (_identity_map s' !! (entity_name cls, id)) as [r|] eqn:Hr.
    + destruct (Htracked r eq_refl) as (o & Ho & Ha & Hvv).
      destruct (get_cached_include cls id s' r o Hr Ho) as (s'' & Hget & Hh & _).
      exists r, s'', o. rewrite Hh. done.
    + destruct (get_loads cls id true s' c2 Hr Hrow2 (active_filter_include cls c2))
        as (s'' & Hget & _ & Hh & _).
      eexists _, s'', _. split; [exact Hget|]. split; [rewrite Hh; apply lookup_insert_eq|].
      unfold getattr, dict_get. simpl.
      destruct (Hent (mkModel id c2)) as [-> ->].
      rewrite !model_attr_not_id by discriminate. simpl. by rewrite Hia, Hv2.
  - rewrite Hrows. by apply count_query_excludes.
  - rewrite count_query_all. eauto.
  - unfold BaseRepository.count. unfold_M. eexists _, _.
    split; [reflexivity|]. split; [reflexivity|]. split.
    + rewrite !count_query_all, Hrows. rewrite map_size_insert_Some by eauto. reflexivity.
    + rewrite Hrows. by rewrite <- count_query_size_after_hiding.
Qed.

Lemma Run_to_entity_common (m : Model) :
  RunRepository.Run_to_entity m !! "is_active" = Some (model_attr m "is_active")
  ∧ RunRepository.Run_to_entity m !! "version" = Some (model_attr m "version").
Proof.
  unfold RunRepository.Run_to_entity, _copy_common_attrs, common_attrs,
    RunRepository.RunModel_columns.
  cbn [foldl].
  repeat match goal with
         | |- context [bool_decide (?x ∈ ?l)] =>
             rewrite (bool_decide_eq_true_2 (x ∈ l)) by
               (repeat first [apply list_elem_of_here | apply list_elem_of_further])
         end.
  split.
  - apply lookup_insert_eq.
  - rewrite lookup_insert_ne by discriminate. apply lookup_insert_eq.
Qed.

(** The run of the one-row table, loaded and then soft-deleted. *)
Lemma soft_delete_hides_entity_witness :
  BaseRepository.get RunRepository.class 7 false example_soft_deleted
  = (Ok None, example_soft_deleted)
  ∧ (∃ (r : nat) (s'' : State) (o : object),
       BaseRepository.get RunRepository.class 7 true example_soft_deleted
       = (Ok (Some r), s'')
       ∧ heap s'' !! r = Some o
       ∧ getattr o "is_active" = VBool false
       ∧ getattr o "version" = VInt 2)
  ∧ BaseRepository.count RunRepository.class false [] example_soft_deleted
    = (Ok 0%nat, example_soft_deleted)
  ∧ BaseRepository.count RunRepository.class true [] example_soft_deleted
    = (Ok 1%nat, example_soft_deleted).
Proof.
  assert (Hcol : "version" ∈ columns RunRepository.class).
  { repeat first [apply list_elem_of_here | apply list_elem_of_further]. }
  assert (Hobj : ∀ r o,
            _identity_map example_loaded !! (entity_name RunRepository.class, 7%N) = Some r →
            heap example_loaded !! r = Some o →
            is_Some (__dict__ o !! "is_active") ∧ is_Some (__dict__ o !! "version")).
  { intros r o Hr Ho. vm_compute in Hr. injection Hr as <-.
    vm_compute in Ho. injection Ho as <-. split; eexists; vm_compute; reflexivity. }
  assert (Hdel : BaseRepository.delete RunRepository.class 300 301 7 true (Some "bob")
                   VNone example_loaded
                 = (Ok true, example_soft_deleted)).
  { vm_compute. reflexivity. }
  destruct (soft_delete_hides_entity RunRepository.class 7 example_row 1 300 301
              (Some "bob") VNone example_loaded example_soft_deleted []
              eq_refl Hcol eq_refl eq_refl Hobj Run_to_entity_common Hdel)
    as (Hget & Hget' & _ & _ & _).
  split; [exact Hget|]. split; [exact Hget'|].
  split; vm_compute; reflexivity.
Defined.

(** ** Repository: update of an unchanged entity *)

Lemma changed_data_lookup (cls : RepositoryClass) (e : object) (m : Model)
    (pc : bool) (f : string) :
  BaseRepository._get_changed_data cls e m pc !! f
  = if decide (f ∈ BaseRepository.allowed_fields cls pc
               ∧ getattr e f ≠ dict_get (BaseRepository.model_dict cls pc m) f)
    then Some (getattr e f) else None.
Proof.
  unfold BaseRepository._get_changed_data.
  generalize (BaseRepository.allowed_fields cls pc).
  apply (set_fold_ind_L
           (λ data X, data !! f
                      = if decide (f ∈ X ∧ getattr e f
                                           ≠ dict_get (BaseRepository.model_dict cls pc m) f)
                        then Some (getattr e f) else None)).
  - rewrite lookup_empty. rewrite decide_False; [done|]. intros [H _]. by apply not_elem_of_empty in H.
  - intros x Y data Hx IH. destruct (decide (x = f)) as [->|Hne].
    + rewrite decide_False in IH by (intros [? _]; done).
      case_bool_decide as Hd.
      * rewrite lookup_insert_eq. rewrite decide_True; [done|]. split; [apply elem_of_union; left; by apply elem_of_singleton|done].
      * rewrite IH. rewrite decide_False; [done|]. intros [_ ?]. done.
    + assert (Hiff : f ∈ {[x]} ∪ Y ↔ f ∈ Y).
      { rewrite elem_of_union, elem_of_singleton.
        split; [intros [?|?]; [congruence|done] | intros; by right]. }
      case_bool_decide as Hd.
      * rewrite lookup_insert_ne by done. rewrite IH.
        destruct (decide (f ∈ Y ∧ _)) as [[? ?]|Hn].
        -- rewrite decide_True; [done|]. split; [by apply Hiff|done].
        -- rewrite decide_False; [done|]. intros [? ?]. apply Hn. split; [by apply Hiff|done].
      * rewrite IH.
        destruct (decide (f ∈ Y ∧ _)) as [[? ?]|Hn].
        -- rewrite decide_True; [done|]. split; [by apply Hiff|done].
        -- rewrite decide_False; [done|]. intros [? ?]. apply Hn. split; [by apply Hiff|done].
Qed.

Lemma model_dict_fold (cls : RepositoryClass) (pc : bool) (m : Model) (f : string)
    (l : list string) :
  f ∈ BaseRepository.allowed_fields cls pc →
  ∀ d : gmap string value,
    let res :=
      foldl (λ d key,
               if bool_decide (key ∈ BaseRepository.allowed_fields cls pc)
                  || bool_decide (key ∈ BaseRepository.exclude_fields pc)
               then <[key := model_attr m key]> d else d) d l in
    (f ∈ l ∨ d !! f = Some (model_attr m f)) → res !! f = Some (model_attr m f).
Proof.
  intros Hf. induction l as [|k l IH]; intros d res H.
  - destruct H as [H|H]; [by apply elem_of_nil in H|done].
  - subst res. simpl. apply IH. destruct (decide (k = f)) as [->|Hne].
    + right. rewrite (bool_decide_eq_true_2 _ Hf). simpl. apply lookup_insert_eq.
    + destruct H as [H|H].
      * apply elem_of_cons in H as [->|H]; [done|by left].
      * right. destruct (_ || _); [by rewrite lookup_insert_ne|done].
Qed.

Lemma model_dict_lookup (cls : RepositoryClass) (pc : bool) (m : Model) (f : string) :
  f ∈ BaseRepository.allowed_fields cls pc → f ∈ columns cls →
  dict_get (BaseRepository.model_dict cls pc m) f = model_attr m f.
Proof.
  intros Hf Hc. unfold dict_get, BaseRepository.model_dict.
  rewrite (model_dict_fold cls pc m f (columns cls) Hf ∅); [done|by left].
Qed.

Lemma updated_at_allowed (cls : RepositoryClass) :
  "updated_at" ∈ columns cls →
  "updated_at" ∈ BaseRepository.allowed_fields cls true.
Proof.
  intros Hc.
  assert (Hex : "updated_at" ∉ BaseRepository.exclude_fields true).
  { unfold BaseRepository.exclude_fields.
    rewrite !elem_of_union, !elem_of_singleton. intros [H|[H|H]]; discriminate. }
  unfold BaseRepository.allowed_fields, model_has. cbv zeta.
  repeat case_bool_decide; simpl; try contradiction;
    rewrite ?elem_of_union, !elem_of_singleton; tauto.
Qed.

(** After [touch], the diff holds [updated_at] unless the clock reads
    the stored value. *)
Lemma changed_data_after_touch (cls : RepositoryClass) (o : object) (m : Model)
    (now : datetime) (user : option string) :
  "updated_at" ∈ columns cls →
  model_attr m "updated_at" ≠ VTime now →
  BaseRepository._get_changed_data cls (touch now user o) m true !! "updated_at"
  = Some (VTime now).
Proof.
  intros Hc Hne. rewrite changed_data_lookup.
  assert (Hget : getattr (touch now user o) "updated_at" = VTime now).
  { unfold touch, getattr, dict_get. destruct user as [u|]; [destruct (truthy (VStr u))|];
      simpl; rewrite ?lookup_insert_ne by discriminate; by rewrite lookup_insert_eq. }
  rewrite Hget, model_dict_lookup by (done || by apply updated_at_allowed).
  rewrite decide_True; [done|]. split; [by apply updated_at_allowed|congruence].
Qed.

Lemma written_row_version (c : gmap string value) (v : Z) (b : bool) (db_now : datetime)
    (data : gmap string value) :
  dict_get c "version" = VInt v →
  let values := <["version" := VersionPlusOne]> (Lit <$> data) in
  let c1 := (sql_eval c <$> values) ∪ c in
  dict_get (if b then <["updated_at" := VTime db_now]> c1 else c1) "version"
  = VInt (v + 1).
Proof.
  intros Hv values c1.
  assert (H1 : c1 !! "version" = Some (VInt (v + 1))).
  { subst c1 values. rewrite lookup_union, lookup_fmap, lookup_insert_eq. simpl.
    rewrite Hv. by rewrite union_Some_l. }
  unfold dict_get. destruct b; [rewrite lookup_insert_ne by discriminate|]; by rewrite H1.
Qed.

(** Whatever the caller changed or did not change: when the clock does
    not read exactly the stored [updated_at], [update] on a tracked
    entity whose baseline is the stored version writes the row and
    leaves the stored version one higher. *)
Lemma update_writes_after_touch
    (cls : RepositoryClass) (id : UUID) (s : State) (entity : nat) (o : object)
    (c : gmap string value) (v : Z) (now db_now : datetime) (user : option string) :
  use_versioning cls = true →
  "updated_at" ∈ columns cls →
  _identity_map s !! (entity_name cls, id) = Some entity →
  heap s !! entity = Some o →
  is_domain_entity o = true →
  rows s !! id = Some c →
  dict_get c "version" = VInt v →
  dict_get (_original_versions s) id = VInt v →
  dict_get c "updated_at" ≠ VTime now →
  ∃ (s' : State) (c' : gmap string value),
    BaseRepository.update cls now db_now id entity user s = (Ok entity, s')
    ∧ rows s' !! id = Some c'
    ∧ dict_get c' "version" = VInt (v + 1).
Proof.
  intros Hver Hcol Hmap Ho Hdom Hrow Hv Hexp Hua.
  assert (Hdata : BaseRepository._get_changed_data cls (touch now user o) (mkModel id c) true
                  ≠ ∅).
  { intros Hempty.
    pose proof (changed_data_after_touch cls o (mkModel id c) now user Hcol) as H.
    rewrite model_attr_not_id in H by discriminate. specialize (H Hua).
    rewrite Hempty, lookup_empty in H. discriminate. }
  unfold BaseRepository.update, db_get, deref, store, db_execute_update,
    BaseRepository.record_version, UnitOfWork.get_entity.
  unfold_M. cbv beta. rewrite Hexp, Hver. simpl.
  rewrite Hrow. simpl. rewrite model_attr_not_id by discriminate. simpl.
  rewrite Hv. rewrite bool_decide_eq_false_2 by (intros H; by apply H). simpl.
  rewrite Ho. simpl. rewrite Hdom. simpl. rewrite lookup_insert_eq. simpl.
  rewrite (bool_decide_eq_false_2 _ Hdata). simpl.
  rewrite Hrow. unfold where_matches. rewrite Hv. simpl.
  rewrite bool_decide_eq_true_2 by done. simpl.
  rewrite Hmap. simpl. rewrite lookup_insert_eq. simpl. rewrite lookup_insert_eq. simpl.
  destruct (hasattr _ "version"); simpl;
    eexists _, _; (split; [reflexivity|]); simpl; rewrite lookup_insert_eq;
    (split; [reflexivity|]); by apply written_row_version.
Qed.

(** The early return of [update] is taken when the clock reads exactly
    the stored [updated_at] (and no user is given): nothing is written. *)
Example update_unchanged_same_instant :
  BaseRepository.update RunRepository.class 100 201 7 0%nat None example_loaded
  = (Ok 0%nat, example_loaded).
Proof. vm_compute. reflexivity. Qed.

(** C4: a run is loaded and no field is assigned, so before the call
    the entity differs from the stored row in no updatable field; yet
    [update] -- which calls [touch] before it compares -- finds
    [updated_at] changed, writes the row and bumps the version: the
    stored version and the entity's version go from 1 to 2. *)
Theorem update_unchanged_entity_bumps_version :
  (∃ o, heap example_loaded !! 0%nat = Some o
        ∧ BaseRepository._get_changed_data RunRepository.class o
            (mkModel 7 example_row) true = ∅
        ∧ getattr o "version" = VInt 1)
  ∧ dict_get (_original_versions example_loaded) 7%N = VInt 1
  ∧ example_update_unchanged.1 = Ok 0%nat
  ∧ (∃ c', rows example_update_unchanged.2 !! 7%N = Some c'
           ∧ dict_get c' "version" = VInt 2
           ∧ dict_get c' "updated_at" = VTime 200)
  ∧ (∃ o', heap example_update_unchanged.2 !! 0%nat = Some o'
           ∧ getattr o' "version" = VInt 2).
Proof.
  split; [eexists; split; [vm_compute; reflexivity|]; split; vm_compute; reflexivity|].
  split; [vm_compute; reflexivity|].
  split; [vm_compute; reflexivity|].
  split; eexists; (split; [vm_compute; reflexivity|]); repeat split; vm_compute; reflexivity.
Qed.

(** * Further properties of the code *)

(** ** Status sets and the state machine of the entities *)

(** X1: the finished statuses are exactly the ones that are not active,
    a running status is active, a status with no outgoing transition is
    finished, FAILED is the only finished status that can still change,
    and no status can move to itself. *)
Theorem status_sets_partition (s : ExecutionStatus) :
  is_finished s = negb (is_active s)
  ∧ (is_running s = true → is_active s = true)
  ∧ ((∀ t, can_transition_to s t = false) → is_finished s = true)
  ∧ (is_finished s = true → (∃ t, can_transition_to s t = true) → s = FAILED)
  ∧ can_transition_to s s = false.
Proof.
  repeat split.
  - by destruct s.
  - by destruct s.
  - intros H. destruct s; try reflexivity.
    + specialize (H PROCESSING). vm_compute in H. discriminate.
    + specialize (H COMPLETED). vm_compute in H. discriminate.
    + specialize (H PROCESSING). vm_compute in H. discriminate.
  - intros Hf [t Ht]. destruct s; try reflexivity; try (vm_compute in Hf; discriminate);
      destruct t; vm_compute in Ht; discriminate.
  - by destruct s.
Qed.

(** X2: each of [Run.start], [complete], [fail] and [cancel] either
    returns, and then the move it made is one the transition table
    allows, the version went up by exactly 1 and the identifier, the
    automation, the correlation id and the soft-delete flag are as
    before; or raises [InvalidStateError] for this run and leaves the
    run exactly as it was. *)
Theorem Run_apply_conforms (c : Run_call) (self : Run.t) :
  match Run_apply c self with
  | Return self' =>
      can_transition_to (Run.status self) (Run.status self') = true
      ∧ Run.version self' = Run.version self + 1
      ∧ Run.id self' = Run.id self
      ∧ Run.automation_id self' = Run.automation_id self
      ∧ Run.correlation_id self' = Run.correlation_id self
      ∧ DomainEntity.is_active (Run.base self') = DomainEntity.is_active (Run.base self)
  | Raise e self' =>
      self' = self
      ∧ ∃ operation,
          e = InvalidStateError "Run" (Run.id self) (Enums.value (Run.status self)) operation
  end.
Proof.
  destruct c; simpl;
    [unfold Run.start | unfold Run.complete | unfold Run.fail | unfold Run.cancel];
    match goal with |- context [negb ?b] => destruct b eqn:Hb end; simpl;
    try (split; [reflexivity | eexists; reflexivity]);
    repeat split; exact Hb.
Qed.

Lemma Run_apply_finished (c : Run_call) (self : Run.t) :
  is_finished (Run.status self) = true →
  Run_apply c self
  = Raise (InvalidStateError "Run" (Run.id self) (Enums.value (Run.status self))
             match c with
             | Run_start _ => "start"
             | Run_complete _ => "complete"
             | Run_fail _ _ => "fail"
             | Run_cancel _ _ => "cancel"
             end) self.
Proof.
  intros H. destruct self as [b a co cr es st sa fa]; simpl in *.
  destruct st; try discriminate; destruct c; reflexivity.
Qed.

(** X3: a run whose status is finished (COMPLETED, FAILED, CANCELLED or
    SKIPPED) is frozen: every further call of [start], [complete],
    [fail] or [cancel] raises, so no sequence of calls changes the run
    in any field.  This holds for FAILED too, although the transition
    table lets a FAILED status go back to PENDING or RETRYING. *)
Theorem Run_finished_is_frozen (self : Run.t) (cs : list Run_call) :
  is_finished (Run.status self) = true →
  Run_calls cs self = self
  ∧ Run_returned cs self = [].
Proof.
  intros H. unfold Run_calls. induction cs as [|c cs IH]; simpl; [done|].
  rewrite (Run_apply_finished c self H). simpl. exact IH.
Qed.

Lemma Run_finished_is_frozen_witness :
  Run_calls [Run_start (λ k, Z.of_nat k); Run_cancel "late" (λ k, Z.of_nat k)]
    (state_of (Run.cancel "stop" (λ k, Z.of_nat k) example_run))
  = state_of (Run.cancel "stop" (λ k, Z.of_nat k) example_run)
  ∧ Run_returned [Run_start (λ k, Z.of_nat k); Run_cancel "late" (λ k, Z.of_nat k)]
      (state_of (Run.cancel "stop" (λ k, Z.of_nat k) example_run))
    = [].
Proof.
  apply (Run_finished_is_frozen
           (state_of (Run.cancel "stop" (λ k, Z.of_nat k) example_run))).
  reflexivity.
Defined.




(** X5: each of [BatchExecution.start], [complete] and [fail] either
    returns, having made a move the transition table allows to the
    status of its name, with the version up by 1, and only [fail]
    registers an event ([BatchExecutionFailed], carrying the finish
    time); or raises [InvalidStateError] and leaves the batch execution
    as it was. *)
Theorem BatchExecution_apply_conforms (c : BatchExecution_call) (self : BatchExecution.t) :
  match BatchExecution_apply c self with
  | Return self' =>
      can_transition_to (BatchExecution.status self) (BatchExecution.status self') = true
      ∧ BatchExecution.status self'
        = match c with
          | Batch_start _ => PROCESSING
          | Batch_complete _ => COMPLETED
          | Batch_fail _ => FAILED
          end
      ∧ BatchExecution.version self' = BatchExecution.version self + 1
      ∧ BatchExecution.id self' = BatchExecution.id self
      ∧ BatchExecution._events self'
        = BatchExecution._events self
          ++ match c with
             | Batch_fail now =>
                 [BatchExecutionFailed (BatchExecution.id self) (BatchExecution.run_id self)
                    (BatchExecution.batch_id self) (now 0%nat) (now 2%nat)]
             | _ => []
             end
  | Raise e self' =>
      self' = self
      ∧ ∃ operation,
          e = InvalidStateError "BatchExecution" (BatchExecution.id self)
                (Enums.value (BatchExecution.status self)) operation
  end.
Proof.
  destruct c; simpl;
    [unfold BatchExecution.start | unfold BatchExecution.complete
     | unfold BatchExecution.fail];
    match goal with |- context [negb ?b] => destruct b eqn:Hb end; simpl;
    try (split; [reflexivity | eexists; reflexivity]);
    unfold BatchExecution._events; simpl; rewrite ?app_nil_r; repeat split; exact Hb.
Qed.

(** X6: the methods of [OrchestrationInstance] test the status directly
    instead of asking the transition table, yet every call that returns
    has made a move the table allows; [start] returns exactly from
    PENDING (a RETRYING instance cannot be started, although the table
    has RETRYING to PROCESSING) and [complete] and [fail] exactly from
    PROCESSING; a call that raises changes nothing. *)
Theorem Orchestration_apply_conforms (whole_seconds : datetime → datetime → Z)
    (c : Orchestration_call) (self : OrchestrationInstance.t) :
  match Orchestration_apply whole_seconds c self with
  | Return self' =>
      can_transition_to (OrchestrationInstance.status self)
        (OrchestrationInstance.status self') = true
      ∧ OrchestrationInstance.status self
        = match c with Orchestration_start _ => PENDING | _ => PROCESSING end
      ∧ OrchestrationInstance.version self' = OrchestrationInstance.version self + 1
      ∧ OrchestrationInstance.id self' = OrchestrationInstance.id self
  | Raise e self' =>
      self' = self
      ∧ OrchestrationInstance.status self
        ≠ match c with Orchestration_start _ => PENDING | _ => PROCESSING end
      ∧ ∃ operation,
          e = InvalidStateError "OrchestrationInstance" (OrchestrationInstance.id self)
                (Enums.value (OrchestrationInstance.status self)) operation
  end.
Proof.
  destruct c; simpl;
    [unfold OrchestrationInstance.start | unfold OrchestrationInstance.complete
     | unfold OrchestrationInstance.fail];
    case_bool_decide as Hb; simpl;
    try (split; [reflexivity | split; [exact Hb | eexists; reflexivity]]);
    rewrite Hb; repeat split.
Qed.

(** ** Item executions and their attempts *)

(** X7: a call of [ItemExecution.start], [complete] or [fail] that
    returns has made a move the transition table allows, raised the
    version by 1, raised [attempt_count] by 1 when it is [start] and
    left it alone otherwise, and registered one event when it is [fail]
    and none otherwise; a call that raises leaves status, version,
    events, attempts, times and payload as they were, and only
    [fail] has by then replaced the error message. *)
Theorem Item_apply_conforms (c : Item_call) (self : ItemExecution.t) :
  match Item_apply c self with
  | Return self' =>
      can_transition_to (ItemExecution.status self) (ItemExecution.status self') = true
      ∧ ItemExecution.version self' = ItemExecution.version self + 1
      ∧ ItemExecution.id self' = ItemExecution.id self
      ∧ ItemExecution.max_attempts self' = ItemExecution.max_attempts self
      ∧ ItemExecution.attempt_count self'
        = ItemExecution.attempt_count self
          + match c with Item_start _ => 1 | _ => 0 end
      ∧ length (ItemExecution._events self')
        = (length (ItemExecution._events self)
           + match c with Item_fail _ _ => 1 | _ => 0 end)%nat
  | Raise e self' =>
      ItemExecution.status self' = ItemExecution.status self
      ∧ ItemExecution.base self' = ItemExecution.base self
      ∧ ItemExecution.attempt_count self' = ItemExecution.attempt_count self
      ∧ ItemExecution.max_attempts self' = ItemExecution.max_attempts self
      ∧ ItemExecution.started_at self' = ItemExecution.started_at self
      ∧ ItemExecution.finished_at self' = ItemExecution.finished_at self
      ∧ ItemExecution.result_payload self' = ItemExecution.result_payload self
      ∧ ItemExecution.error_message self'
        = match c with
          | Item_fail msg _ => Some msg
          | _ => ItemExecution.error_message self
          end
  end.
Proof.
  destruct c; simpl.
  - unfold ItemExecution.start.
    destruct (ItemExecution.attempts_exhausted self); [done|].
    destruct (can_transition_to _ _) eqn:Hb; simpl; [|done].
    unfold ItemExecution._events, ItemExecution.version; simpl.
    repeat split; try lia. exact Hb.
  - unfold ItemExecution.complete.
    destruct (can_transition_to _ _) eqn:Hb; simpl; [|done].
    unfold ItemExecution._events, ItemExecution.version; simpl.
    repeat split; try lia. exact Hb.
  - unfold ItemExecution.fail.
    destruct (can_transition_to _ _) eqn:Hb; simpl; [|done].
    unfold ItemExecution._events, ItemExecution.version; simpl.
    rewrite length_app. simpl.
    repeat split; try lia. exact Hb.
Qed.

Lemma Item_apply_bounded (c : Item_call) (self : ItemExecution.t) (m : Z) :
  ItemExecution.max_attempts self = Some m →
  (ItemExecution.attempt_count self ≤ m)%Z →
  let self' := state_of (Item_apply c self) in
  ItemExecution.max_attempts self' = Some m
  ∧ (ItemExecution.attempt_count self ≤ ItemExecution.attempt_count self' ≤ m)%Z.
Proof.
  intros Hm Hle. destruct c; simpl.
  - unfold ItemExecution.start, ItemExecution.attempts_exhausted. rewrite Hm.
    case_bool_decide; simpl; [split; [done|lia]|].
    destruct (can_transition_to _ _); simpl; (split; [done|lia]).
  - unfold ItemExecution.complete.
    destruct (can_transition_to _ _); simpl; (split; [done|lia]).
  - unfold ItemExecution.fail.
    destruct (can_transition_to _ _); simpl; (split; [done|lia]).
Qed.

(** X8: an item execution with a limit [max_attempts = m] that has made
    at most [m] attempts never makes more: after any sequence of
    [start], [complete] and [fail] calls (raising or not) the limit is
    unchanged and [attempt_count] has not decreased and is at most
    [m]. *)
Theorem Item_attempts_bounded (cs : list Item_call) (self : ItemExecution.t) (m : Z) :
  ItemExecution.max_attempts self = Some m →
  (ItemExecution.attempt_count self ≤ m)%Z →
  ItemExecution.max_attempts (Item_calls cs self) = Some m
  ∧ (ItemExecution.attempt_count self
     ≤ ItemExecution.attempt_count (Item_calls cs self) ≤ m)%Z.
Proof.
  unfold Item_calls. revert self.
  induction cs as [|c cs IH]; intros self Hm Hle; simpl.
  - split; [done|lia].
  - destruct (Item_apply_bounded c self m Hm Hle) as [Hm' Hle'].
    destruct (IH _ Hm' (proj2 Hle')) as [? ?]. split; [done|lia].
Qed.

Lemma Item_attempts_bounded_witness :
  ItemExecution.max_attempts
    (Item_calls (failed_attempts 5 "boom" (λ k, Z.of_nat k)) (example_item PENDING 0 (Some 3)))
  = Some 3
  ∧ (0 ≤ ItemExecution.attempt_count
            (Item_calls (failed_attempts 5 "boom" (λ k, Z.of_nat k))
               (example_item PENDING 0 (Some 3))) ≤ 3)%Z.
Proof.
  apply (Item_attempts_bounded (failed_attempts 5 "boom" (λ k, Z.of_nat k))
           (example_item PENDING 0 (Some 3)) 3); [reflexivity | simpl; lia].
Defined.

Lemma Item_apply_frozen (c : Item_call) (self : ItemExecution.t) :
  (is_finished (ItemExecution.status self) = true
   ∧ (ItemExecution.status self = FAILED → ItemExecution.can_retry self = false))
  ∨ (ItemExecution.status self = PENDING ∧ ItemExecution.attempts_exhausted self = true) →
  let self' := state_of (Item_apply c self) in
  raised (Item_apply c self) ≠ None
  ∧ ItemExecution.status self' = ItemExecution.status self
  ∧ ItemExecution.base self' = ItemExecution.base self
  ∧ ItemExecution.attempt_count self' = ItemExecution.attempt_count self
  ∧ ItemExecution.max_attempts self' = ItemExecution.max_attempts self
  ∧ ItemExecution.started_at self' = ItemExecution.started_at self
  ∧ ItemExecution.finished_at self' = ItemExecution.finished_at self
  ∧ ItemExecution.result_payload self' = ItemExecution.result_payload self.
Proof.
  intros H.
  destruct self as [b ri bi ii rp em st sa fa ac ma].
  destruct c; simpl.
  - unfold ItemExecution.start. simpl in *.
    destruct (ItemExecution.attempts_exhausted _) eqn:Hex; simpl; [done|].
    destruct H as [[Hf _]|[_ Hx]]; [|congruence]. simpl in Hf.
    destruct st; try discriminate; simpl; done.
  - unfold ItemExecution.complete. simpl in *.
    destruct H as [[Hf _]|[-> _]]; [|simpl; done]. simpl in Hf.
    destruct st; try discriminate; simpl; done.
  - unfold ItemExecution.fail, ItemExecution.target_status, ItemExecution.set_error_message.
    simpl in *.
    destruct H as [[Hf Hcr]|[-> Hx]].
    + destruct st; try discriminate;
        try (destruct (ItemExecution.can_retry _); simpl; done).
      unfold ItemExecution.can_retry in *. simpl in *. rewrite (Hcr eq_refl). simpl. done.
    + assert (Hcr : ItemExecution.can_retry
                      (ItemExecution.mk b ri bi ii rp (Some msg) PENDING sa fa ac ma) = false).
      { unfold ItemExecution.can_retry, ItemExecution.attempts_exhausted in *. simpl in *.
        destruct ma; [|done]. case_bool_decide; [|done]. apply bool_decide_eq_false. lia. }
      rewrite Hcr. simpl. done.
Qed.

Lemma Item_calls_dead (cs : list Item_call) (self : ItemExecution.t) :
  (is_finished (ItemExecution.status self) = true
   ∧ (ItemExecution.status self = FAILED → ItemExecution.can_retry self = false))
  ∨ (ItemExecution.status self = PENDING ∧ ItemExecution.attempts_exhausted self = true) →
  let self' := Item_calls cs self in
  ItemExecution.status self' = ItemExecution.status self
  ∧ ItemExecution.base self' = ItemExecution.base self
  ∧ ItemExecution.attempt_count self' = ItemExecution.attempt_count self
  ∧ ItemExecution.started_at self' = ItemExecution.started_at self
  ∧ ItemExecution.finished_at self' = ItemExecution.finished_at self
  ∧ ItemExecution.result_payload self' = ItemExecution.result_payload self.
Proof.
  unfold Item_calls. revert self.
  induction cs as [|c cs IH]; intros self H; simpl; [done|].
  destruct (Item_apply_frozen c self H) as (_ & Hs & Hb & Ha & Hm & Hsa & Hf & Hr).
  assert (H' : (is_finished (ItemExecution.status (state_of (Item_apply c self))) = true
                ∧ (ItemExecution.status (state_of (Item_apply c self)) = FAILED
                   → ItemExecution.can_retry (state_of (Item_apply c self)) = false))
               ∨ (ItemExecution.status (state_of (Item_apply c self)) = PENDING
                  ∧ ItemExecution.attempts_exhausted (state_of (Item_apply c self)) = true)).
  { unfold ItemExecution.can_retry, ItemExecution.attempts_exhausted in *.
    rewrite Hs, Hm, Ha. exact H. }
  destruct (IH _ H') as (-> & -> & -> & -> & -> & ->). done.
Qed.

(** X9: an item execution that is COMPLETED, CANCELLED or SKIPPED, or
    FAILED with no attempt left, is at a dead end: every further
    [start], [complete] or [fail] raises, and after any sequence of
    such calls its status, version, events, attempts, times and payload
    are what they were (only [error_message] may have been replaced by
    a rejected [fail]). *)
Theorem Item_finished_is_frozen (cs : list Item_call) (self : ItemExecution.t) :
  is_finished (ItemExecution.status self) = true →
  (ItemExecution.status self = FAILED → ItemExecution.can_retry self = false) →
  ItemExecution.status (Item_calls cs self) = ItemExecution.status self
  ∧ ItemExecution.base (Item_calls cs self) = ItemExecution.base self
  ∧ ItemExecution.attempt_count (Item_calls cs self) = ItemExecution.attempt_count self
  ∧ ItemExecution.started_at (Item_calls cs self) = ItemExecution.started_at self
  ∧ ItemExecution.finished_at (Item_calls cs self) = ItemExecution.finished_at self
  ∧ ItemExecution.result_payload (Item_calls cs self) = ItemExecution.result_payload self.
Proof.
  intros Hf Hcr. apply (Item_calls_dead cs self). left. by split.
Qed.

Lemma Item_finished_is_frozen_witness :
  ItemExecution.status
    (Item_calls [Item_start (λ k, Z.of_nat k); Item_fail "x" (λ k, Z.of_nat k)]
       (example_item FAILED 3 (Some 3)))
  = FAILED
  ∧ ItemExecution.attempt_count
      (Item_calls [Item_start (λ k, Z.of_nat k); Item_fail "x" (λ k, Z.of_nat k)]
         (example_item FAILED 3 (Some 3)))
    = 3.
Proof.
  destruct (Item_finished_is_frozen
              [Item_start (λ k, Z.of_nat k); Item_fail "x" (λ k, Z.of_nat k)]
              (example_item FAILED 3 (Some 3)) eq_refl (λ _, eq_refl))
    as (Hs & _ & Ha & _).
  split; [exact Hs | exact Ha].
Defined.

(** X10: [max_attempts = 0] passes the validation of [__post_init__]
    (only a negative limit is rejected), but such an item execution,
    created PENDING, can never be started: [start], [complete] and
    [fail] all raise, so after any sequence of calls it is still
    PENDING with its version, events and attempts untouched. *)
Theorem Item_zero_attempts_never_starts (cs : list Item_call) (self : ItemExecution.t) :
  ItemExecution.max_attempts self = Some 0 →
  (0 ≤ ItemExecution.attempt_count self)%Z →
  ItemExecution.status self = PENDING →
  ItemExecution.__post_init__ self = None
  ∧ (∀ c, raised (Item_apply c self) ≠ None)
  ∧ ItemExecution.status (Item_calls cs self) = PENDING
  ∧ ItemExecution.base (Item_calls cs self) = ItemExecution.base self
  ∧ ItemExecution.attempt_count (Item_calls cs self) = ItemExecution.attempt_count self
  ∧ ItemExecution.started_at (Item_calls cs self) = ItemExecution.started_at self.
Proof.
  intros Hm Ha Hs.
  assert (Hdead : (is_finished (ItemExecution.status self) = true
                   ∧ (ItemExecution.status self = FAILED
                      → ItemExecution.can_retry self = false))
                  ∨ (ItemExecution.status self = PENDING
                     ∧ ItemExecution.attempts_exhausted self = true)).
  { right. split; [exact Hs|]. unfold ItemExecution.attempts_exhausted. rewrite Hm.
    by apply bool_decide_eq_true_2. }
  split. { unfold ItemExecution.__post_init__. by rewrite Hm. }
  split. { intros c. by destruct (Item_apply_frozen c self Hdead) as [H _]. }
  destruct (Item_calls_dead cs self Hdead) as (H1 & H2 & H3 & H4 & _).
  rewrite H1, H2, H3, H4. done.
Qed.

Lemma Item_zero_attempts_never_starts_witness :
  ItemExecution.__post_init__ (example_item PENDING 0 (Some 0)) = None
  ∧ ItemExecution.status
      (Item_calls [Item_start (λ k, Z.of_nat k); Item_fail "x" (λ k, Z.of_nat k)]
         (example_item PENDING 0 (Some 0)))
    = PENDING.
Proof.
  destruct (Item_zero_attempts_never_starts
              [Item_start (λ k, Z.of_nat k); Item_fail "x" (λ k, Z.of_nat k)]
              (example_item PENDING 0 (Some 0)) eq_refl ltac:(simpl; lia) eq_refl)
    as (Hp & _ & Hs & _).
  split; [exact Hp | exact Hs].
Defined.

Lemma failed_attempt_step (msg : string) (now : nat → datetime) (self : ItemExecution.t)
    (M : Z) :
  ItemExecution.status self = PENDING ∨ ItemExecution.status self = RETRYING →
  ItemExecution.max_attempts self = Some M →
  ItemExecution.attempt_count self < M →
  let r := Item_calls (failed_attempt msg now) self in
  ItemExecution.status r
  = (if bool_decide (ItemExecution.attempt_count self + 1 < M) then RETRYING else FAILED)
  ∧ ItemExecution.max_attempts r = Some M
  ∧ ItemExecution.attempt_count r = ItemExecution.attempt_count self + 1
  ∧ ItemExecution.version r = ItemExecution.version self + 2
  ∧ ItemExecution._events r
    = ItemExecution._events self
      ++ [ItemExecutionFailed (ItemExecution.id self) (ItemExecution.run_id self)
            (ItemExecution.item_id self) msg (ItemExecution.attempt_count self + 1)
            (now 2%nat)]
  ∧ ItemExecution.finished_at r
    = (if bool_decide (ItemExecution.attempt_count self + 1 < M)
       then ItemExecution.finished_at self else Some (now 0%nat)).
Proof.
  intros Hst Hm Hlt.
  destruct self as [b ri bi ii rp em st sa fa ac ma]. simpl in *. subst ma.
  unfold Item_calls, failed_attempt. simpl.
  unfold ItemExecution.start, ItemExecution.attempts_exhausted. simpl.
  rewrite bool_decide_eq_false_2 by lia.
  assert (Hp : can_transition_to st PROCESSING = true) by (destruct Hst as [->| ->]; done).
  rewrite Hp. simpl.
  unfold ItemExecution.fail, ItemExecution.target_status, ItemExecution.can_retry. simpl.
  case_bool_decide; simpl;
    unfold ItemExecution.version, ItemExecution._events, ItemExecution.id; simpl;
    repeat split; lia.
Qed.

Lemma Item_calls_app (l1 l2 : list Item_call) (self : ItemExecution.t) :
  Item_calls (l1 ++ l2) self = Item_calls l2 (Item_calls l1 self).
Proof. unfold Item_calls. apply foldl_app. Qed.

Lemma failed_attempts_S (k : nat) (msg : string) (now : nat → datetime) :
  failed_attempts (S k) msg now = failed_attempt msg now ++ failed_attempts k msg now.
Proof. reflexivity. Qed.

Lemma failed_attempts_spec (msg : string) (now : nat → datetime) (M : Z) (k : nat) :
  ∀ self : ItemExecution.t,
    ItemExecution.status self = PENDING ∨ ItemExecution.status self = RETRYING →
    ItemExecution.max_attempts self = Some M →
    (0 < k)%nat →
    (ItemExecution.attempt_count self + Z.of_nat k ≤ M)%Z →
    let r := Item_calls (failed_attempts k msg now) self in
    ItemExecution.status r
    = (if bool_decide (ItemExecution.attempt_count self + Z.of_nat k < M)
       then RETRYING else FAILED)
    ∧ ItemExecution.max_attempts r = Some M
    ∧ ItemExecution.attempt_count r = ItemExecution.attempt_count self + Z.of_nat k
    ∧ ItemExecution.version r = ItemExecution.version self + 2 * Z.of_nat k
    ∧ length (ItemExecution._events r) = (length (ItemExecution._events self) + k)%nat
    ∧ (ItemExecution.attempt_count self + Z.of_nat k < M →
       ItemExecution.finished_at r = ItemExecution.finished_at self)
    ∧ (ItemExecution.attempt_count self + Z.of_nat k = M →
       ItemExecution.finished_at r = Some (now 0%nat)).
Proof.
  induction k as [|k IH]; intros self Hst Hm Hk Hle; [lia|].
  rewrite failed_attempts_S, Item_calls_app. cbv zeta.
  set (r1 := Item_calls (failed_attempt msg now) self).
  destruct (failed_attempt_step msg now self M Hst Hm ltac:(lia))
    as (Hs1 & Hm1 & Ha1 & Hv1 & He1 & Hf1).
  fold r1 in Hs1, Hm1, Ha1, Hv1, He1, Hf1.
  destruct k as [|k'].
  - unfold failed_attempts, Item_calls. simpl.
    rewrite Hs1, Hm1, Ha1, Hv1, He1, Hf1, length_app. simpl.
    repeat split; try lia.
    + intros H. by rewrite bool_decide_eq_true_2.
    + intros H. rewrite bool_decide_eq_false_2; [done|lia].
  - assert (Hlt1 : ItemExecution.attempt_count self + 1 < M) by lia.
    rewrite bool_decide_eq_true_2 in Hs1, Hf1 by done.
    destruct (IH r1 (or_intror Hs1) Hm1 ltac:(lia) ltac:(lia))
      as (Hs & Hm' & Ha & Hv & He & Hf & Hf').
    rewrite Hs, Hm', Ha, Hv, He, Ha1, Hv1, He1, length_app. simpl length.
    replace (ItemExecution.attempt_count self + 1 + Z.of_nat (S k'))
      with (ItemExecution.attempt_count self + Z.of_nat (S (S k'))) in * by lia.
    split; [done|]. split; [done|]. split; [done|]. split; [lia|]. split; [lia|].
    split.
    + intros H. rewrite Hf, Hf1; [done|]. rewrite Ha1. lia.
    + intros H. apply Hf'. rewrite Ha1. lia.
Qed.

(** X11: the retry cycle.  A PENDING item execution with no attempt
    made and [max_attempts = m > 0] that fails every time is RETRYING
    after each of its first [m - 1] rounds of [start()] then
    [fail(msg)], with [attempt_count] equal to the number of rounds and
    no finish time set; the [m]-th round leaves it FAILED with
    [attempt_count = m] and a finish time, the version up by [2 m] and
    [m] events registered; and every round tried after that is
    rejected: the item stays FAILED with [m] attempts. *)
Theorem Item_retry_cycle (m : nat) (msg : string) (now : nat → datetime)
    (self : ItemExecution.t) :
  ItemExecution.status self = PENDING →
  ItemExecution.attempt_count self = 0 →
  ItemExecution.max_attempts self = Some (Z.of_nat m) →
  (0 < m)%nat →
  (∀ k : nat, (0 < k < m)%nat →
     ItemExecution.status (Item_calls (failed_attempts k msg now) self) = RETRYING
     ∧ ItemExecution.attempt_count (Item_calls (failed_attempts k msg now) self)
       = Z.of_nat k
     ∧ ItemExecution.finished_at (Item_calls (failed_attempts k msg now) self)
       = ItemExecution.finished_at self)
  ∧ ItemExecution.status (Item_calls (failed_attempts m msg now) self) = FAILED
  ∧ ItemExecution.attempt_count (Item_calls (failed_attempts m msg now) self) = Z.of_nat m
  ∧ ItemExecution.finished_at (Item_calls (failed_attempts m msg now) self)
    = Some (now 0%nat)
  ∧ ItemExecution.version (Item_calls (failed_attempts m msg now) self)
    = ItemExecution.version self + 2 * Z.of_nat m
  ∧ length (ItemExecution._events (Item_calls (failed_attempts m msg now) self))
    = (length (ItemExecution._events self) + m)%nat
  ∧ ∀ k : nat, (m ≤ k)%nat →
      ItemExecution.status (Item_calls (failed_attempts k msg now) self) = FAILED
      ∧ ItemExecution.attempt_count (Item_calls (failed_attempts k msg now) self)
        = Z.of_nat m.
Proof.
  intros Hst Ha Hm Hpos.
  split.
  { intros k Hk.
    destruct (failed_attempts_spec msg now (Z.of_nat m) k self (or_introl Hst) Hm
                ltac:(lia) ltac:(lia)) as (Hs & _ & Hc & _ & _ & Hf & _).
    rewrite Hs, Hc, Ha. rewrite bool_decide_eq_true_2 by lia.
    split; [done|]. split; [lia|]. apply Hf. lia. }
  destruct (failed_attempts_spec msg now (Z.of_nat m) m self (or_introl Hst) Hm
              ltac:(lia) ltac:(lia)) as (Hs & Hm' & Hc & Hv & He & _ & Hf).
  rewrite bool_decide_eq_false_2 in Hs by lia.
  rewrite Hs, Hc, Hv, He, Ha.
  split; [done|]. split; [lia|]. split; [apply Hf; lia|]. split; [done|]. split; [done|].
  intros k Hk.
  replace k with (m + (k - m))%nat by lia.
  unfold failed_attempts. rewrite replicate_add, concat_app, Item_calls_app.
  fold (failed_attempts m msg now). fold (failed_attempts (k - m) msg now).
  destruct (Item_calls_dead (failed_attempts (k - m) msg now)
              (Item_calls (failed_attempts m msg now) self)) as (Hs2 & _ & Hc2 & _).
  { left. rewrite Hs. split; [done|]. intros _.
    unfold ItemExecution.can_retry. rewrite Hm'. apply bool_decide_eq_false. lia. }
  rewrite Hs2, Hc2, Hs, Hc. split; [done|lia].
Qed.

Lemma Item_retry_cycle_witness :
  ItemExecution.status
    (Item_calls (failed_attempts 2 "boom" (λ k, Z.of_nat k)) (example_item PENDING 0 (Some 3)))
  = RETRYING
  ∧ ItemExecution.status
      (Item_calls (failed_attempts 3 "boom" (λ k, Z.of_nat k))
         (example_item PENDING 0 (Some 3)))
    = FAILED
  ∧ ItemExecution.attempt_count
      (Item_calls (failed_attempts 3 "boom" (λ k, Z.of_nat k))
         (example_item PENDING 0 (Some 3)))
    = 3.
Proof.
  destruct (Item_retry_cycle 3 "boom" (λ k, Z.of_nat k) (example_item PENDING 0 (Some 3))
              eq_refl eq_refl eq_refl ltac:(lia)) as (Hk & Hs & Ha & _).
  destruct (Hk 2%nat ltac:(lia)) as (Hr & _).
  split; [exact Hr|]. split; [exact Hs | exact Ha].
Defined.

(** ** Events of an entity *)

Lemma register_events_spec (evs : list DomainEvent) :
  ∀ e, register_events evs e
       = DomainEntity.mk (DomainEntity.id e) (DomainEntity.created_at e)
           (DomainEntity.updated_at e) (DomainEntity.created_by e)
           (DomainEntity.updated_by e) (DomainEntity.version e)
           (DomainEntity.is_active e) (DomainEntity._events e ++ evs).
Proof.
  unfold register_events.
  induction evs as [|ev evs IH]; intros e; simpl.
  - rewrite app_nil_r. by destruct e.
  - rewrite IH. simpl. by rewrite <- app_assoc.
Qed.

(** X12: [pop_events] gives back the events of the entity in the order
    [register_event] received them, after those already pending, and
    empties the buffer: a second [pop_events] returns the empty list
    and changes nothing; registering and popping events touches neither
    the version nor the identifier. *)
Theorem pop_events_returns_registered (evs : list DomainEvent) (e : DomainEntity.t) :
  let popped := DomainEntity.pop_events (register_events evs e) in
  popped.1 = DomainEntity._events e ++ evs
  ∧ DomainEntity.pop_events popped.2 = ([], popped.2)
  ∧ register_events evs popped.2 = register_events evs (DomainEntity.pop_events e).2
  ∧ DomainEntity.version popped.2 = DomainEntity.version e
  ∧ DomainEntity.id popped.2 = DomainEntity.id e.
Proof.
  simpl. rewrite !register_events_spec. simpl. repeat split.
Qed.

(** ** The identity map *)

Lemma identity_lookup_insert_eq (k : string * UUID) (r : nat)
    (m : gmap string (gmap UUID nat)) :
  <[k := r]> m !! k = Some r.
Proof.
  unfold lookup, identity_lookup, identity_get, insert, identity_insert, identity_set.
  rewrite lookup_insert_eq. simpl. apply lookup_insert_eq.
Qed.

Lemma identity_lookup_insert_ne (k k' : string * UUID) (r : nat)
    (m : gmap string (gmap UUID nat)) :
  k ≠ k' → <[k := r]> m !! k' = m !! k'.
Proof.
  intros Hne.
  unfold lookup, identity_lookup, identity_get, insert, identity_insert, identity_set.
  destruct k as [c i], k' as [c' i']. simpl.
  destruct (decide (c = c')) as [->|Hc].
  - rewrite lookup_insert_eq. simpl. apply lookup_insert_ne. congruence.
  - by rewrite lookup_insert_ne.
Qed.

Lemma identity_lookup_delete_eq (k : string * UUID) (m : gmap string (gmap UUID nat)) :
  delete k m !! k = None.
Proof.
  unfold lookup, identity_lookup, identity_get, delete, identity_delete, identity_pop.
  destruct (m !! k.1) as [d|] eqn:E.
  - rewrite lookup_insert_eq. simpl. apply lookup_delete_eq.
  - by rewrite E.
Qed.

Lemma identity_lookup_delete_ne (k k' : string * UUID) (m : gmap string (gmap UUID nat)) :
  k ≠ k' → delete k m !! k' = m !! k'.
Proof.
  intros Hne.
  unfold lookup, identity_lookup, identity_get, delete, identity_delete, identity_pop.
  destruct k as [c i], k' as [c' i']. simpl.
  destruct (m !! c) as [d|] eqn:E; [|done].
  destruct (decide (c = c')) as [<-|Hc].
  - rewrite lookup_insert_eq, E. simpl. apply lookup_delete_ne. congruence.
  - by rewrite lookup_insert_ne.
Qed.

Lemma identity_lookup_empty (k : string * UUID) :
  (∅ : gmap string (gmap UUID nat)) !! k = None.
Proof. reflexivity. Qed.

(** ** Repository: reading *)

Lemma get_miss (cls : RepositoryClass) (id : UUID) (include_soft_deleted : bool)
    (s : State) :
  _identity_map s !! (entity_name cls, id) = None →
  rows s !! id = None →
  BaseRepository.get cls id include_soft_deleted s = (Ok None, s).
Proof.
  intros Hmap Hrow.
  unfold BaseRepository.get, UnitOfWork.get_entity. unfold_M. simpl.
  rewrite Hmap. simpl. by rewrite Hrow.
Qed.

(** X13: for an identifier the scope has not loaded and the table does
    not hold, [get] returns [None], [get_or_raise] raises
    [EntityNotFoundError] naming the model and the identifier, and
    [exists] answers [False]; none of them changes anything. *)
Theorem get_missing_returns_None (cls : RepositoryClass) (id : UUID)
    (include_soft_deleted : bool) (s : State) :
  _identity_map s !! (entity_name cls, id) = None →
  rows s !! id = None →
  BaseRepository.get cls id include_soft_deleted s = (Ok None, s)
  ∧ BaseRepository.get_or_raise cls id include_soft_deleted s
    = (Err (EntityNotFoundError (model_name cls) id), s)
  ∧ BaseRepository.exists_ cls id include_soft_deleted s = (Ok false, s).
Proof.
  intros Hmap Hrow.
  pose proof (get_miss cls id include_soft_deleted s Hmap Hrow) as Hget.
  split; [exact Hget|]. split.
  - unfold BaseRepository.get_or_raise. unfold_M. by rewrite Hget.
  - unfold BaseRepository.exists_. unfold_M. by rewrite Hrow.
Qed.

Lemma get_missing_returns_None_witness :
  BaseRepository.get RunRepository.class 9 false example_table_scope
  = (Ok None, example_table_scope)
  ∧ BaseRepository.get_or_raise RunRepository.class 9 false example_table_scope
    = (Err (EntityNotFoundError "RunModel" 9), example_table_scope)
  ∧ BaseRepository.exists_ RunRepository.class 9 false example_table_scope
    = (Ok false, example_table_scope).
Proof.
  apply (get_missing_returns_None RunRepository.class 9 false example_table_scope);
    vm_compute; reflexivity.
Defined.

(** X14: the identity map.  Once [get] has loaded a row, a second [get]
    of the same identifier in the same scope returns the very same
    instance, creates no new one and does not read the table: it gives
    that instance back even when the table has changed meanwhile or no
    longer holds the row. *)
Theorem get_twice_same_instance (cls : RepositoryClass) (id : UUID)
    (include_soft_deleted : bool) (s : State) (c : gmap string value)
    (t : gmap UUID (gmap string value)) :
  _identity_map s !! (entity_name cls, id) = None →
  rows s !! id = Some c →
  BaseRepository.active_filter cls include_soft_deleted c = true →
  (include_soft_deleted = false →
   _to_entity cls (mkModel id c) !! "is_active" = Some (VBool true)) →
  ∃ (r : nat) (s1 s2 : State),
    BaseRepository.get cls id include_soft_deleted s = (Ok (Some r), s1)
    ∧ BaseRepository.get cls id include_soft_deleted (set_rows (λ _, t) s1)
      = (Ok (Some r), s2)
    ∧ heap s2 = heap s1
    ∧ next_ref s2 = next_ref s1
    ∧ _identity_map s2 = _identity_map s1
    ∧ _tracked_entities s2 = _tracked_entities s1
    ∧ rows s2 = t.
Proof.
  intros Hmap Hrow Hact Hia.
  destruct (get_loads cls id include_soft_deleted s c Hmap Hrow Hact)
    as (s1 & Hget & Hrows & Hheap & Hidm & Hov).
  exists (next_ref s), s1.
  unfold BaseRepository.get at 2.
  unfold UnitOfWork.get_entity, deref, BaseRepository.record_version. unfold_M.
  cbv beta. cbn [_identity_map set_rows heap].
  rewrite Hidm, identity_lookup_insert_eq. cbn beta iota.
  replace (heap (set_rows (λ _, t) s1)) with (heap s1) by reflexivity.
  rewrite Hheap, lookup_insert_eq.
  cbn beta iota.
  assert (Hcond : include_soft_deleted
                  || hasattr (mkObject (entity_name cls) (_to_entity cls (mkModel id c)) [])
                       "is_active"
                     && truthy (getattr (mkObject (entity_name cls)
                                           (_to_entity cls (mkModel id c)) []) "is_active")
                  = true).
  { destruct include_soft_deleted; [done|]. simpl.
    unfold hasattr, getattr, dict_get. simpl. rewrite (Hia eq_refl). simpl.
    done. }
  rewrite Hcond.
  destruct (use_versioning cls && hasattr _ "version"); simpl;
    eexists; (split; [exact Hget|]); (split; [reflexivity|]); simpl;
    rewrite ?Hheap, ?Hidm; repeat split; reflexivity.
Qed.

Lemma get_twice_same_instance_witness :
  ∃ (r : nat) (s1 s2 : State),
    BaseRepository.get RunRepository.class 7 false example_table_scope = (Ok (Some r), s1)
    ∧ BaseRepository.get RunRepository.class 7 false (set_rows (λ _, ∅) s1)
      = (Ok (Some r), s2)
    ∧ heap s2 = heap s1
    ∧ next_ref s2 = next_ref s1
    ∧ _identity_map s2 = _identity_map s1
    ∧ _tracked_entities s2 = _tracked_entities s1
    ∧ rows s2 = ∅.
Proof.
  apply (get_twice_same_instance RunRepository.class 7 false example_table_scope
           example_row ∅).
  - vm_compute. reflexivity.
  - vm_compute. reflexivity.
  - vm_compute. reflexivity.
  - intros _. vm_compute. reflexivity.
Defined.

(** ** Repository: update *)

(** X15: with versioning on, [update] of an identifier for which the
    repository has recorded no baseline (the entity was not obtained
    through [get] or [list]) raises [ConcurrencyError] with expected
    version -1, the entity's own version as actual version (-1 when it
    has none) and the hint to retrieve the entity first; it does so
    before looking at the table, even when the row does not exist, and
    changes nothing. *)
Theorem update_untracked_raises (cls : RepositoryClass) (now db_now : datetime)
    (id : UUID) (entity : nat) (o : object) (user : option string) (s : State) :
  use_versioning cls = true →
  _original_versions s !! id = None →
  heap s !! entity = Some o →
  BaseRepository.update cls now db_now id entity user s
  = (Err (ConcurrencyError (model_name cls) id (VInt (-1))
            (default (VInt (-1)) (__dict__ o !! "version"))
            (Some "Entity not tracked; retrieve it via get() first")), s).
Proof.
  intros Hver Hov Ho.
  unfold BaseRepository.update, deref. unfold_M. cbv beta.
  unfold dict_get. rewrite Hov, Hver. simpl. rewrite Ho. reflexivity.
Qed.

Lemma update_untracked_raises_witness :
  BaseRepository.update RunRepository.class 200 201 7 0%nat None example_scope
  = (Err (ConcurrencyError "RunModel" 7 (VInt (-1)) (VInt (-1))
            (Some "Entity not tracked; retrieve it via get() first")), example_scope).
Proof.
  exact (update_untracked_raises RunRepository.class 200 201 7 0%nat
           (mkObject "Run" {["id" := VUuid 7]} []) None example_scope
           eq_refl eq_refl eq_refl).
Defined.

(** X16: [update] of an identifier whose row is not in the table (with
    a recorded baseline, or with versioning off) raises
    [EntityNotFoundError] naming the model and the identifier; the
    entity is not touched and nothing is rolled back. *)
Theorem update_missing_row_raises (cls : RepositoryClass) (now db_now : datetime)
    (id : UUID) (entity : nat) (user : option string) (s : State) :
  use_versioning cls = false ∨ dict_get (_original_versions s) id ≠ VNone →
  rows s !! id = None →
  BaseRepository.update cls now db_now id entity user s
  = (Err (EntityNotFoundError (model_name cls) id), s).
Proof.
  intros H Hrow.
  unfold BaseRepository.update, db_get. unfold_M. cbv beta.
  assert (Hc : use_versioning cls && bool_decide (dict_get (_original_versions s) id = VNone)
               = false).
  { destruct H as [-> | H]; [done|]. rewrite (bool_decide_eq_false_2 _ H).
    apply andb_false_r. }
  rewrite Hc. simpl. rewrite Hrow. reflexivity.
Qed.

Lemma update_missing_row_raises_witness :
  BaseRepository.update RunRepository.class 200 201 7 0%nat None
    (set_rows (λ _, ∅) example_loaded)
  = (Err (EntityNotFoundError "RunModel" 7), set_rows (λ _, ∅) example_loaded).
Proof.
  apply (update_missing_row_raises RunRepository.class 200 201 7 0%nat None
           (set_rows (λ _, ∅) example_loaded)).
  - right. vm_compute. discriminate.
  - vm_compute. reflexivity.
Defined.

Lemma update_success_state
    (cls : RepositoryClass) (id : UUID) (s : State) (entity : nat) (o : object)
    (c : gmap string value) (v : Z) (now db_now : datetime) (user : option string) :
  use_versioning cls = true →
  "updated_at" ∈ columns cls →
  _identity_map s !! (entity_name cls, id) = Some entity →
  heap s !! entity = Some o →
  is_domain_entity o = true →
  rows s !! id = Some c →
  dict_get c "version" = VInt v →
  dict_get (_original_versions s) id = VInt v →
  dict_get c "updated_at" ≠ VTime now →
  let o1 := touch now user o in
  let data := BaseRepository._get_changed_data cls o1 (mkModel id c) true in
  let c' := (sql_eval c <$> <["version" := VersionPlusOne]> (Lit <$> data)) ∪ c in
  let o' := BaseRepository._update_entity_from_model cls o1 (mkModel id c') in
  ∃ s' : State,
    BaseRepository.update cls now db_now id entity user s = (Ok entity, s')
    ∧ rows s' = <[id := c']> (rows s)
    ∧ heap s' = <[entity := o']> (heap s)
    ∧ _identity_map s' = _identity_map s
    ∧ _tracked_entities s' = _tracked_entities s
    ∧ committed s' = committed s
    ∧ _original_versions s'
      = (if hasattr o' "version" then <[id := getattr o' "version"]> (_original_versions s)
         else _original_versions s).
Proof.
  intros Hver Hcol Hmap Ho Hdom Hrow Hv Hexp Hua o1 data c' o'.
  pose proof (changed_data_after_touch cls o (mkModel id c) now user Hcol) as Hd.
  rewrite model_attr_not_id in Hd by discriminate. specialize (Hd Hua).
  fold o1 in Hd. fold data in Hd.
  assert (Hdata : data ≠ ∅).
  { intros Hempty. rewrite Hempty, lookup_empty in Hd. discriminate. }
  assert (Hset : model_has cls "updated_at"
                 && negb (bool_decide (is_Some
                      ((<["version" := VersionPlusOne]> (Lit <$> data)
                        : gmap string set_expr) !! "updated_at"))) = false).
  { rewrite lookup_insert_ne by discriminate. rewrite lookup_fmap, Hd. simpl.
    apply andb_false_r. }
  unfold BaseRepository.update, db_get, deref, store, db_execute_update,
    BaseRepository.record_version, UnitOfWork.get_entity.
  unfold_M. cbv beta. rewrite Hexp, Hver. simpl.
  rewrite Hrow. simpl. rewrite model_attr_not_id by discriminate. simpl.
  rewrite Hv. rewrite bool_decide_eq_false_2 by (intros H; by apply H). simpl.
  rewrite Ho. simpl. rewrite Hdom. simpl. rewrite lookup_insert_eq. simpl.
  fold o1. fold data.
  rewrite (bool_decide_eq_false_2 _ Hdata). simpl.
  rewrite Hrow. unfold where_matches. rewrite Hv. simpl.
  rewrite bool_decide_eq_true_2 by done. simpl.
  rewrite Hset.
  rewrite Hmap. simpl. rewrite lookup_insert_eq. simpl. rewrite lookup_insert_eq. simpl.
  fold c'. fold o'.
  destruct (hasattr o' "version"); simpl;
    eexists; (split; [reflexivity|]); simpl; rewrite insert_insert_eq; repeat split.
Qed.

Lemma touch_class (now : datetime) (user : option string) (o : object) :
  class_of (touch now user o) = class_of o.
Proof.
  unfold touch. destruct user as [u|]; [destruct (truthy (VStr u))|]; reflexivity.
Qed.

Lemma touch_has (now : datetime) (user : option string) (o : object) (k : string) :
  is_Some (__dict__ o !! k) → is_Some (__dict__ (touch now user o) !! k).
Proof.
  intros H. unfold touch.
  assert (H1 : is_Some (__dict__ (setattr "updated_at" (VTime now) o) !! k)).
  { simpl. destruct (decide (k = "updated_at")) as [->|Hne].
    - rewrite lookup_insert_eq. eauto.
    - by rewrite lookup_insert_ne. }
  destruct user as [u|]; [destruct (truthy (VStr u))|]; try exact H1.
  simpl. destruct (decide (k = "updated_by")) as [->|Hne].
  - rewrite lookup_insert_eq. eauto.
  - by rewrite lookup_insert_ne.
Qed.

Lemma update_entity_from_model_class (cls : RepositoryClass) (o : object) (m : Model) :
  class_of (BaseRepository._update_entity_from_model cls o m) = class_of o.
Proof.
  unfold BaseRepository._update_entity_from_model.
  generalize (columns cls). intros l. revert o.
  induction l as [|k l IH]; intros o; simpl; [done|].
  rewrite IH. case_bool_decide; [done|]. destruct (hasattr o k); done.
Qed.

Lemma written_row_lookup (c : gmap string value) (data : gmap string value) (f : string) :
  f ≠ "version" →
  dict_get ((sql_eval c <$> <["version" := VersionPlusOne]> (Lit <$> data)) ∪ c) f
  = match data !! f with Some x => x | None => dict_get c f end.
Proof.
  intros Hf. unfold dict_get.
  destruct (data !! f) as [x|] eqn:Hd.
  - erewrite lookup_union_Some_l; [reflexivity|].
    rewrite lookup_fmap, lookup_insert_ne by done. by rewrite lookup_fmap, Hd.
  - rewrite lookup_union_r; [reflexivity|].
    rewrite lookup_fmap, lookup_insert_ne by done. by rewrite lookup_fmap, Hd.
Qed.

(** X17: a successful [update] leaves the scope ready for the next one.
    When a loaded entity is updated (the stored version being the
    recorded baseline [v]), the recorded baseline becomes [v + 1], so a
    second [update] of the same entity in the same scope, at a later
    instant, succeeds as well: the stored version, the entity's version
    and the baseline all end at [v + 2]. *)
Theorem update_twice_succeeds
    (cls : RepositoryClass) (id : UUID) (s : State) (entity : nat) (o : object)
    (c : gmap string value) (v : Z) (now1 db_now1 now2 db_now2 : datetime)
    (user1 user2 : option string) :
  use_versioning cls = true →
  "updated_at" ∈ columns cls →
  "version" ∈ columns cls →
  _identity_map s !! (entity_name cls, id) = Some entity →
  heap s !! entity = Some o →
  is_domain_entity o = true →
  is_Some (__dict__ o !! "version") →
  rows s !! id = Some c →
  dict_get c "version" = VInt v →
  dict_get (_original_versions s) id = VInt v →
  dict_get c "updated_at" ≠ VTime now1 →
  now2 ≠ now1 →
  ∃ (s1 s2 : State) (c2 : gmap string value) (o2 : object),
    BaseRepository.update cls now1 db_now1 id entity user1 s = (Ok entity, s1)
    ∧ dict_get (_original_versions s1) id = VInt (v + 1)
    ∧ BaseRepository.update cls now2 db_now2 id entity user2 s1 = (Ok entity, s2)
    ∧ rows s2 !! id = Some c2
    ∧ dict_get c2 "version" = VInt (v + 2)
    ∧ heap s2 !! entity = Some o2
    ∧ getattr o2 "version" = VInt (v + 2)
    ∧ dict_get (_original_versions s2) id = VInt (v + 2).
Proof.
  intros Hver Hcol Hvcol Hmap Ho Hdom Hattr Hrow Hv Hexp Hua Hnow.
  destruct (update_success_state cls id s entity o c v now1 db_now1 user1
              Hver Hcol Hmap Ho Hdom Hrow Hv Hexp Hua)
    as (s1 & Hup1 & Hrows1 & Hheap1 & Hidm1 & _ & _ & Hov1).
  set (o1 := touch now1 user1 o) in *.
  set (data1 := BaseRepository._get_changed_data cls o1 (mkModel id c) true) in *.
  set (c1 := (sql_eval c <$> <["version" := VersionPlusOne]> (Lit <$> data1)) ∪ c) in *.
  set (o1' := BaseRepository._update_entity_from_model cls o1 (mkModel id c1)) in *.
  assert (Hc1v : dict_get c1 "version" = VInt (v + 1)).
  { exact (written_row_version c v false db_now1 data1 Hv). }
  assert (Hc1u : dict_get c1 "updated_at" = VTime now1).
  { unfold c1. rewrite written_row_lookup by discriminate.
    pose proof (changed_data_after_touch cls o (mkModel id c) now1 user1 Hcol) as Hd.
    rewrite model_attr_not_id in Hd by discriminate. specialize (Hd Hua).
    fold o1 in Hd. fold data1 in Hd. by rewrite Hd. }
  assert (Ho1'v : __dict__ o1' !! "version" = Some (VInt (v + 1))).
  { unfold o1'. rewrite update_entity_from_model_attr; try done.
    - rewrite model_attr_not_id by discriminate. simpl. by rewrite Hc1v.
    - by apply touch_has. }
  assert (Hdom1 : is_domain_entity o1' = true).
  { unfold is_domain_entity, o1'. rewrite update_entity_from_model_class.
    unfold o1. rewrite touch_class. exact Hdom. }
  assert (Hhas1 : hasattr o1' "version" = true).
  { unfold hasattr. rewrite Ho1'v. apply bool_decide_eq_true_2. eauto. }
  rewrite Hhas1 in Hov1.
  assert (Hexp1 : dict_get (_original_versions s1) id = VInt (v + 1)).
  { rewrite Hov1. unfold dict_get, getattr, dict_get.
    rewrite lookup_insert_eq. simpl. by rewrite Ho1'v. }
  assert (Hrow1 : rows s1 !! id = Some c1) by (rewrite Hrows1; apply lookup_insert_eq).
  assert (Hheap1' : heap s1 !! entity = Some o1') by (rewrite Hheap1; apply lookup_insert_eq).
  assert (Hua1 : dict_get c1 "updated_at" ≠ VTime now2).
  { rewrite Hc1u. intros [= H]. by apply Hnow. }
  rewrite <- Hidm1 in Hmap.
  destruct (update_success_state cls id s1 entity o1' c1 (v + 1) now2 db_now2 user2
              Hver Hcol Hmap Hheap1' Hdom1 Hrow1 Hc1v Hexp1 Hua1)
    as (s2 & Hup2 & Hrows2 & Hheap2 & _ & _ & _ & Hov2).
  set (o2 := touch now2 user2 o1') in *.
  set (data2 := BaseRepository._get_changed_data cls o2 (mkModel id c1) true) in *.
  set (c2 := (sql_eval c1 <$> <["version" := VersionPlusOne]> (Lit <$> data2)) ∪ c1) in *.
  set (o2' := BaseRepository._update_entity_from_model cls o2 (mkModel id c2)) in *.
  assert (Hc2v : dict_get c2 "version" = VInt (v + 2)).
  { replace (v + 2) with (v + 1 + 1) by lia.
    exact (written_row_version c1 (v + 1) false db_now2 data2 Hc1v). }
  assert (Ho2'v : __dict__ o2' !! "version" = Some (VInt (v + 2))).
  { unfold o2'. rewrite update_entity_from_model_attr; try done.
    - rewrite model_attr_not_id by discriminate. simpl. by rewrite Hc2v.
    - apply touch_has. rewrite Ho1'v. eauto. }
  exists s1, s2, c2, o2'.
  split; [exact Hup1|]. split; [exact Hexp1|]. split; [exact Hup2|].
  split; [rewrite Hrows2; apply lookup_insert_eq|]. split; [exact Hc2v|].
  split; [rewrite Hheap2; apply lookup_insert_eq|].
  split; [unfold getattr, dict_get; by rewrite Ho2'v|].
  rewrite Hov2.
  assert (Hhas2 : hasattr o2' "version" = true).
  { unfold hasattr. rewrite Ho2'v. apply bool_decide_eq_true_2. eauto. }
  rewrite Hhas2. unfold dict_get, getattr, dict_get. rewrite lookup_insert_eq. simpl.
  by rewrite Ho2'v.
Qed.

Lemma update_twice_succeeds_witness :
  ∃ (s1 s2 : State) (c2 : gmap string value) (o2 : object),
    BaseRepository.update RunRepository.class 200 201 7 0%nat None example_loaded
    = (Ok 0%nat, s1)
    ∧ dict_get (_original_versions s1) 7%N = VInt (1 + 1)
    ∧ BaseRepository.update RunRepository.class 300 301 7 0%nat (Some "bob") s1
      = (Ok 0%nat, s2)
    ∧ rows s2 !! 7%N = Some c2
    ∧ dict_get c2 "version" = VInt (1 + 2)
    ∧ heap s2 !! 0%nat = Some o2
    ∧ getattr o2 "version" = VInt (1 + 2)
    ∧ dict_get (_original_versions s2) 7%N = VInt (1 + 2).
Proof.
  apply (update_twice_succeeds RunRepository.class 7 example_loaded 0%nat
           example_loaded_run example_row 1 200 201 300 301 None (Some "bob")).
  - reflexivity.
  - repeat first [apply list_elem_of_here | apply list_elem_of_further].
  - repeat first [apply list_elem_of_here | apply list_elem_of_further].
  - vm_compute. reflexivity.
  - vm_compute. reflexivity.
  - reflexivity.
  - eexists. vm_compute. reflexivity.
  - vm_compute. reflexivity.
  - vm_compute. reflexivity.
  - vm_compute. reflexivity.
  - vm_compute. discriminate.
  - lia.
Defined.

Lemma update_entity_from_model_excluded (cls : RepositoryClass) (o : object) (m : Model)
    (key : string) :
  key ∈ ["id"; "created_at"] →
  __dict__ (BaseRepository._update_entity_from_model cls o m) !! key
  = __dict__ o !! key.
Proof.
  intros Hkey. unfold BaseRepository._update_entity_from_model.
  generalize (columns cls). intros l. revert o.
  induction l as [|k l IH]; intros o; simpl; [done|].
  rewrite IH. case_bool_decide as Hk; [done|]. destruct (hasattr o k); [|done].
  simpl. apply lookup_insert_ne. intros ->. by apply Hk.
Qed.

Lemma touch_keeps (now : datetime) (user : option string) (o : object) (k : string) :
  k ≠ "updated_at" → k ≠ "updated_by" →
  __dict__ (touch now user o) !! k = __dict__ o !! k.
Proof.
  intros H1 H2. unfold touch.
  destruct user as [u|]; [destruct (truthy (VStr u))|]; simpl;
    rewrite ?lookup_insert_ne by done; reflexivity.
Qed.

(** X18: [update] never writes a column outside the allowed fields.
    When the loaded entity is updated, a column that is neither
    updatable nor [version] keeps its stored value whatever the entity
    holds for it.  What becomes of the entity's attribute depends on
    the column: for [id] and [created_at], which
    [_update_entity_from_model] skips, the entity keeps the value the
    caller assigned and so differs from the row from then on; for
    every other such column the attribute is overwritten with the
    stored value, and the caller's assignment is silently undone. *)
Theorem update_keeps_non_updatable_column
    (cls : RepositoryClass) (id : UUID) (s : State) (entity : nat) (o : object)
    (c : gmap string value) (v : Z) (now db_now : datetime) (user : option string)
    (f : string) :
  use_versioning cls = true →
  "updated_at" ∈ columns cls →
  _identity_map s !! (entity_name cls, id) = Some entity →
  heap s !! entity = Some o →
  is_domain_entity o = true →
  rows s !! id = Some c →
  dict_get c "version" = VInt v →
  dict_get (_original_versions s) id = VInt v →
  dict_get c "updated_at" ≠ VTime now →
  f ∈ columns cls →
  f ∉ BaseRepository.allowed_fields cls true →
  f ≠ "version" →
  is_Some (__dict__ o !! f) →
  ∃ (s' : State) (c' : gmap string value) (o' : object),
    BaseRepository.update cls now db_now id entity user s = (Ok entity, s')
    ∧ rows s' !! id = Some c'
    ∧ dict_get c' "version" = VInt (v + 1)
    ∧ dict_get c' f = dict_get c f
    ∧ heap s' !! entity = Some o'
    ∧ getattr o' f
      = if bool_decide (f ∈ ["id"; "created_at"]) then getattr o f else dict_get c f.
Proof.
  intros Hver Hcol Hmap Ho Hdom Hrow Hv Hexp Hua Hf Hna Hfv Hattr.
  destruct (update_success_state cls id s entity o c v now db_now user
              Hver Hcol Hmap Ho Hdom Hrow Hv Hexp Hua)
    as (s1 & Hup1 & Hrows1 & Hheap1 & _).
  set (o1 := touch now user o) in *.
  set (data1 := BaseRepository._get_changed_data cls o1 (mkModel id c) true) in *.
  set (c1 := (sql_eval c <$> <["version" := VersionPlusOne]> (Lit <$> data1)) ∪ c) in *.
  set (o1' := BaseRepository._update_entity_from_model cls o1 (mkModel id c1)) in *.
  assert (Hd : data1 !! f = None).
  { unfold data1. rewrite changed_data_lookup. destruct (decide _) as [[H _]|_]; [|done].
    by destruct Hna. }
  assert (Hc1f : dict_get c1 f = dict_get c f).
  { unfold c1. rewrite written_row_lookup by done. by rewrite Hd. }
  exists s1, c1, o1'.
  split; [exact Hup1|]. split; [rewrite Hrows1; apply lookup_insert_eq|].
  split; [exact (written_row_version c v false db_now data1 Hv)|].
  split; [exact Hc1f|]. split; [rewrite Hheap1; apply lookup_insert_eq|].
  unfold getattr, dict_get at 1 2, o1'.
  case_bool_decide as Hex.
  - rewrite update_entity_from_model_excluded by done.
    unfold o1. rewrite touch_keeps; [done| |]; intros ->;
      repeat (apply elem_of_cons in Hex as [Hex|Hex]; [discriminate|]);
      by apply elem_of_nil in Hex.
  - assert (Hfid : f ≠ "id") by (intros ->; apply Hex, list_elem_of_here).
    assert (Hfc : f ≠ "created_at")
      by (intros ->; apply Hex, list_elem_of_further, list_elem_of_here).
    rewrite update_entity_from_model_attr; try done.
    + simpl. rewrite model_attr_not_id by done. exact Hc1f.
    + by apply touch_has.
Qed.

Lemma update_keeps_non_updatable_column_witness :
  (∃ (s' : State) (c' : gmap string value) (o' : object),
     BaseRepository.update RunRepository.class 200 201 7 0%nat None example_backdated
     = (Ok 0%nat, s')
     ∧ rows s' !! 7%N = Some c'
     ∧ dict_get c' "version" = VInt (1 + 1)
     ∧ dict_get c' "created_at" = VTime 100
     ∧ heap s' !! 0%nat = Some o'
     ∧ getattr o' "created_at" = VTime 999)
  ∧ (∃ (s' : State) (c' : gmap string value) (o' : object),
       BaseRepository.update RunRepository.class 200 201 7 0%nat None example_reassigned
       = (Ok 0%nat, s')
       ∧ rows s' !! 7%N = Some c'
       ∧ dict_get c' "version" = VInt (1 + 1)
       ∧ dict_get c' "automation_id" = VUuid 3
       ∧ heap s' !! 0%nat = Some o'
       ∧ getattr o' "automation_id" = VUuid 3).
Proof.
  split.
  - apply (update_keeps_non_updatable_column RunRepository.class 7 example_backdated 0%nat
             (setattr "created_at" (VTime 999) example_loaded_run) example_row 1
             200 201 None "created_at").
    + reflexivity.
    + repeat first [apply list_elem_of_here | apply list_elem_of_further].
    + vm_compute. reflexivity.
    + vm_compute. reflexivity.
    + reflexivity.
    + vm_compute. reflexivity.
    + vm_compute. reflexivity.
    + vm_compute. reflexivity.
    + vm_compute. discriminate.
    + repeat first [apply list_elem_of_here | apply list_elem_of_further].
    + apply (bool_decide_eq_false_1
               ("created_at" ∈ BaseRepository.allowed_fields RunRepository.class true)).
      vm_compute. reflexivity.
    + discriminate.
    + eexists. vm_compute. reflexivity.
  - apply (update_keeps_non_updatable_column RunRepository.class 7 example_reassigned 0%nat
             (setattr "automation_id" (VUuid 99) example_loaded_run) example_row 1
             200 201 None "automation_id").
    + reflexivity.
    + repeat first [apply list_elem_of_here | apply list_elem_of_further].
    + vm_compute. reflexivity.
    + vm_compute. reflexivity.
    + reflexivity.
    + vm_compute. reflexivity.
    + vm_compute. reflexivity.
    + vm_compute. reflexivity.
    + vm_compute. discriminate.
    + repeat first [apply list_elem_of_here | apply list_elem_of_further].
    + apply (bool_decide_eq_false_1
               ("automation_id" ∈ BaseRepository.allowed_fields RunRepository.class true)).
      vm_compute. reflexivity.
    + discriminate.
    + eexists. vm_compute. reflexivity.
Defined.

(** ** Repository: delete *)

(** X19: optimistic locking of [delete].  With versioning on, when the
    version [delete] locks on (its [expected_version] argument, else
    the recorded baseline) differs from the stored version, a soft and
    a hard delete alike raise [ConcurrencyError] carrying the expected
    and the stored version; the row stays, and nothing else changes
    (the session is not rolled back). *)
Theorem stale_delete_raises (cls : RepositoryClass) (now db_now : datetime)
    (id : UUID) (soft : bool) (user : option string) (expected_version : value)
    (s : State) (c : gmap string value) (expected : value) :
  use_versioning cls = true →
  rows s !! id = Some c →
  (soft = true → model_has cls "is_active" = true) →
  (if bool_decide (expected_version = VNone)
   then dict_get (_original_versions s) id else expected_version) = expected →
  expected ≠ VNone →
  dict_get c "version" ≠ expected →
  BaseRepository.delete cls now db_now id soft user expected_version s
  = (Err (ConcurrencyError (model_name cls) id expected (dict_get c "version") None), s).
Proof.
  intros Hver Hrow Hsoft Hexp Hne Hstale.
  unfold BaseRepository.delete, db_execute_update, db_execute_delete, db_get.
  unfold_M. cbv beta. simpl. rewrite Hver, andb_true_r. simpl.
  rewrite Hexp. rewrite (bool_decide_eq_false_2 _ Hne). simpl.
  destruct soft.
  - rewrite (Hsoft eq_refl). simpl. rewrite Hrow. unfold where_matches.
    rewrite (bool_decide_eq_false_2 _ Hstale). simpl. rewrite Hrow. simpl.
    rewrite model_attr_not_id by discriminate. reflexivity.
  - rewrite Hrow. unfold where_matches.
    rewrite (bool_decide_eq_false_2 _ Hstale). simpl. rewrite Hrow. simpl.
    rewrite model_attr_not_id by discriminate. reflexivity.
Qed.

Lemma stale_delete_raises_witness :
  BaseRepository.delete RunRepository.class 300 301 7 false None VNone example_stale
  = (Err (ConcurrencyError (model_name RunRepository.class) 7 (VInt 1)
            (dict_get example_row_updated "version") None), example_stale).
Proof.
  apply (stale_delete_raises RunRepository.class 300 301 7 false None VNone example_stale
           example_row_updated (VInt 1)).
  - reflexivity.
  - vm_compute. reflexivity.
  - intros H. discriminate H.
  - vm_compute. reflexivity.
  - discriminate.
  - vm_compute. discriminate.
Defined.

Lemma odict_pop_keys {K V} `{EqDecision K} (k : K) (d : list (K * V)) :
  k ∉ (odict_pop k d).*1.
Proof.
  unfold odict_pop. intros H. apply list_elem_of_fmap in H as ([k' v] & -> & H).
  apply list_elem_of_filter in H as [H _]. simpl in H. by apply H.
Qed.

Lemma delete_hard_success (cls : RepositoryClass) (now db_now : datetime)
    (id : UUID) (user : option string) (expected_version : value)
    (s : State) (c : gmap string value) :
  rows s !! id = Some c →
  where_matches
    (if use_versioning cls
        && negb (bool_decide
                   ((if bool_decide (expected_version = VNone) && use_versioning cls
                     then dict_get (_original_versions s) id else expected_version)
                    = VNone))
     then Some (if bool_decide (expected_version = VNone) && use_versioning cls
                then dict_get (_original_versions s) id else expected_version)
     else None) c = true →
  ∃ s' : State,
    BaseRepository.delete cls now db_now id false user expected_version s = (Ok true, s')
    ∧ rows s' = delete id (rows s)
    ∧ _identity_map s' = delete (entity_name cls, id) (_identity_map s)
    ∧ _tracked_entities s'
      = (if UnitOfWork.has_entity (entity_name cls) id s
         then odict_pop (entity_name cls, id) (_tracked_entities s)
         else _tracked_entities s)
    ∧ _original_versions s' = delete id (_original_versions s)
    ∧ heap s' = heap s
    ∧ committed s' = committed s
    ∧ dispatched s' = dispatched s.
Proof.
  intros Hrow Hw.
  unfold BaseRepository.delete, db_execute_delete, db_get, UnitOfWork.unregister_entity.
  unfold_M. cbv beta. simpl. rewrite Hrow, Hw. simpl.
  destruct (UnitOfWork.has_entity (entity_name cls) id s) eqn:Hhas; simpl.
  - unfold UnitOfWork.has_entity in *. simpl. rewrite Hhas. simpl.
    eexists. split; [reflexivity|]. simpl. repeat split.
  - unfold UnitOfWork.has_entity in *. simpl. rewrite Hhas. simpl.
    eexists. split; [reflexivity|]. simpl. repeat split.
    apply bool_decide_eq_false in Hhas.
    unfold delete, identity_delete, identity_pop.
    unfold lookup at 1, identity_lookup, identity_get in Hhas. simpl in *.
    destruct (_identity_map s !! entity_name cls) as [d|] eqn:E; [|done].
    simpl in Hhas. rewrite delete_id.
    + symmetry. by apply insert_id.
    + destruct (d !! id) eqn:Ed; [|done]. exfalso. apply Hhas. eauto.
Qed.

(** X20: a hard delete of a loaded entity whose stored version is the
    recorded baseline removes the row and makes the scope forget the
    entity: it is no longer in the identity map, no longer tracked (so
    the events it still holds are not collected by a later commit), its
    baseline is dropped, and [get] and [exists] in the same scope no
    longer find it. *)
Theorem hard_delete_forgets_entity (cls : RepositoryClass) (now db_now : datetime)
    (id : UUID) (user : option string) (s : State) (c : gmap string value) (v : Z)
    (entity : nat) (include_soft_deleted : bool) :
  use_versioning cls = true →
  rows s !! id = Some c →
  dict_get c "version" = VInt v →
  dict_get (_original_versions s) id = VInt v →
  _identity_map s !! (entity_name cls, id) = Some entity →
  ∃ s' : State,
    BaseRepository.delete cls now db_now id false user VNone s = (Ok true, s')
    ∧ rows s' = delete id (rows s)
    ∧ UnitOfWork.has_entity (entity_name cls) id s' = false
    ∧ ((entity_name cls, id) ∉ (_tracked_entities s').*1)
    ∧ _original_versions s' !! id = None
    ∧ heap s' = heap s
    ∧ dispatched s' = dispatched s
    ∧ BaseRepository.get cls id include_soft_deleted s' = (Ok None, s')
    ∧ BaseRepository.exists_ cls id include_soft_deleted s' = (Ok false, s').
Proof.
  intros Hver Hrow Hv Hexp Hmap.
  destruct (delete_hard_success cls now db_now id user VNone s c Hrow)
    as (s' & Hdel & Hrows & Hidm & Htr & Hov & Hheap & _ & Hdis).
  { rewrite Hver. simpl. rewrite Hexp. simpl. unfold where_matches.
    rewrite Hv. simpl. by rewrite bool_decide_eq_true_2. }
  assert (Hhas : UnitOfWork.has_entity (entity_name cls) id s = true).
  { unfold UnitOfWork.has_entity. rewrite Hmap. apply bool_decide_eq_true_2. eauto. }
  rewrite Hhas in Htr.
  assert (Hnone : _identity_map s' !! (entity_name cls, id) = None).
  { rewrite Hidm. apply identity_lookup_delete_eq. }
  assert (Hrnone : rows s' !! id = None) by (rewrite Hrows; apply lookup_delete_eq).
  exists s'. split; [exact Hdel|]. split; [exact Hrows|].
  split. { unfold UnitOfWork.has_entity. rewrite Hnone. apply bool_decide_eq_false_2.
           by intros [? ?]. }
  split. { rewrite Htr. apply odict_pop_keys. }
  split. { rewrite Hov. apply lookup_delete_eq. }
  split; [exact Hheap|]. split; [exact Hdis|].
  split; [by apply get_miss|].
  unfold BaseRepository.exists_. unfold_M. by rewrite Hrnone.
Qed.

Lemma hard_delete_forgets_entity_witness :
  ∃ s' : State,
    BaseRepository.delete RunRepository.class 300 301 7 false None VNone example_loaded
    = (Ok true, s')
    ∧ rows s' = delete 7%N (rows example_loaded)
    ∧ UnitOfWork.has_entity (entity_name RunRepository.class) 7 s' = false
    ∧ ((entity_name RunRepository.class, 7%N) ∉ (_tracked_entities s').*1)
    ∧ _original_versions s' !! 7%N = None
    ∧ heap s' = heap example_loaded
    ∧ dispatched s' = dispatched example_loaded
    ∧ BaseRepository.get RunRepository.class 7 true s' = (Ok None, s')
    ∧ BaseRepository.exists_ RunRepository.class 7 true s' = (Ok false, s').
Proof.
  apply (hard_delete_forgets_entity RunRepository.class 300 301 7 None example_loaded
           example_row 1 0%nat true).
  - reflexivity.
  - vm_compute. reflexivity.
  - vm_compute. reflexivity.
  - vm_compute. reflexivity.
  - vm_compute. reflexivity.
Defined.

(** X21: [delete] does not insist on a baseline the way [update] does.
    For a row the scope has recorded no baseline for, a hard delete
    called without [expected_version] puts no version condition on the
    statement: it removes the row and returns [True] whatever the
    stored version is. *)
Theorem delete_unloaded_skips_version_check (cls : RepositoryClass)
    (now db_now : datetime) (id : UUID) (user : option string) (s : State)
    (c : gmap string value) :
  rows s !! id = Some c →
  _original_versions s !! id = None →
  ∃ s' : State,
    BaseRepository.delete cls now db_now id false user VNone s = (Ok true, s')
    ∧ rows s' = delete id (rows s)
    ∧ heap s' = heap s
    ∧ committed s' = committed s.
Proof.
  intros Hrow Hov.
  destruct (delete_hard_success cls now db_now id user VNone s c Hrow)
    as (s' & Hdel & Hrows & _ & _ & _ & Hheap & Hcom & _).
  { unfold dict_get. rewrite Hov. simpl.
    destruct (use_versioning cls); reflexivity. }
  exists s'. done.
Qed.

Lemma delete_unloaded_skips_version_check_witness :
  ∃ s' : State,
    BaseRepository.delete RunRepository.class 300 301 7 false None VNone example_table_scope
    = (Ok true, s')
    ∧ rows s' = delete 7%N (rows example_table_scope)
    ∧ heap s' = heap example_table_scope
    ∧ committed s' = committed example_table_scope.
Proof.
  apply (delete_unloaded_skips_version_check RunRepository.class 300 301 7 None
           example_table_scope example_row).
  - vm_compute. reflexivity.
  - vm_compute. reflexivity.
Defined.

(** ** Repository: refresh *)

(** X22: [refresh] of an entity whose identifier is not in the scope's
    identity map raises [RepositoryError] with the message that tells
    to load the entity first; it happens before the table is read and
    changes nothing. *)
Theorem refresh_untracked_raises (cls : RepositoryClass) (str_uuid : UUID → string)
    (entity : nat) (o : object) (i : UUID) (s : State) :
  heap s !! entity = Some o →
  __dict__ o !! "id" = Some (VUuid i) →
  _identity_map s !! (entity_name cls, i) = None →
  BaseRepository.refresh cls str_uuid entity s
  = (Err (RepositoryError
            ("Cannot refresh untracked " ++ entity_name cls ++ " with id " ++ str_uuid i
               ++ ". Load the entity via get() or list() first.")%string), s).
Proof.
  intros Ho Hid Hmap.
  unfold BaseRepository.refresh, deref, BaseRepository.id_of, UnitOfWork.has_entity.
  unfold_M. cbv beta. rewrite Ho. simpl. rewrite Hid. simpl. rewrite Hmap. simpl.
  reflexivity.
Qed.

Lemma refresh_untracked_raises_witness :
  BaseRepository.refresh RunRepository.class (λ _, "7") 0%nat example_scope
  = (Err (RepositoryError
            ("Cannot refresh untracked " ++ entity_name RunRepository.class
               ++ " with id " ++ "7"
               ++ ". Load the entity via get() or list() first.")%string), example_scope).
Proof.
  apply (refresh_untracked_raises RunRepository.class (λ _, "7") 0%nat
           (mkObject "Run" {["id" := VUuid 7]} []) 7 example_scope).
  - vm_compute. reflexivity.
  - vm_compute. reflexivity.
  - vm_compute. reflexivity.
Defined.

Lemma update_entity_from_model_id (cls : RepositoryClass) (o : object) (m : Model) :
  __dict__ (BaseRepository._update_entity_from_model cls o m) !! "id"
  = __dict__ o !! "id".
Proof.
  unfold BaseRepository._update_entity_from_model.
  generalize (columns cls). intros l. revert o.
  induction l as [|k l IH]; intros o; simpl; [done|].
  rewrite IH. case_bool_decide as Hk; [done|]. destruct (hasattr o k); [|done].
  simpl. apply lookup_insert_ne. intros ->. apply Hk. apply list_elem_of_here.
Qed.

Lemma refresh_state (cls : RepositoryClass) (str_uuid : UUID → string)
    (entity : nat) (o : object) (id : UUID) (s : State) (c : gmap string value) (r : nat) :
  heap s !! entity = Some o →
  __dict__ o !! "id" = Some (VUuid id) →
  _identity_map s !! (entity_name cls, id) = Some r →
  rows s !! id = Some c →
  let o' := BaseRepository._update_entity_from_model cls o (mkModel id c) in
  ∃ s' : State,
    BaseRepository.refresh cls str_uuid entity s = (Ok entity, s')
    ∧ rows s' = rows s
    ∧ heap s' = <[entity := o']> (heap s)
    ∧ _identity_map s' = _identity_map s
    ∧ _tracked_entities s' = _tracked_entities s
    ∧ _original_versions s'
      = (if use_versioning cls && hasattr o' "version"
         then <[id := getattr o' "version"]> (_original_versions s)
         else _original_versions s).
Proof.
  intros Ho Hid Hmap Hrow o'.
  pose proof (update_entity_from_model_id cls o (mkModel id c)) as Hid'.
  rewrite Hid in Hid'. fold o' in Hid'.
  unfold BaseRepository.refresh, BaseRepository._get_model_instance, deref, store,
    BaseRepository.id_of, UnitOfWork.has_entity, db_get, BaseRepository.record_version.
  unfold_M. cbv beta. rewrite Ho. simpl. rewrite Hid. simpl. rewrite Hmap. simpl.
  rewrite Ho. simpl. rewrite Hid. simpl. rewrite Hrow. simpl. rewrite Ho. simpl.
  rewrite lookup_insert_eq. simpl. fold o'.
  destruct (use_versioning cls && hasattr o' "version"); simpl.
  - rewrite Hid'. simpl. eexists. split; [reflexivity|]. simpl. repeat split.
  - eexists. split; [reflexivity|]. simpl. repeat split.
Qed.

(** X23: [refresh] is the way out of a version conflict.  For a loaded
    entity whose row is stored at version [v] (whatever baseline the
    scope had recorded), [refresh] overwrites every column attribute of
    the entity except [id] and [created_at] with the stored value,
    unsaved changes included, leaves the table alone and records [v] as
    the baseline; the [update] that follows then passes the version
    check and writes version [v + 1]. *)
Theorem refresh_then_update_succeeds
    (cls : RepositoryClass) (str_uuid : UUID → string) (id : UUID) (s : State)
    (entity : nat) (o : object) (c : gmap string value) (v : Z)
    (now db_now : datetime) (user : option string) :
  use_versioning cls = true →
  "updated_at" ∈ columns cls →
  "version" ∈ columns cls →
  _identity_map s !! (entity_name cls, id) = Some entity →
  heap s !! entity = Some o →
  __dict__ o !! "id" = Some (VUuid id) →
  is_Some (__dict__ o !! "version") →
  is_domain_entity o = true →
  rows s !! id = Some c →
  dict_get c "version" = VInt v →
  dict_get c "updated_at" ≠ VTime now →
  ∃ (s1 : State) (o1 : object),
    BaseRepository.refresh cls str_uuid entity s = (Ok entity, s1)
    ∧ rows s1 = rows s
    ∧ heap s1 !! entity = Some o1
    ∧ getattr o1 "version" = VInt v
    ∧ (∀ f : string, f ∈ columns cls → f ≠ "id" → f ≠ "created_at" →
         is_Some (__dict__ o !! f) → getattr o1 f = dict_get c f)
    ∧ dict_get (_original_versions s1) id = VInt v
    ∧ ∃ (s2 : State) (c2 : gmap string value),
        BaseRepository.update cls now db_now id entity user s1 = (Ok entity, s2)
        ∧ rows s2 !! id = Some c2
        ∧ dict_get c2 "version" = VInt (v + 1).
Proof.
  intros Hver Hcol Hvcol Hmap Ho Hid Hattr Hdom Hrow Hv Hua.
  destruct (refresh_state cls str_uuid entity o id s c entity Ho Hid Hmap Hrow)
    as (s1 & Href & Hrows & Hheap & Hidm & _ & Hov).
  set (o1 := BaseRepository._update_entity_from_model cls o (mkModel id c)) in *.
  assert (Hattrs : ∀ f : string, f ∈ columns cls → f ≠ "id" → f ≠ "created_at" →
            is_Some (__dict__ o !! f) → getattr o1 f = dict_get c f).
  { intros f Hf Hfi Hfc Hfa. unfold getattr, dict_get at 1, o1.
    rewrite update_entity_from_model_attr by done. simpl.
    by rewrite model_attr_not_id. }
  assert (Ho1v : getattr o1 "version" = VInt v).
  { rewrite Hattrs; try done. }
  assert (Hhas : hasattr o1 "version" = true).
  { unfold hasattr, o1. rewrite update_entity_from_model_attr by done.
    apply bool_decide_eq_true_2. eauto. }
  rewrite Hver, Hhas, Ho1v in Hov. simpl in Hov.
  assert (Hexp : dict_get (_original_versions s1) id = VInt v).
  { rewrite Hov. unfold dict_get. by rewrite lookup_insert_eq. }
  assert (Hheap1 : heap s1 !! entity = Some o1) by (rewrite Hheap; apply lookup_insert_eq).
  exists s1, o1. split; [exact Href|]. split; [exact Hrows|]. split; [exact Hheap1|].
  split; [exact Ho1v|]. split; [exact Hattrs|]. split; [exact Hexp|].
  rewrite <- Hidm in Hmap. rewrite <- Hrows in Hrow.
  destruct (update_writes_after_touch cls id s1 entity o1 c v now db_now user
              Hver Hcol Hmap Hheap1) as (s2 & c2 & H); try done.
  - unfold is_domain_entity, o1. rewrite update_entity_from_model_class. exact Hdom.
  - exists s2, c2. exact H.
Qed.

Lemma refresh_then_update_succeeds_witness :
  ∃ (s1 : State) (o1 : object),
    BaseRepository.refresh RunRepository.class (λ _, "7") 0%nat example_stale
    = (Ok 0%nat, s1)
    ∧ getattr o1 "version" = VInt 2
    ∧ dict_get (_original_versions s1) 7%N = VInt 2
    ∧ ∃ (s2 : State) (c2 : gmap string value),
        BaseRepository.update RunRepository.class 400 401 7 0%nat None s1 = (Ok 0%nat, s2)
        ∧ rows s2 !! 7%N = Some c2
        ∧ dict_get c2 "version" = VInt (2 + 1).
Proof.
  assert (Hu : "updated_at" ∈ columns RunRepository.class).
  { repeat first [apply list_elem_of_here | apply list_elem_of_further]. }
  assert (Hv : "version" ∈ columns RunRepository.class).
  { repeat first [apply list_elem_of_here | apply list_elem_of_further]. }
  assert (Hattr : is_Some (__dict__ (setattr "correlation_id" (VStr "second")
                                       example_loaded_run) !! "version")).
  { eexists. vm_compute. reflexivity. }
  assert (Hua : dict_get example_row_updated "updated_at" ≠ VTime 400).
  { vm_compute. discriminate. }
  assert (Hmap : _identity_map example_stale !! (entity_name RunRepository.class, 7%N)
                 = Some 0%nat).
  { vm_compute. reflexivity. }
  assert (Ho : heap example_stale !! 0%nat
               = Some (setattr "correlation_id" (VStr "second") example_loaded_run)).
  { vm_compute. reflexivity. }
  assert (Hid : __dict__ (setattr "correlation_id" (VStr "second") example_loaded_run)
                !! "id" = Some (VUuid 7)).
  { vm_compute. reflexivity. }
  assert (Hrow : rows example_stale !! 7%N = Some example_row_updated).
  { vm_compute. reflexivity. }
  assert (Hcv : dict_get example_row_updated "version" = VInt 2).
  { vm_compute. reflexivity. }
  destruct (refresh_then_update_succeeds RunRepository.class (λ _, "7") 7 example_stale
              0%nat (setattr "correlation_id" (VStr "second") example_loaded_run)
              example_row_updated 2 400 401 None
              eq_refl Hu Hv Hmap Ho Hid Hattr eq_refl Hrow Hcv Hua)
    as (s1 & o1 & Href & _ & _ & Hov & _ & Hexp & Hupd).
  exists s1, o1. split; [exact Href|]. split; [exact Hov|]. split; [exact Hexp|].
  exact Hupd.
Defined.

(** X24: calling [get] again does not get out of a version conflict.
    For a loaded entity whose in-memory version differs from the stored
    one, [get] returns the cached instance and records the instance's
    own version as the baseline, without reading the table; the
    [update] that follows raises [ConcurrencyError] with the in-memory
    version as expected and the stored one as actual, and changes
    nothing. *)
Theorem get_again_keeps_stale_baseline
    (cls : RepositoryClass) (id : UUID) (s : State) (entity : nat) (o : object)
    (c : gmap string value) (loaded stored : Z) (include_soft_deleted : bool)
    (now db_now : datetime) (user : option string) :
  use_versioning cls = true →
  _identity_map s !! (entity_name cls, id) = Some entity →
  heap s !! entity = Some o →
  __dict__ o !! "version" = Some (VInt loaded) →
  __dict__ o !! "is_active" = Some (VBool true) →
  rows s !! id = Some c →
  dict_get c "version" = VInt stored →
  stored ≠ loaded →
  ∃ s1 : State,
    BaseRepository.get cls id include_soft_deleted s = (Ok (Some entity), s1)
    ∧ dict_get (_original_versions s1) id = VInt loaded
    ∧ BaseRepository.update cls now db_now id entity user s1
      = (Err (ConcurrencyError (model_name cls) id (VInt loaded) (VInt stored) None), s1).
Proof.
  intros Hver Hmap Ho Hv Hia Hrow Hcv Hne.
  assert (Hget : BaseRepository.get cls id include_soft_deleted s
                 = (Ok (Some entity),
                    set_original_versions <[id := VInt loaded]> s)).
  { unfold BaseRepository.get, UnitOfWork.get_entity, deref, BaseRepository.record_version.
    unfold_M. simpl. rewrite Hmap, Ho. simpl.
    unfold hasattr, getattr, dict_get. rewrite Hia, Hv, Hver. simpl.
    rewrite orb_true_r. reflexivity. }
  set (s1 := set_original_versions <[id := VInt loaded]> s) in *.
  assert (Hexp : dict_get (_original_versions s1) id = VInt loaded).
  { simpl. unfold dict_get. by rewrite lookup_insert_eq. }
  assert (Hrow1 : rows s1 !! id = Some c) by exact Hrow.
  exists s1. split; [exact Hget|]. split; [exact Hexp|].
  clearbody s1.
  unfold BaseRepository.update, db_get. unfold_M. cbv beta.
  rewrite Hexp, Hver. simpl. rewrite Hrow1. simpl.
  rewrite model_attr_not_id by discriminate. simpl. rewrite Hcv.
  rewrite bool_decide_eq_true_2; [reflexivity|]. intros [= H]. by apply Hne.
Qed.

Lemma get_again_keeps_stale_baseline_witness :
  ∃ s1 : State,
    BaseRepository.get RunRepository.class 7 false example_stale = (Ok (Some 0%nat), s1)
    ∧ dict_get (_original_versions s1) 7%N = VInt 1
    ∧ BaseRepository.update RunRepository.class 400 401 7 0%nat None s1
      = (Err (ConcurrencyError (model_name RunRepository.class) 7 (VInt 1) (VInt 2) None),
         s1).
Proof.
  apply (get_again_keeps_stale_baseline RunRepository.class 7 example_stale 0%nat
           (setattr "correlation_id" (VStr "second") example_loaded_run)
           example_row_updated 1 2 false 400 401 None).
  - reflexivity.
  - vm_compute. reflexivity.
  - vm_compute. reflexivity.
  - vm_compute. reflexivity.
  - vm_compute. reflexivity.
  - vm_compute. reflexivity.
  - vm_compute. reflexivity.
  - lia.
Defined.

(** ** Repository: list *)

Lemma check_filters_ok (cls : RepositoryClass) (filters : list (string * value)) (s : State) :
  (∀ f, f ∈ filters → f.1 ∈ columns cls) →
  BaseRepository.check_filters cls filters s = (Ok tt, s).
Proof.
  induction filters as [|[field v] filters IH]; intros H; simpl; [done|].
  rewrite bool_decide_eq_true_2 by (apply (H (field, v)); apply list_elem_of_here).
  simpl. apply IH. intros f Hf. apply H. by apply list_elem_of_further.
Qed.

Lemma check_filters_invalid (cls : RepositoryClass) (filters1 filters2 : list (string * value))
    (field : string) (v : value) (s : State) :
  (∀ f, f ∈ filters1 → f.1 ∈ columns cls) →
  field ∉ columns cls →
  BaseRepository.check_filters cls (filters1 ++ (field, v) :: filters2) s
  = (Err (RepositoryError
            ("Invalid filter field: '" ++ field ++ "' for model " ++ model_name cls)%string),
     s).
Proof.
  induction filters1 as [|[field1 v1] filters1 IH]; intros H Hbad; simpl.
  - by rewrite bool_decide_eq_false_2.
  - rewrite bool_decide_eq_true_2 by (apply (H (field1, v1)); apply list_elem_of_here).
    simpl. apply IH; [|done]. intros f Hf. apply H. by apply list_elem_of_further.
Qed.

(** X25: [list] with a keyword filter that is not a column of the model
    raises [RepositoryError] for the first such name, whatever its
    value (even [None]) and whatever filters follow; the error raised
    inside is caught by the method's own handler, so the message reads
    "Failed to list entities: Invalid filter field: ...".  Nothing is
    loaded and nothing changes. *)
Theorem list_invalid_filter_raises (cls : RepositoryClass) (include_soft_deleted : bool)
    (filters1 filters2 : list (string * value)) (field : string) (v : value) (s : State) :
  (∀ f, f ∈ filters1 → f.1 ∈ columns cls) →
  field ∉ columns cls →
  BaseRepository.list_ cls include_soft_deleted (filters1 ++ (field, v) :: filters2) s
  = (Err (RepositoryError
            ("Failed to list entities: Invalid filter field: '" ++ field
               ++ "' for model " ++ model_name cls)%string),
     s).
Proof.
  intros H Hbad. unfold BaseRepository.list_. unfold_M.
  rewrite (check_filters_invalid cls filters1 filters2 field v s H Hbad). reflexivity.
Qed.

Lemma list_invalid_filter_raises_witness :
  BaseRepository.list_ RunRepository.class false
    ([("status", VStatus PENDING)] ++ ("bogus", VNone) :: [("version", VInt 1)])
    example_table_scope
  = (Err (RepositoryError
            ("Failed to list entities: Invalid filter field: '" ++ "bogus"
               ++ "' for model " ++ model_name RunRepository.class)%string),
     example_table_scope).
Proof.
  apply (list_invalid_filter_raises RunRepository.class false
           [("status", VStatus PENDING)] [("version", VInt 1)] "bogus" VNone
           example_table_scope).
  - intros f Hf. apply list_elem_of_singleton in Hf. subst f. simpl.
    repeat first [apply list_elem_of_here | apply list_elem_of_further].
  - apply (bool_decide_eq_false_1 ("bogus" ∈ columns RunRepository.class)).
    vm_compute. reflexivity.
Defined.

Lemma to_entity_or_update_spec (cls : RepositoryClass) (m : Model) (s : State) :
  ∃ (r : nat) (s1 : State),
    BaseRepository._to_entity_or_update cls m s = (Ok r, s1)
    ∧ rows s1 = rows s
    ∧ committed s1 = committed s
    ∧ dispatched s1 = dispatched s
    ∧ _identity_map s1 !! (entity_name cls, pk m) = Some r
    ∧ (∀ key r0, _identity_map s !! key = Some r0 → _identity_map s1 !! key = Some r0).
Proof.
  unfold BaseRepository._to_entity_or_update, UnitOfWork.get_entity, alloc,
    UnitOfWork.register_entity, deref, BaseRepository.record_version.
  unfold_M. simpl.
  destruct (_identity_map s !! (entity_name cls, pk m)) as [r|] eqn:Hmap; simpl.
  - exists r, s. repeat split; done.
  - rewrite lookup_insert_eq. simpl.
    destruct (use_versioning cls && bool_decide (is_Some (_to_entity cls m !! "version")));
      simpl; eexists _, _; (split; [reflexivity|]); simpl.
    all: repeat split.
    all: try apply identity_lookup_insert_eq.
    all: intros key r0 Hk; rewrite identity_lookup_insert_ne; [done|]; intros <-; congruence.
Qed.

Lemma to_entities_spec (cls : RepositoryClass) (models : list Model) :
  ∀ s : State,
    ∃ (refs : list nat) (s' : State),
      BaseRepository.to_entities cls models s = (Ok refs, s')
      ∧ length refs = length models
      ∧ rows s' = rows s
      ∧ committed s' = committed s
      ∧ dispatched s' = dispatched s
      ∧ Forall2 (λ r m, _identity_map s' !! (entity_name cls, pk m) = Some r) refs models
      ∧ (∀ key r0, _identity_map s !! key = Some r0 → _identity_map s' !! key = Some r0).
Proof.
  induction models as [|m models IH]; intros s; simpl.
  - exists [], s. unfold_M. repeat split; try done.
  - destruct (to_entity_or_update_spec cls m s) as (r & s1 & H1 & Hr1 & Hc1 & Hd1 & Hk1 & Hm1).
    destruct (IH s1) as (refs & s' & H2 & Hl & Hr2 & Hc2 & Hd2 & Hf & Hm2).
    exists (r :: refs), s'. unfold_M. rewrite H1, H2.
    split; [done|]. split; [simpl; by rewrite Hl|]. split; [congruence|].
    split; [congruence|]. split; [congruence|].
    split; [constructor; [by apply Hm2|done]|].
    intros key r0 Hk. by apply Hm2, Hm1.
Qed.

Lemma list_query_count_query (cls : RepositoryClass) (include_soft_deleted : bool)
    (filters : list (string * value)) (t : gmap UUID (gmap string value)) :
  (∀ f, f ∈ filters → f.1 ∈ columns cls) →
  BaseRepository.list_query cls include_soft_deleted filters t
  = BaseRepository.count_query cls include_soft_deleted filters t.
Proof.
  intros H. unfold BaseRepository.list_query, BaseRepository.count_query.
  apply map_filter_ext. intros i x _. simpl.
  assert (Hf : forallb (BaseRepository.list_filter_matches (mkModel i x)) filters
               = forallb (BaseRepository.filter_matches cls (mkModel i x)) filters).
  { induction filters as [|f filters IH]; simpl; [done|].
    rewrite IH by (intros g Hg; apply H; by apply list_elem_of_further).
    f_equal. unfold BaseRepository.list_filter_matches, BaseRepository.filter_matches,
      model_has.
    rewrite (bool_decide_eq_true_2 (f.1 ∈ columns cls))
      by (apply H; apply list_elem_of_here).
    reflexivity. }
  by rewrite Hf.
Qed.

(** X26: [list] and [count] agree.  When every filter names a column,
    [list] returns one instance per row that [count] counts for the
    same arguments, does not touch the table, and leaves each returned
    instance in the identity map under the identifier of its row; an
    instance the scope had already loaded is kept there, so [list]
    hands back that same instance for its row rather than a fresh
    copy. *)
Theorem list_agrees_with_count (cls : RepositoryClass) (include_soft_deleted : bool)
    (filters : list (string * value)) (s : State) :
  (∀ f, f ∈ filters → f.1 ∈ columns cls) →
  ∃ (refs : list nat) (s' : State),
    BaseRepository.list_ cls include_soft_deleted filters s = (Ok refs, s')
    ∧ BaseRepository.count cls include_soft_deleted filters s = (Ok (length refs), s)
    ∧ rows s' = rows s
    ∧ Forall2 (λ r kc, _identity_map s' !! (entity_name cls, kc.1) = Some r) refs
        (map_to_list (BaseRepository.list_query cls include_soft_deleted filters (rows s)))
    ∧ (∀ id r0, _identity_map s !! (entity_name cls, id) = Some r0 →
         _identity_map s' !! (entity_name cls, id) = Some r0).
Proof.
  intros H.
  set (sel := map_to_list (BaseRepository.list_query cls include_soft_deleted filters (rows s))).
  destruct (to_entities_spec cls ((λ kc, mkModel kc.1 kc.2) <$> sel) s)
    as (refs & s' & Hto & Hl & Hr & _ & _ & Hf & Hm).
  exists refs, s'.
  split.
  { unfold BaseRepository.list_. unfold_M. rewrite check_filters_ok by done.
    fold sel. by rewrite Hto. }
  split.
  { unfold BaseRepository.count. unfold_M.
    rewrite <- list_query_count_query by done.
    rewrite Hl, length_fmap. unfold sel. by rewrite length_map_to_list. }
  split; [exact Hr|]. split.
  - apply Forall2_fmap_r in Hf. exact Hf.
  - intros id r0. apply Hm.
Qed.

Lemma list_agrees_with_count_witness :
  ∃ (refs : list nat) (s' : State),
    BaseRepository.list_ RunRepository.class false [("status", VStatus PENDING)]
      example_table_scope
    = (Ok refs, s')
    ∧ BaseRepository.count RunRepository.class false [("status", VStatus PENDING)]
        example_table_scope
      = (Ok (length refs), example_table_scope)
    ∧ rows s' = rows example_table_scope.
Proof.
  destruct (list_agrees_with_count RunRepository.class false [("status", VStatus PENDING)]
              example_table_scope) as (refs & s' & Hl & Hc & Hr & _).
  { intros f Hf. apply list_elem_of_singleton in Hf. subst f. simpl.
    repeat first [apply list_elem_of_here | apply list_elem_of_further]. }
  exists refs, s'. split; [exact Hl|]. split; [exact Hc | exact Hr].
Defined.

(** ** Unit of work: the identity map and the end of the scope *)

Lemma register_entity_state (r : nat) (o : object) (i : UUID) (s : State) :
  heap s !! r = Some o →
  UnitOfWork.register_entity r (Some i) s
  = (Ok tt, set_tracked_entities (odict_set (class_of o, i) r)
              (set_identity_map <[(class_of o, i) := r]> s)).
Proof.
  intros Ho. unfold UnitOfWork.register_entity, deref. unfold_M. by rewrite Ho.
Qed.

Lemma odict_pop_set_fresh {K V} `{EqDecision K} (k : K) (v : V) (d : list (K * V)) :
  k ∉ d.*1 → odict_pop k (odict_set k v d) = d.
Proof.
  intros H. rewrite odict_set_fresh by done. unfold odict_pop.
  rewrite filter_app. rewrite (filter_cons_False _ (k, v)) by (intros Hk; by apply Hk).
  rewrite filter_nil, app_nil_r.
  induction d as [|[k' v'] d IH]; [done|].
  rewrite fmap_cons, not_elem_of_cons in H. destruct H as [Hne H].
  rewrite filter_cons_True by (simpl; intros Hk; by apply Hne). by rewrite IH.
Qed.

Lemma identity_delete_insert (k : string * UUID) (r : nat)
    (m : gmap string (gmap UUID nat)) :
  m !! k = None →
  delete k (<[k := r]> m) = <[k.1 := default ∅ (m !! k.1)]> m.
Proof.
  intros Hk.
  change (delete k (<[k := r]> m)) with (identity_pop k (identity_set k r m)).
  change (m !! k) with (default ∅ (m !! k.1) !! k.2) in Hk.
  unfold identity_pop, identity_set.
  rewrite lookup_insert_eq, insert_insert_eq.
  by rewrite delete_insert_id.
Qed.

(** X27: [unregister_entity] takes back what [register_entity] did, up
    to the dictionary of the class.  Registering an instance under a
    key the scope does not know makes [has_entity] true and
    [get_entity] return that instance; unregistering the key then makes
    [has_entity] false and [get_entity] [None] again, leaves every
    other key of the identity map as it was and the tracked entities
    exactly as before.  The scope is the one before the registration
    except that [_identity_map] now has an entry for the class: the
    dictionary the class had, or an empty one when the class had none
    ([register_entity] creates it, [unregister_entity] only pops the
    identifier).  When the class already had a dictionary the scope is
    exactly as before. *)
Theorem unregister_undoes_register (r : nat) (o : object) (i : UUID) (s : State) :
  heap s !! r = Some o →
  _identity_map s !! (class_of o, i) = None →
  ((class_of o, i) ∉ (_tracked_entities s).*1) →
  ∃ s1 s2 : State,
    UnitOfWork.register_entity r (Some i) s = (Ok tt, s1)
    ∧ UnitOfWork.has_entity (class_of o) i s1 = true
    ∧ UnitOfWork.get_entity (class_of o) i s1 = Some r
    ∧ UnitOfWork.unregister_entity (class_of o) i s1 = (Ok tt, s2)
    ∧ s2 = set_identity_map
             (λ m, <[class_of o := default ∅ (m !! class_of o)]> m) s
    ∧ (is_Some (_identity_map s !! class_of o) → s2 = s)
    ∧ (_identity_map s !! class_of o = None → _identity_map s2 !! class_of o = Some ∅)
    ∧ (∀ key : string * UUID, _identity_map s2 !! key = _identity_map s !! key)
    ∧ UnitOfWork.has_entity (class_of o) i s2 = false
    ∧ UnitOfWork.get_entity (class_of o) i s2 = None
    ∧ _tracked_entities s2 = _tracked_entities s.
Proof.
  intros Ho Hmap Htr.
  rewrite (register_entity_state r o i s Ho).
  eexists _, _. split; [reflexivity|].
  unfold UnitOfWork.has_entity, UnitOfWork.get_entity. simpl.
  rewrite identity_lookup_insert_eq. split; [apply bool_decide_eq_true_2; eauto|].
  split; [done|].
  unfold UnitOfWork.unregister_entity. unfold_M.
  split; [reflexivity|].
  assert (Hs2 : set_tracked_entities (odict_pop (class_of o, i))
      (set_identity_map (delete (class_of o, i))
         (set_tracked_entities (odict_set (class_of o, i) r)
            (set_identity_map <[(class_of o, i):=r]> s)))
     = set_identity_map (λ m, <[class_of o := default ∅ (m !! class_of o)]> m) s).
  { destruct s; simpl in *. unfold set_tracked_entities, set_identity_map. simpl.
    rewrite odict_pop_set_fresh by done.
    rewrite identity_delete_insert by done. reflexivity. }
  rewrite Hs2. split; [reflexivity|].
  assert (Hall : ∀ key : string * UUID,
            _identity_map (set_identity_map
               (λ m, <[class_of o := default ∅ (m !! class_of o)]> m) s) !! key
            = _identity_map s !! key).
  { intros [c j]. simpl.
    unfold lookup at 1 3, identity_lookup, identity_get. simpl.
    destruct (decide (class_of o = c)) as [<-|Hc].
    - by rewrite lookup_insert_eq.
    - by rewrite lookup_insert_ne. }
  split.
  { intros [d Hd]. destruct s; simpl in *. unfold set_identity_map. simpl.
    f_equal. rewrite Hd. simpl. by apply insert_id. }
  split.
  { intros Hn. simpl. rewrite lookup_insert_eq. by rewrite Hn. }
  split; [exact Hall|].
  rewrite Hall, Hmap. split; [by apply bool_decide_eq_false_2; intros [? ?]|].
  split; reflexivity.
Qed.

Lemma unregister_undoes_register_witness :
  ∃ s1 s2 : State,
    UnitOfWork.register_entity 0%nat (Some 7%N) example_scope = (Ok tt, s1)
    ∧ UnitOfWork.has_entity "Run" 7 s1 = true
    ∧ UnitOfWork.get_entity "Run" 7 s1 = Some 0%nat
    ∧ UnitOfWork.unregister_entity "Run" 7 s1 = (Ok tt, s2)
    ∧ _identity_map s2 = {["Run" := ∅]}
    ∧ UnitOfWork.has_entity "Run" 7 s2 = false
    ∧ _tracked_entities s2 = _tracked_entities example_scope.
Proof.
  destruct (unregister_undoes_register 0%nat (mkObject "Run" {["id" := VUuid 7]} []) 7
           example_scope eq_refl eq_refl (not_elem_of_nil _))
    as (s1 & s2 & H1 & H2 & H3 & H4 & H5 & _ & _ & _ & H6 & _ & H7).
  exists s1, s2. split; [exact H1|]. split; [exact H2|]. split; [exact H3|].
  split; [exact H4|]. split; [by rewrite H5|]. split; [exact H6 | exact H7].
Defined.

(** X28: registering a second instance under a key that is taken
    replaces the first one, in the identity map and among the tracked
    entities alike.  The commit that follows collects and dispatches
    the events of the second instance only; the events the first
    instance holds are not dispatched and stay in its buffer.  That
    commit returns when the second instance holds no event or the
    dispatch returns, and raises what the dispatch raises otherwise,
    the transaction being committed and the dispatch recorded all the
    same. *)
Theorem reregister_replaces_instance (r1 r2 : nat) (o1 o2 : object) (i : UUID) (s : State)
    (dispatch_ok : bool) :
  session s = true →
  _tracked_entities s = [] →
  heap s !! r1 = Some o1 →
  heap s !! r2 = Some o2 →
  class_of o1 = class_of o2 →
  r1 ≠ r2 →
  ∃ s1 s2 s3 : State,
    UnitOfWork.register_entity r1 (Some i) s = (Ok tt, s1)
    ∧ UnitOfWork.register_entity r2 (Some i) s1 = (Ok tt, s2)
    ∧ UnitOfWork.get_entity (class_of o1) i s2 = Some r2
    ∧ (_tracked_entities s2).*2 = [r2]
    ∧ UnitOfWork.commit true dispatch_ok s2
      = (match buffer (heap s) r2 with
         | [] => Ok tt
         | _ :: _ => if dispatch_ok then Ok tt else Err HandlerError
         end, s3)
    ∧ dispatched s3
      = dispatched s ++ match buffer (heap s) r2 with [] => [] | e :: es => [e :: es] end
    ∧ buffer (heap s3) r1 = buffer (heap s) r1.
Proof.
  intros Hsess Htr Ho1 Ho2 Hcls Hne.
  set (s1 := set_tracked_entities (odict_set (class_of o1, i) r1)
               (set_identity_map <[(class_of o1, i) := r1]> s)).
  set (s2 := set_tracked_entities (odict_set (class_of o2, i) r2)
               (set_identity_map <[(class_of o2, i) := r2]> s1)).
  assert (Ht2 : _tracked_entities s2 = [((class_of o2, i), r2)]).
  { unfold s2, s1. simpl. rewrite Htr, Hcls. simpl. by rewrite decide_True. }
  assert (Hh2 : heap s2 = heap s) by reflexivity.
  assert (Hd2 : dispatched s2 = dispatched s) by reflexivity.
  destruct (commit_succeeds s2 dispatch_ok Hsess) as (s3 & Hc & Hdis & Hheap & _).
  rewrite Ht2, Hh2 in Hc, Hdis, Hheap. rewrite Hd2 in Hdis.
  change ([((class_of o2, i), r2)].*2) with [r2] in Hc, Hdis, Hheap.
  assert (Hev : (UnitOfWork.collect [r2] (heap s)).1 = buffer (heap s) r2).
  { rewrite collect_events. simpl. by rewrite app_nil_r. }
  rewrite Hev in Hc, Hdis.
  exists s1, s2, s3.
  split; [exact (register_entity_state r1 o1 i s Ho1)|].
  split; [exact (register_entity_state r2 o2 i s1 Ho2)|].
  split.
  { unfold UnitOfWork.get_entity, s2. simpl. rewrite Hcls.
    apply identity_lookup_insert_eq. }
  split. { by rewrite Ht2. }
  split; [exact Hc|].
  split; [exact Hdis|].
  unfold buffer at 1. rewrite Hheap. fold (buffer (UnitOfWork.collect [r2] (heap s)).2 r1).
  apply collect_keeps. intros H. apply list_elem_of_singleton in H. by apply Hne.
Qed.

Lemma reregister_replaces_instance_witness :
  ∃ s1 s2 s3 : State,
    UnitOfWork.register_entity 0%nat (Some 7%N) example_scope_with_events = (Ok tt, s1)
    ∧ UnitOfWork.register_entity 1%nat (Some 7%N) s1 = (Ok tt, s2)
    ∧ UnitOfWork.commit true false s2 = (Err HandlerError, s3)
    ∧ dispatched s3 = [[RunFailed 8 3 "x" 12 13]]
    ∧ buffer (heap s3) 0%nat = [RunCompleted 7 3 10 11].
Proof.
  destruct (reregister_replaces_instance 0%nat 1%nat
              (mkObject "Run" {["id" := VUuid 7]} [RunCompleted 7 3 10 11])
              (mkObject "Run" {["id" := VUuid 8]} [RunFailed 8 3 "x" 12 13])
              7 example_scope_with_events false
              eq_refl eq_refl eq_refl eq_refl eq_refl ltac:(lia))
    as (s1 & s2 & s3 & H1 & H2 & _ & _ & Hc & Hd & Hb).
  exists s1, s2, s3. split; [exact H1|]. split; [exact H2|]. split; [exact Hc|].
  split; [exact Hd | exact Hb].
Defined.

(** X29: leaving the [with] block of a unit of work always closes it.
    Whether the block ended normally (commit) or with an exception
    (rollback), whether or not the commit went through and whether or
    not the dispatch of the collected events raised, after [__exit__]
    the session is gone and the identity map and the tracked entities
    are empty.  [__exit__] itself raises in two cases only, both after
    a block that ended normally: the commit failed, or the commit went
    through, events were collected and their dispatch raised (in which
    case the transaction stays committed and the dispatch is on
    record).  On rollback or failed commit nothing was dispatched and
    the table is back to its committed content.  Any later [commit] on
    the closed unit of work raises [RuntimeError] ("Session not
    initialized") and does nothing. *)
Theorem exit_closes_scope (raised commit_ok dispatch_ok : bool) (s : State) :
  session s = true →
  ∃ (r : outcome unit) (s' : State),
    UnitOfWork.__exit__ raised commit_ok dispatch_ok s = (r, s')
    ∧ r = (if raised then Ok tt
           else if commit_ok then
             match flat_map (buffer (heap s)) (first_occurrences (_tracked_entities s).*2) with
             | [] => Ok tt
             | _ :: _ => if dispatch_ok then Ok tt else Err HandlerError
             end
           else Err (DatabaseError "commit failed"))
    ∧ UnitOfWork.is_active s' = false
    ∧ _identity_map s' = ∅
    ∧ _tracked_entities s' = []
    ∧ (raised = true ∨ commit_ok = false →
         dispatched s' = dispatched s ∧ rows s' = committed s ∧ heap s' = heap s)
    ∧ (raised = false → commit_ok = true →
         committed s' = rows s ∧ rows s' = rows s
         ∧ dispatched s'
           = dispatched s
             ++ match flat_map (buffer (heap s))
                        (first_occurrences (_tracked_entities s).*2) with
                | [] => []
                | e :: es => [e :: es]
                end)
    ∧ ∀ ok d : bool,
        UnitOfWork.commit ok d s' = (Err (RuntimeError "Session not initialized"), s').
Proof.
  intros Hsess.
  assert (Hclosed : ∀ (s' : State) (ok d : bool), session s' = false →
            UnitOfWork.commit ok d s' = (Err (RuntimeError "Session not initialized"), s')).
  { intros s' ok d Hs'. unfold UnitOfWork.commit. unfold_M. by rewrite Hs'. }
  rewrite <- collect_events.
  unfold UnitOfWork.__exit__, UnitOfWork.commit, UnitOfWork.rollback,
    UnitOfWork._collect_events. unfold_M.
  destruct raised; simpl.
  - rewrite Hsess. eexists _, _. split; [reflexivity|]. simpl.
    split; [done|]. repeat split; try done; try (intros ok d; by apply Hclosed).
  - rewrite Hsess. simpl. destruct commit_ok; simpl.
    + destruct (UnitOfWork.collect _ _) as [events h] eqn:Hcol. simpl.
      destruct events; simpl; [|destruct dispatch_ok; simpl];
        eexists _, _; (split; [reflexivity|]); simpl;
        (split; [done|]); (repeat split; try done);
        try (match goal with H : _ ∨ _ |- _ => destruct H; discriminate end);
        try (intros ok d; by apply Hclosed);
        try (by rewrite app_nil_r).
    + rewrite Hsess. eexists _, _. split; [reflexivity|]. simpl.
      split; [done|]. repeat split; try done; try (intros ok d; by apply Hclosed).
Qed.

Lemma exit_closes_scope_witness :
  ∃ s' : State,
    UnitOfWork.__exit__ false true false
      (UnitOfWork.register_entity 0%nat (Some 7%N) example_scope_with_events).2
    = (Err HandlerError, s')
    ∧ UnitOfWork.is_active s' = false
    ∧ _identity_map s' = ∅
    ∧ dispatched s' = [[RunCompleted 7 3 10 11]]
    ∧ ∀ ok d : bool,
        UnitOfWork.commit ok d s' = (Err (RuntimeError "Session not initialized"), s').
Proof.
  destruct (exit_closes_scope false true false
              (UnitOfWork.register_entity 0%nat (Some 7%N) example_scope_with_events).2
              eq_refl)
    as (r & s' & He & Hr & Ha & Hm & _ & _ & Hd & Hc).
  exists s'. split; [by rewrite He, Hr|]. split; [exact Ha|]. split; [exact Hm|].
  split; [|exact Hc]. by destruct (Hd eq_refl eq_refl) as (_ & _ & ->).
Defined.

(** ** Event bus *)

Lemma call_handlers_spec (handler_raises : nat → DomainEvent → bool) (hs : list nat)
    (e : DomainEvent) :
  ∀ bus : EventBus.t,
    EventBus.call_handlers handler_raises hs e bus
    = match first_raise handler_raises ((λ h, (h, e)) <$> hs) with
      | Some c => Raise (EventBus.HandlerRaised c.1 c.2)
                    (with_called bus (until_raise handler_raises ((λ h, (h, e)) <$> hs)))
      | None => Return (with_called bus (until_raise handler_raises ((λ h, (h, e)) <$> hs)))
      end.
Proof.
  unfold first_raise.
  induction hs as [|h hs IH]; intros bus; simpl.
  - unfold with_called. rewrite app_nil_r. by destruct bus.
  - destruct (handler_raises h e) eqn:Hr; [reflexivity|].
    rewrite IH. unfold with_called. simpl. rewrite <- !app_assoc. reflexivity.
Qed.

Lemma until_raise_app (handler_raises : nat → DomainEvent → bool)
    (l1 l2 : list (nat * DomainEvent)) :
  until_raise handler_raises (l1 ++ l2)
  = match first_raise handler_raises l1 with
    | Some _ => until_raise handler_raises l1
    | None => l1 ++ until_raise handler_raises l2
    end.
Proof.
  unfold first_raise. induction l1 as [|c l1 IH]; simpl; [done|].
  destruct (handler_raises c.1 c.2); [done|]. rewrite IH.
  by destruct (find _ l1).
Qed.

Lemma until_raise_no_raise (handler_raises : nat → DomainEvent → bool)
    (l : list (nat * DomainEvent)) :
  first_raise handler_raises l = None → until_raise handler_raises l = l.
Proof.
  unfold first_raise. induction l as [|c l IH]; simpl; [done|].
  destruct (handler_raises c.1 c.2); [done|]. intros H. by rewrite IH.
Qed.

Lemma first_raise_app (handler_raises : nat → DomainEvent → bool)
    (l1 l2 : list (nat * DomainEvent)) :
  first_raise handler_raises (l1 ++ l2)
  = match first_raise handler_raises l1 with
    | Some c => Some c
    | None => first_raise handler_raises l2
    end.
Proof.
  unfold first_raise. induction l1 as [|c l1 IH]; simpl; [done|].
  by destruct (handler_raises c.1 c.2).
Qed.

Lemma dispatch_sync_spec (handler_raises : nat → DomainEvent → bool)
    (events : list DomainEvent) :
  ∀ bus : EventBus.t,
    EventBus.dispatch_sync handler_raises events bus
    = match first_raise handler_raises (dispatch_calls bus events) with
      | Some c =>
          Raise (EventBus.HandlerRaised c.1 c.2)
            (with_called bus (until_raise handler_raises (dispatch_calls bus events)))
      | None =>
          Return (with_called bus (until_raise handler_raises (dispatch_calls bus events)))
      end.
Proof.
  induction events as [|e events IH]; intros bus; simpl.
  - unfold with_called. simpl. rewrite app_nil_r. by destruct bus.
  - rewrite call_handlers_spec.
    unfold dispatch_calls in *. simpl. rewrite first_raise_app, until_raise_app.
    destruct (first_raise handler_raises ((λ h, (h, e)) <$> EventBus.handlers_for bus e))
      as [c|] eqn:Hf; [reflexivity|].
    rewrite (until_raise_no_raise _ _ Hf). rewrite IH.
    unfold with_called, EventBus.handlers_for. simpl. rewrite <- !app_assoc. reflexivity.
Qed.

(** X30: [EventBus.dispatch] asks, for each event in turn, each handler
    registered for the event's class, in registration order, and never
    changes the registrations nor the executor.  In synchronous mode
    the handlers are called in that order up to and including the
    first call that raises: that exception leaves [dispatch], and the
    handlers and events after it are not served.  In asynchronous mode
    no handler is called by [dispatch]; while the executor accepts
    calls, [dispatch] does not raise and submits every one of those
    calls, in the same order, keeping their futures; once the executor
    is shut down (or when the bus has none), the first [submit]
    raises, so [dispatch] raises exactly when there is a call to
    submit, and no future is added.  [shutdown] leaves a bus that has
    an executor with one that refuses calls, and keeps handlers and
    mode; a bus created in asynchronous mode has an executor that
    accepts calls, one created in synchronous mode has none. *)
Theorem dispatch_calls_handlers_in_order (handler_raises : nat → DomainEvent → bool)
    (events : list DomainEvent) (bus : EventBus.t) :
  let calls := dispatch_calls bus events in
  let after := state_of (EventBus.dispatch handler_raises events bus) in
  EventBus.handlers after = EventBus.handlers bus
  ∧ EventBus.executor after = EventBus.executor bus
  ∧ (EventBus.use_async bus = false →
       raised (EventBus.dispatch handler_raises events bus) = first_error handler_raises calls
       ∧ EventBus.called after = EventBus.called bus ++ until_raise handler_raises calls
       ∧ EventBus._futures after = EventBus._futures bus)
  ∧ (EventBus.use_async bus = true →
       EventBus.called after = EventBus.called bus
       ∧ (EventBus.executor bus = Some true →
            raised (EventBus.dispatch handler_raises events bus) = None
            ∧ EventBus._futures after = EventBus._futures bus ++ calls)
       ∧ (EventBus.executor bus ≠ Some true →
            raised (EventBus.dispatch handler_raises events bus)
            = match calls with
              | [] => None
              | _ :: _ => Some (match EventBus.executor bus with
                                | Some _ => EventBus.SubmitAfterShutdown
                                | None => EventBus.NoExecutor
                                end)
              end
            ∧ EventBus._futures after = EventBus._futures bus))
  ∧ (∀ wait : bool,
       EventBus.executor (EventBus.shutdown wait bus) = (λ _, false) <$> EventBus.executor bus
       ∧ EventBus.handlers (EventBus.shutdown wait bus) = EventBus.handlers bus
       ∧ EventBus.use_async (EventBus.shutdown wait bus) = EventBus.use_async bus)
  ∧ EventBus.executor (EventBus.init true) = Some true
  ∧ EventBus.executor (EventBus.init false) = None.
Proof.
  intros calls after. subst after. unfold EventBus.dispatch.
  fold (dispatch_calls bus events). fold calls.
  assert (Hsh : ∀ wait : bool,
       EventBus.executor (EventBus.shutdown wait bus) = (λ _, false) <$> EventBus.executor bus
       ∧ EventBus.handlers (EventBus.shutdown wait bus) = EventBus.handlers bus
       ∧ EventBus.use_async (EventBus.shutdown wait bus) = EventBus.use_async bus).
  { intros wait. unfold EventBus.shutdown.
    destruct (EventBus.executor bus) eqn:He; simpl; by rewrite ?He. }
  destruct (EventBus.use_async bus) eqn:Ha; simpl.
  - destruct calls as [|c calls'] eqn:Hcalls; simpl.
    + repeat split; try done; try (by rewrite app_nil_r); apply Hsh.
    + destruct (EventBus.executor bus) as [[|]|] eqn:He; simpl;
        rewrite ?He; repeat split; try done; apply Hsh.
  - rewrite dispatch_sync_spec. fold calls. unfold first_error.
    destruct (first_raise handler_raises calls); simpl; repeat split; try done;
      apply Hsh.
Qed.
